(** * Synthetic weather dashboards

    A shallow embedding of [dashboard.py] (the time-series panel) and of
    [weather_map_dashboard.py] (the choropleth map), two Streamlit scripts.

    - Numbers are IEEE binary64 values ([PrimFloat.float]), as NumPy and
      Python have them.
    - A script is a computation in a state-and-exception monad [M]: the
      state carries the trace of everything the script emitted (Streamlit
      elements and log records), NumPy's global generator, the number of
      clock reads so far and Streamlit's session flag.
    - Three things can end a computation: a value, a Python exception, or
      [st.stop()], which Streamlit implements with a script-control
      exception that is not an [Exception] and so passes through every
      [except Exception] clause of the scripts.
    - What lives outside the repository (the generator behind [np.random],
      [sin] and [cos], pandas reductions, the clock, the geometry file, the
      folium and Streamlit calls that may raise) is gathered in a record
      [Env] over which every statement quantifies. *)

From Stdlib Require Import String Ascii ZArith List Bool Floats Uint63.
From Stdlib Require Import DecimalString Lia.
Import ListNotations.
Open Scope string_scope.
Open Scope list_scope.
Set Warnings "-inexact-float,-register-all".

Infix "+++" := String.append (right associativity, at level 60).

(** ** Python values, exceptions *)

Inductive pyval : Type :=
| VNone
| VInt (z : Z)
| VFloat (f : float)
| VStr (s : string)
| VList (l : list pyval)
| VTuple (l : list pyval)
| VDict (d : list (string * pyval)).

Inductive exn_class : Type :=
| ImportError | FileNotFoundError | KeyError | IndexError
| ValueError | TypeError | AttributeError | OtherError.

(** An exception: its class and [str(e)]. *)
Record exn : Type := Exn { exn_cls : exn_class; exn_str : string }.

Definition is_class (c : exn_class) (e : exn) : bool :=
  match c, exn_cls e with
  | ImportError, ImportError | FileNotFoundError, FileNotFoundError
  | KeyError, KeyError | IndexError, IndexError | ValueError, ValueError
  | TypeError, TypeError | AttributeError, AttributeError
  | OtherError, OtherError => true
  | _, _ => false
  end.

(** ** pandas frames *)

Inductive cell : Type :=
| CFloat (f : float)
| CTime (t : Z)
| CNaT
| CStr (s : string)
| CNone.

(** A column with its dtype: float64, datetime64 (microseconds since the
    epoch, [None] for NaT) or object. *)
Inductive column : Type :=
| FloatCol (l : list float)
| TimeCol (l : list (option Z))
| ObjectCol (l : list (option string)).

Definition DataFrame : Type := list (string * column).

Definition column_cells (c : column) : list cell :=
  match c with
  | FloatCol l => map CFloat l
  | TimeCol l => map (fun o => match o with Some t => CTime t | None => CNaT end) l
  | ObjectCol l => map (fun o => match o with Some s => CStr s | None => CNone end) l
  end.

Definition column_len (c : column) : nat := length (column_cells c).

Definition df_columns (df : DataFrame) : list string := map fst df.

Definition df_len (df : DataFrame) : nat :=
  match df with
  | [] => 0
  | (_, c) :: _ => column_len c
  end.

Definition df_shape (df : DataFrame) : pyval :=
  VTuple [VInt (Z.of_nat (df_len df)); VInt (Z.of_nat (length df))].

Fixpoint df_get (df : DataFrame) (name : string) : option column :=
  match df with
  | [] => None
  | (n, c) :: rest => if String.eqb n name then Some c else df_get rest name
  end.

Definition has_column (df : DataFrame) (name : string) : bool :=
  existsb (String.eqb name) (df_columns df).

Definition column_head (n : nat) (c : column) : column :=
  match c with
  | FloatCol l => FloatCol (firstn n l)
  | TimeCol l => TimeCol (firstn n l)
  | ObjectCol l => ObjectCol (firstn n l)
  end.

(** [df.head()] *)
Definition df_head (df : DataFrame) : DataFrame :=
  map (fun nc => (fst nc, column_head 5 (snd nc))) df.

Definition is_nan (x : float) : bool := negb (PrimFloat.eqb x x).

Definition cell_isnull (c : cell) : bool :=
  match c with
  | CFloat f => is_nan f
  | CTime _ | CStr _ => false
  | CNaT | CNone => true
  end.

(** [df.isnull().sum()]: the number of null cells of each column. *)
Definition isnull_sum (df : DataFrame) : list (string * nat) :=
  map (fun nc => (fst nc, length (filter cell_isnull (column_cells (snd nc))))) df.

Definition is_datetime64_any_dtype (c : column) : bool :=
  match c with
  | TimeCol _ => true
  | _ => false
  end.

(** ** Region frames and folium maps *)

Inductive Geometry : Type := Polygon (ring : list (float * float)).

(** The cells of one row of the region frame. A cell is [None] when the
    value is missing: the feature has no such property, or the frame has no
    such column at all. Which of the two it is, the columns of the frame
    tell: [row_getitem] below raises [KeyError] for a label that is not a
    column, and gives the cell (NaN when missing) for one that is. *)
Record Feature : Type := mkFeature {
  region : option string;
  geometry : Geometry;
  Temperature : option float
}.

Record GeoDataFrame : Type := mkGdf {
  gdf_columns : list string;
  gdf_rows : list Feature
}.

Definition gdf_has_column (g : GeoDataFrame) (name : string) : bool :=
  existsb (String.eqb name) (gdf_columns g).

Definition option_string_eqb (x y : option string) : bool :=
  match x, y with
  | Some a, Some b => String.eqb a b
  | None, None => true
  | _, _ => false
  end.

Definition gdf_shape (g : GeoDataFrame) : pyval :=
  VTuple [VInt (Z.of_nat (length (gdf_rows g)));
          VInt (Z.of_nat (length (gdf_columns g)))].

(** [regions_gdf.empty]: no rows or no columns. *)
Definition gdf_empty (g : GeoDataFrame) : bool :=
  match gdf_rows g, gdf_columns g with
  | [], _ | _, [] => true
  | _, _ => false
  end.

Definition gdf_head (g : GeoDataFrame) : GeoDataFrame :=
  mkGdf (gdf_columns g) (firstn 5 (gdf_rows g)).

(** [series.unique()]: distinct values in order of first appearance. *)
Fixpoint unique (seen l : list (option string)) : list (option string) :=
  match l with
  | [] => []
  | x :: rest =>
      if existsb (option_string_eqb x) seen
      then unique seen rest
      else x :: unique (x :: seen) rest
  end.

(** [regions_gdf['Temperature'] = values], one value per row. *)
Definition set_Temperature (g : GeoDataFrame) (values : list float) : GeoDataFrame :=
  mkGdf (if gdf_has_column g "Temperature" then gdf_columns g
         else gdf_columns g ++ ["Temperature"])
        (map (fun rv => mkFeature (region (fst rv)) (geometry (fst rv)) (Some (snd rv)))
             (combine (gdf_rows g) values)).

Definition Temperature_values (g : GeoDataFrame) : list float :=
  flat_map (fun r => match Temperature r with Some t => [t] | None => [] end)
           (gdf_rows g).

Inductive layer : Type :=
| ChoroplethLayer (data : GeoDataFrame)
| GeoJsonLayer (data : string) (tooltip : string).

(** A folium map is the list of layers added to it so far. *)
Definition FoliumMap : Type := list layer.

(** ** What a script emits *)

Inductive place : Type := Page | Sidebar | Col (i : nat) | Tab (i : nat).

Inductive element : Type :=
| StTitle (s : string)
| StSubheader (s : string)
| StMarkdown (s : string)
| StSuccess (s : string)
| StError (s : string)
| StWarning (s : string)
| StInfo (s : string)
| StWrite (s : string)
| StJson (v : pyval)
| StCode (s : string)
| StMetric (label value : string)
| StLineChart (index : column) (series : list (string * column))
| StDataframe (data : DataFrame)
| StGeoDataframe (data : GeoDataFrame)
| StCheckbox (label : string)
| StTabs (labels : list string)
| StColumns (n : nat)
| StFolium (m : FoliumMap) (width height : Z).

Inductive event : Type :=
| Render (p : place) (e : element)
| LogInfo (msg : string).

(** ** The world outside the repository *)

Record Env : Type := mkEnv {
  (* numpy: the generator after [np.random.seed(s)], one standard normal
     draw, one draw of [random_sample] in [0, 1), and the libm functions *)
  random_seed : Z -> N;
  gauss : N -> float * N;
  random_sample : N -> float * N;
  np_sin : float -> float;
  np_cos : float -> float;
  (* pandas reductions of a float series *)
  series_min : list float -> float;
  series_max : list float -> float;
  series_mean : list float -> float;
  describe : DataFrame -> DataFrame;
  column_min_str : column -> string;
  column_max_str : column -> string;
  df_memory_usage : DataFrame -> Z;
  gdf_memory_usage : GeoDataFrame -> Z;
  (* [datetime.now()]: the value of the k-th read of the clock, in
     microseconds *)
  clock : nat -> Z;
  (* Python's [str] and [format(v, '.1f')] for values that are not floats,
     and [traceback.format_exc()] *)
  py_str : pyval -> string;
  format_other : cell -> exn + string;
  format_exc : exn -> string;
  sys_version : string;
  st_version : string;
  pd_version : string;
  np_version : string;
  (* the state of the sidebar checkbox *)
  debug_checkbox : bool;
  (* [import dashboard] raising ImportError *)
  import_dashboard : option exn;
  (* [gpd.read_file('singapore_regions.geojson')] *)
  read_file : string -> exn + GeoDataFrame;
  (* folium, geopandas and Streamlit calls that may raise *)
  folium_Map : option exn;
  folium_Choropleth : GeoDataFrame -> option exn;
  simplify_to_json : Geometry -> exn + string;
  folium_GeoJson : string -> string -> option exn;
  st_folium : FoliumMap -> option exn;
  st_line_chart : column -> list (string * column) -> option exn
}.

(** ** The monad of scripts *)

Record State : Type := mkState {
  trace : list event;            (* what the script has emitted, oldest first *)
  rng : N;                       (* the generator behind [np.random] *)
  reads : nat;                   (* clock reads so far *)
  session_debug : option bool;   (* [st.session_state.debug_mode], if set *)
  folium_map : FoliumMap         (* the map object [m] *)
}.

Inductive outcome (A : Type) : Type :=
| Ret (a : A)
| Raise (e : exn)
| Halt.
Arguments Ret {A} a.
Arguments Raise {A} e.
Arguments Halt {A}.

Definition M (A : Type) : Type := State -> outcome A * State.

Definition ret {A} (a : A) : M A := fun s => (Ret a, s).

Definition bind {A B} (c : M A) (k : A -> M B) : M B :=
  fun s =>
    match c s with
    | (Ret a, s') => k a s'
    | (Raise e, s') => (Raise e, s')
    | (Halt, s') => (Halt, s')
    end.

Notation "x <- c ;; k" := (bind c (fun x => k))
  (at level 61, c at next level, right associativity).
Notation "c ;; k" := (bind c (fun _ => k))
  (at level 61, right associativity).

Definition raise {A} (e : exn) : M A := fun s => (Raise e, s).

(** [try: body  except <classes> as e: handler e]; [handles e = false] lets
    the exception through. [st.stop()] is never caught. *)
Definition try_except {A} (body : M A) (handles : exn -> bool)
    (handler : exn -> M A) : M A :=
  fun s =>
    match body s with
    | (Raise e, s') => if handles e then handler e s' else (Raise e, s')
    | r => r
    end.

Definition Exception (e : exn) : bool := true.

Definition emit (ev : event) : M unit :=
  fun s => (Ret tt, mkState (trace s ++ [ev]) (rng s) (reads s) (session_debug s)
                           (folium_map s)).

Definition st (p : place) (e : element) : M unit := emit (Render p e).

Definition logger_info (msg : string) : M unit := emit (LogInfo msg).

Definition st_stop {A} : M A := fun s => (Halt, s).

Definition when (b : bool) (c : M unit) : M unit := if b then c else ret tt.

Definition lift {A} (r : exn + A) : M A :=
  match r with
  | inl e => raise e
  | inr a => ret a
  end.

Definition check (r : option exn) : M unit :=
  match r with
  | Some e => raise e
  | None => ret tt
  end.

Fixpoint mapM {A B} (f : A -> M B) (l : list A) : M (list B) :=
  match l with
  | [] => ret []
  | a :: rest => b <- f a ;; bs <- mapM f rest ;; ret (b :: bs)
  end.

(** ** Formatting *)

Definition str_of_N (n : N) : string := NilZero.string_of_uint (N.to_uint n).

(** The integer nearest to [n / d] ([d > 0]), ties to even. *)
Definition round_half_even (n d : Z) : Z :=
  let q := (n / d)%Z in
  match (2 * (n mod d) ?= d)%Z with
  | Lt => q
  | Gt => (q + 1)%Z
  | Eq => if Z.even q then q else (q + 1)%Z
  end.

(** The [digits] low decimal digits of [n], zero-padded. *)
Fixpoint fraction_digits (digits : nat) (n : Z) : string :=
  match digits with
  | O => ""
  | S d => fraction_digits d (n / 10) +++ str_of_N (Z.to_N (n mod 10))
  end.

(** [format(x, '.<digits>f')] for [digits > 0]: the decimal with that many
    fractional digits nearest to the exact value of [x], ties to even. *)
Definition format_fixed (digits : nat) (x : float) : string :=
  let sign (s : bool) := if s then "-" else "" in
  let scale := (10 ^ Z.of_nat digits)%Z in
  match Prim2SF x with
  | S754_nan => "nan"
  | S754_infinity s => sign s +++ "inf"
  | S754_zero s => sign s +++ "0." +++ fraction_digits digits 0
  | S754_finite s m e =>
      let scaled :=
        match e with
        | Z.neg p => round_half_even (Z.pos m * scale) (2 ^ Z.pos p)
        | _ => (Z.pos m * 2 ^ e * scale)%Z
        end in
      sign s +++ str_of_N (Z.to_N (scaled / scale)) +++ "."
             +++ fraction_digits digits (scaled mod scale)
  end.

(** [f"{x:.1f}"] and [f"{x:.2f}"]. *)
Definition format_1f : float -> string := format_fixed 1.
Definition format_2f : float -> string := format_fixed 2.

Definition format_cell_1f (E : Env) (c : cell) : exn + string :=
  match c with
  | CFloat f => inr (format_1f f)
  | _ => format_other E c
  end.

Definition is_space (c : ascii) : bool :=
  match c with
  | " "%char | "009"%char | "010"%char | "011"%char | "012"%char | "013"%char => true
  | _ => false
  end.

Fixpoint take_word (s : string) : string :=
  match s with
  | String c rest => if is_space c then "" else String c (take_word rest)
  | EmptyString => ""
  end.

(** [s.split()[0]] for a string with a word in it. *)
Fixpoint first_word (s : string) : string :=
  match s with
  | String c rest => if is_space c then first_word rest else take_word s
  | EmptyString => ""
  end.

Definition float_of_nat (n : nat) : float :=
  PrimFloat.of_uint63 (Uint63.of_Z (Z.of_nat n)).

(** What a [debug_print(message, data)] call emits when debug mode is [b]. *)
Definition debug_events (b : bool) (message : string) (data : option pyval)
  : list event :=
  if b then
    Render Page (StWrite ("🔍 DEBUG: " +++ message))
    :: match data with
       | Some d => [Render Page (StJson d)]
       | None => []
       end
    ++ [LogInfo ("DEBUG: " +++ message)]
  else [].

(** ** [dashboard.py] *)

Module Dashboard.

(** [st.session_state.debug_mode]; reading the key before it is set raises. *)
Definition session_debug_mode : M bool :=
  fun s =>
    match session_debug s with
    | Some b => (Ret b, s)
    | None =>
        (Raise (Exn AttributeError "st.session_state has no attribute 'debug_mode'"), s)
    end.

Definition set_session_debug (b : bool) : M unit :=
  fun s => (Ret tt, mkState (trace s) (rng s) (reads s) (Some b) (folium_map s)).

(** [if 'debug_mode' not in st.session_state: st.session_state.debug_mode = False] *)
Definition init_session : M unit :=
  fun s =>
    match session_debug s with
    | Some _ => (Ret tt, s)
    | None => set_session_debug false s
    end.

Definition debug_print (message : string) (data : option pyval) : M unit :=
  dbg <- session_debug_mode ;;
  when dbg
    (st Page (StWrite ("🔍 DEBUG: " +++ message)) ;;
     match data with
     | Some d => st Page (StJson d)
     | None => ret tt
     end ;;
     logger_info ("DEBUG: " +++ message)).

(** *** numpy and datetime primitives *)

Definition np_random_seed (E : Env) (seed : Z) : M unit :=
  fun s => (Ret tt, mkState (trace s) (random_seed E seed) (reads s) (session_debug s)
                           (folium_map s)).

Definition draw_gauss (E : Env) : M float :=
  fun s =>
    let (g, r) := gauss E (rng s) in
    (Ret g, mkState (trace s) r (reads s) (session_debug s) (folium_map s)).

(** [np.random.normal(loc, scale, size)]: [size] draws [loc + scale * gauss()]. *)
Fixpoint random_normal (E : Env) (loc scale : float) (size : nat) : M (list float) :=
  match size with
  | O => ret []
  | S n =>
      g <- draw_gauss E ;;
      rest <- random_normal E loc scale n ;;
      ret ((loc + scale * g)%float :: rest)
  end.

Definition np_pi : float := 0x1.921fb54442d18p+1%float.

(** [np.linspace(start, stop, num)], end point included: [start + i * step]
    with [step = (stop - start) / (num - 1)], the last sample set to [stop]. *)
Definition linspace (start stop : float) (num : nat) : list float :=
  let div := float_of_nat (num - 1) in
  let delta := (stop - start)%float in
  let step := (delta / div)%float in
  let y (i : nat) : float :=
    if (0 <? num - 1)%nat then
      if (step =? 0)%float then (float_of_nat i / div * delta + start)%float
      else (float_of_nat i * step + start)%float
    else (float_of_nat i * delta + start)%float in
  if (1 <? num)%nat then map y (seq 0 (num - 1)) ++ [stop] else map y (seq 0 num).

(** Element-wise sum of two arrays of the same length. *)
Definition array_add (a b : list float) : list float :=
  map (fun p => (fst p + snd p)%float) (combine a b).

Definition np_any (p : float -> bool) (a : list float) : bool := existsb p a.

(** [datetime.now()] reads the clock; each read is a new one. *)
Definition datetime_now (E : Env) : M Z :=
  fun s => (Ret (clock E (reads s)),
            mkState (trace s) (rng s) (S (reads s)) (session_debug s) (folium_map s)).

(** [timedelta(minutes=k)] in microseconds. *)
Definition timedelta_minutes (k : Z) : Z := (k * 60000000)%Z.

(** *** [generate_weather_data] *)

Definition num_points : nat := 100.

Definition col_time : string := "Time".
Definition col_temperature : string := "Temperature (°C)".
Definition col_humidity : string := "Humidity (%)".
Definition col_wind : string := "Wind Speed (km/h)".

Definition generate_weather_data (E : Env) : M (option DataFrame) :=
  try_except
    (debug_print "Generating synthetic weather data..." None ;;
     np_random_seed E 42 ;;
     time_index <-
       mapM (fun i => now <- datetime_now E ;;
                      ret (now - timedelta_minutes (99 - Z.of_nat i))%Z)
            (seq 0 num_points) ;;
     noise_t <- random_normal E 0 0.5 num_points ;;
     let temperature_data :=
       array_add (map (fun x => 20 + 5 * np_sin E x)%float
                      (linspace 0 (3 * np_pi) num_points)) noise_t in
     noise_h <- random_normal E 0 1 num_points ;;
     let humidity_data :=
       array_add (map (fun x => 50 + 10 * np_cos E x)%float
                      (linspace 0 (2 * np_pi) num_points)) noise_h in
     noise_w <- random_normal E 0 0.7 num_points ;;
     let wind_data :=
       array_add (map (fun x => 10 + 3 * np_sin E x)%float
                      (linspace 0 (4 * np_pi) num_points)) noise_w in
     when (np_any (fun x => x <? -50)%float temperature_data
           || np_any (fun x => 60 <? x)%float temperature_data)
       (raise (Exn ValueError "Temperature data contains unrealistic values")) ;;
     when (np_any (fun x => x <? 0)%float humidity_data
           || np_any (fun x => 100 <? x)%float humidity_data)
       (raise (Exn ValueError "Humidity data contains unrealistic values")) ;;
     when (np_any (fun x => x <? 0)%float wind_data)
       (raise (Exn ValueError "Wind speed data contains negative values")) ;;
     let df : DataFrame :=
       [(col_time, TimeCol (map Some time_index));
        (col_temperature, FloatCol temperature_data);
        (col_humidity, FloatCol humidity_data);
        (col_wind, FloatCol wind_data)] in
     debug_print "Weather data generated successfully"
       (Some (VDict
          [("shape", df_shape df);
           ("columns", VList (map VStr (df_columns df)));
           ("temp_range", VList [VFloat (series_min E temperature_data);
                                 VFloat (series_max E temperature_data)]);
           ("humidity_range", VList [VFloat (series_min E humidity_data);
                                     VFloat (series_max E humidity_data)]);
           ("wind_range", VList [VFloat (series_min E wind_data);
                                 VFloat (series_max E wind_data)])])) ;;
     ret (Some df))
    Exception
    (fun e =>
       st Page (StError ("❌ Error generating weather data: " +++ exn_str e)) ;;
       dbg <- session_debug_mode ;;
       when dbg (st Page (StCode (format_exc E e))) ;;
       ret None).

(** *** The values [generate_weather_data] computes

    The same expressions, read off as functions of the environment: the
    noise drawn from the generator after [np.random.seed(42)], the three
    arrays, the time index when the clock has been read [k] times before
    the call, the first range check that fails, and the frame. *)

Fixpoint gauss_draws (E : Env) (r : N) (n : nat) : list float * N :=
  match n with
  | O => ([], r)
  | S n' =>
      let (g, r1) := gauss E r in
      let (gs, r2) := gauss_draws E r1 n' in
      (g :: gs, r2)
  end.

Definition normal_from (E : Env) (loc scale : float) (r : N) (n : nat) : list float :=
  map (fun g => (loc + scale * g)%float) (fst (gauss_draws E r n)).

Definition rng_after (E : Env) (r : N) (n : nat) : N := snd (gauss_draws E r n).

Definition rng_temperature (E : Env) : N := random_seed E 42.
Definition rng_humidity (E : Env) : N := rng_after E (rng_temperature E) num_points.
Definition rng_wind (E : Env) : N := rng_after E (rng_humidity E) num_points.
Definition rng_end (E : Env) : N := rng_after E (rng_wind E) num_points.

Definition temperature_data (E : Env) : list float :=
  array_add (map (fun x => 20 + 5 * np_sin E x)%float
                 (linspace 0 (3 * np_pi) num_points))
            (normal_from E 0 0.5 (rng_temperature E) num_points).

Definition humidity_data (E : Env) : list float :=
  array_add (map (fun x => 50 + 10 * np_cos E x)%float
                 (linspace 0 (2 * np_pi) num_points))
            (normal_from E 0 1 (rng_humidity E) num_points).

Definition wind_data (E : Env) : list float :=
  array_add (map (fun x => 10 + 3 * np_sin E x)%float
                 (linspace 0 (4 * np_pi) num_points))
            (normal_from E 0 0.7 (rng_wind E) num_points).

Fixpoint time_index_from (E : Env) (k : nat) (l : list nat) : list Z :=
  match l with
  | [] => []
  | i :: rest =>
      (clock E k - timedelta_minutes (99 - Z.of_nat i))%Z
      :: time_index_from E (S k) rest
  end.

Definition time_index (E : Env) (k : nat) : list Z :=
  time_index_from E k (seq 0 num_points).

Definition temperature_out_of_range (E : Env) : bool :=
  np_any (fun x => x <? -50)%float (temperature_data E)
  || np_any (fun x => 60 <? x)%float (temperature_data E).

Definition humidity_out_of_range (E : Env) : bool :=
  np_any (fun x => x <? 0)%float (humidity_data E)
  || np_any (fun x => 100 <? x)%float (humidity_data E).

Definition wind_out_of_range (E : Env) : bool :=
  np_any (fun x => x <? 0)%float (wind_data E).

(** The [ValueError] the range checks raise, if any. *)
Definition range_error (E : Env) : option exn :=
  if temperature_out_of_range E then
    Some (Exn ValueError "Temperature data contains unrealistic values")
  else if humidity_out_of_range E then
    Some (Exn ValueError "Humidity data contains unrealistic values")
  else if wind_out_of_range E then
    Some (Exn ValueError "Wind speed data contains negative values")
  else None.

Definition weather_frame (E : Env) (k : nat) : DataFrame :=
  [(col_time, TimeCol (map Some (time_index E k)));
   (col_temperature, FloatCol (temperature_data E));
   (col_humidity, FloatCol (humidity_data E));
   (col_wind, FloatCol (wind_data E))].

Definition frame_summary (E : Env) (k : nat) : pyval :=
  VDict
    [("shape", df_shape (weather_frame E k));
     ("columns", VList (map VStr (df_columns (weather_frame E k))));
     ("temp_range", VList [VFloat (series_min E (temperature_data E));
                           VFloat (series_max E (temperature_data E))]);
     ("humidity_range", VList [VFloat (series_min E (humidity_data E));
                               VFloat (series_max E (humidity_data E))]);
     ("wind_range", VList [VFloat (series_min E (wind_data E));
                           VFloat (series_max E (wind_data E))])].

(** What the call emits in debug mode [b]. *)
Definition generate_events (E : Env) (k : nat) (b : bool) : list event :=
  debug_events b "Generating synthetic weather data..." None
  ++ match range_error E with
     | Some e =>
         Render Page (StError ("❌ Error generating weather data: " +++ exn_str e))
         :: (if b then [Render Page (StCode (format_exc E e))] else [])
     | None =>
         debug_events b "Weather data generated successfully"
                      (Some (frame_summary E k))
     end.

(** *** [validate_dataframe] *)

Definition required_columns : list string :=
  [col_time; col_temperature; col_humidity; col_wind].

Definition missing_columns (df : DataFrame) : list string :=
  filter (fun col => negb (has_column df col)) required_columns.

Definition counts_to_dict (counts : list (string * nat)) : pyval :=
  VDict (map (fun nc => (fst nc, VInt (Z.of_nat (snd nc)))) counts).

(** [df[name]]: [KeyError] when the frame has no such column. *)
Definition df_getitem (df : DataFrame) (name : string) : M column :=
  match df_get df name with
  | Some c => ret c
  | None => raise (Exn KeyError ("'" +++ name +++ "'"))
  end.

Definition validate_dataframe (E : Env) (df : DataFrame) : M bool :=
  try_except
    (debug_print "Validating DataFrame..." None ;;
     when (negb (match missing_columns df with [] => true | _ => false end))
       (raise (Exn ValueError
                 ("Missing required columns: "
                  +++ py_str E (VList (map VStr (missing_columns df)))))) ;;
     let nan_counts := isnull_sum df in
     when (existsb (fun nc => negb (snd nc =? 0)%nat) nan_counts)
       (st Page (StWarning ("⚠️ Found NaN values: "
                            +++ py_str E (counts_to_dict nan_counts)))) ;;
     time <- df_getitem df col_time ;;
     when (negb (is_datetime64_any_dtype time))
       (st Page (StWarning "⚠️ Time column is not datetime type")) ;;
     debug_print "DataFrame validation completed successfully" None ;;
     ret true)
    Exception
    (fun e =>
       st Page (StError ("❌ DataFrame validation failed: " +++ exn_str e)) ;;
       dbg <- session_debug_mode ;;
       when dbg (st Page (StCode (format_exc E e))) ;;
       ret false).

(** What a successful validation emits in debug mode [b]. *)
Definition validate_events (E : Env) (b : bool) (df : DataFrame) : list event :=
  debug_events b "Validating DataFrame..." None
  ++ (if existsb (fun nc => negb (snd nc =? 0)%nat) (isnull_sum df)
      then [Render Page (StWarning ("⚠️ Found NaN values: "
                                    +++ py_str E (counts_to_dict (isnull_sum df))))]
      else [])
  ++ match df_get df col_time with
     | Some time =>
         if is_datetime64_any_dtype time then []
         else [Render Page (StWarning "⚠️ Time column is not datetime type")]
     | None => []
     end
  ++ debug_events b "DataFrame validation completed successfully" None.

(** *** Module top level, up to the definition of [show_dashboard] *)

Definition top_level (E : Env) : M DataFrame :=
  init_session ;;
  df <- generate_weather_data E ;;
  match df with
  | None =>
      st Page (StError "❌ Failed to generate weather data. Please check the error messages above.") ;;
      st_stop
  | Some df =>
      ok <- validate_dataframe E df ;;
      if ok then ret df
      else
        st Page (StError "❌ Data validation failed. Please check the error messages above.") ;;
        st_stop
  end.

(** *** [show_dashboard] *)

(** [series.iloc[-1]] *)
Definition iloc_last (c : column) : M cell :=
  match rev (column_cells c) with
  | v :: _ => ret v
  | [] => raise (Exn IndexError "single positional indexer is out-of-bounds")
  end.

(** [f"{df[name].iloc[-1]:.1f}"] *)
Definition current_value (E : Env) (df : DataFrame) (name : string) : M string :=
  series <- df_getitem df name ;;
  current <- iloc_last series ;;
  lift (format_cell_1f E current).

(** One of the three [try] blocks under 'Current Values': the metric named
    [label] in column [i], its value followed by [suffix] in the debug line,
    and [what] in the error texts. *)
Definition current_metric (E : Env) (df : DataFrame) (i : nat)
    (label suffix what What : string) : M unit :=
  try_except
    (v <- current_value E df label ;;
     st (Col i) (StMetric label v) ;;
     debug_print ("Current " +++ what +++ ": " +++ v +++ suffix) None)
    Exception
    (fun e =>
       st (Col i) (StError ("Error loading " +++ what +++ ": " +++ exn_str e)) ;;
       debug_print (What +++ " loading error: " +++ exn_str e) None).

(** [df.set_index('Time')[[...]]]: a [KeyError] when the time column or one
    of the three series is missing. The text of that exception is pandas'
    own and no statement depends on it. *)
Definition chart_data (df : DataFrame) : M (column * list (string * column)) :=
  index <- df_getitem df col_time ;;
  series <- mapM (fun name => c <- df_getitem df name ;; ret (name, c))
                 [col_temperature; col_humidity; col_wind] ;;
  ret (index, series).

Definition line_chart (E : Env) (p : place)
    (data : column * list (string * column)) : M unit :=
  check (st_line_chart E (fst data) (snd data)) ;;
  st p (StLineChart (fst data) (snd data)).

Definition show_dashboard (E : Env) (df : option DataFrame) : M unit :=
  try_except
    (st Page (StTitle "Weather Dashboard") ;;
     match df with
     | None => st Page (StError "❌ No data available to display")
     | Some df =>
         st Page (StSubheader "Current Values") ;;
         st Page (StColumns 3) ;;
         current_metric E df 1 col_temperature "°C" "temperature" "Temperature" ;;
         current_metric E df 2 col_humidity "%" "humidity" "Humidity" ;;
         current_metric E df 3 col_wind " km/h" "wind speed" "Wind speed" ;;
         st Page (StMarkdown "---") ;;
         st Page (StSubheader "Trends Over Time") ;;
         try_except
           (data <- chart_data df ;;
            line_chart E Page data ;;
            debug_print "Chart displayed successfully" None)
           Exception
           (fun e =>
              st Page (StError ("❌ Error displaying chart: " +++ exn_str e)) ;;
              dbg <- session_debug_mode ;;
              when dbg (st Page (StCode (format_exc E e)))) ;;
         dbg <- session_debug_mode ;;
         when dbg
           (st Page (StMarkdown "---") ;;
            st Page (StSubheader "🔧 Data Summary") ;;
            st Page (StWrite ("**Data Points:** " +++ str_of_N (N.of_nat (df_len df)))) ;;
            time <- df_getitem df col_time ;;
            st Page (StWrite ("**Time Range:** " +++ column_min_str E time
                              +++ " to " +++ column_max_str E time)) ;;
            st Page (StWrite "**Statistics:**") ;;
            st Page (StDataframe (describe E df))) ;;
         st Page (StSuccess "✅ Dashboard displayed successfully")
     end)
    Exception
    (fun e =>
       st Page (StError ("❌ Error displaying dashboard: " +++ exn_str e)) ;;
       dbg <- session_debug_mode ;;
       when dbg (st Page (StCode (format_exc E e)))).

(** *** The script run on its own ([__name__ == "__main__"]) *)

Definition main (E : Env) : M unit :=
  df <- top_level E ;;
  st Sidebar (StCheckbox "🔧 Debug Mode") ;;
  set_session_debug (debug_checkbox E) ;;
  when (debug_checkbox E)
    (st Sidebar (StSubheader "🔧 System Info") ;;
     st Sidebar (StWrite ("Python: " +++ first_word (sys_version E))) ;;
     st Sidebar (StWrite ("Streamlit: " +++ st_version E)) ;;
     st Sidebar (StWrite ("Pandas: " +++ pd_version E)) ;;
     st Sidebar (StWrite ("Numpy: " +++ np_version E))) ;;
  show_dashboard E (Some df).

End Dashboard.

(** ** [weather_map_dashboard.py] *)

Module WeatherMap.

Definition debug_print (debug_mode : bool) (message : string)
    (data : option pyval) : M unit :=
  when debug_mode
    (st Page (StWrite ("🔍 DEBUG: " +++ message)) ;;
     match data with
     | Some d => st Page (StJson d)
     | None => ret tt
     end ;;
     logger_info ("DEBUG: " +++ message)).

(** [st.error(...)], the traceback in debug mode, [st.stop()]. *)
Definition fatal {A} (E : Env) (debug_mode : bool) (msg : string) (e : exn) : M A :=
  st Page (StError (msg +++ exn_str e)) ;;
  when debug_mode (st Page (StCode (format_exc E e))) ;;
  st_stop.

(** *** [import dashboard] *)

(** Importing the module runs its top level; [dashboard.df] is the result. *)
Definition import_dashboard_module (E : Env) : M DataFrame :=
  try_except
    (check (import_dashboard E) ;;
     df <- Dashboard.top_level E ;;
     st Page (StSuccess "✅ Successfully imported dashboard module") ;;
     ret df)
    (is_class ImportError)
    (fun e =>
       st Page (StError ("❌ Failed to import dashboard module: " +++ exn_str e)) ;;
       st_stop).

(** *** Loading the region boundaries *)

Definition geojson_path : string := "singapore_regions.geojson".

Definition region_value (o : option string) : pyval :=
  match o with
  | Some s => VStr s
  | None => VFloat nan
  end.

Definition load_regions (E : Env) (debug_mode : bool) : M GeoDataFrame :=
  try_except
    (debug_print debug_mode "Loading Singapore regions GeoJSON file..." None ;;
     regions_gdf <- lift (read_file E geojson_path) ;;
     debug_print debug_mode "GeoJSON loaded successfully"
       (Some (VDict
          [("shape", gdf_shape regions_gdf);
           ("columns", VList (map VStr (gdf_columns regions_gdf)));
           ("regions",
            if gdf_has_column regions_gdf "region"
            then VList (map region_value (unique [] (map region (gdf_rows regions_gdf))))
            else VStr "No 'region' column found")])) ;;
     if gdf_empty regions_gdf then
       st Page (StError "❌ No data found in the GeoJSON file") ;;
       st_stop
     else ret regions_gdf)
    Exception
    (fun e =>
       if is_class FileNotFoundError e then
         st Page (StError "❌ File 'singapore_regions.geojson' not found. Please ensure the file exists in the current directory.") ;;
         st_stop
       else fatal E debug_mode "❌ Error loading GeoJSON file: " e).

(** *** One synthetic temperature per region *)

Definition draw_random_sample (E : Env) : M float :=
  fun s =>
    let (u, r) := random_sample E (rng s) in
    (Ret u, mkState (trace s) r (reads s) (session_debug s) (folium_map s)).

(** [np.random.uniform(low, high, size)]: [size] draws
    [low + (high - low) * random_sample()]. *)
Fixpoint random_uniform (E : Env) (low high : float) (size : nat) : M (list float) :=
  match size with
  | O => ret []
  | S n =>
      u <- draw_random_sample E ;;
      rest <- random_uniform E low high n ;;
      ret ((low + (high - low) * u)%float :: rest)
  end.

Definition generate_temperature (E : Env) (debug_mode : bool)
    (regions_gdf : GeoDataFrame) : M GeoDataFrame :=
  try_except
    (debug_print debug_mode "Generating synthetic temperature data..." None ;;
     Dashboard.np_random_seed E 42 ;;
     values <- random_uniform E 26 34 (length (gdf_rows regions_gdf)) ;;
     let regions_gdf := set_Temperature regions_gdf values in
     let temps := Temperature_values regions_gdf in
     debug_print debug_mode "Temperature data generated"
       (Some (VDict [("min_temp", VFloat (series_min E temps));
                     ("max_temp", VFloat (series_max E temps));
                     ("mean_temp", VFloat (series_mean E temps))])) ;;
     ret regions_gdf)
    Exception
    (fatal E debug_mode "❌ Error generating temperature data: ").

(** The same draws read off as a function of the generator state, and the
    region frame the script goes on with: every row carries the draw of its
    rank after [np.random.seed(42)]. *)
Fixpoint uniform_draws (E : Env) (low high : float) (r : N) (n : nat)
  : list float * N :=
  match n with
  | O => ([], r)
  | S n' =>
      let (u, r1) := random_sample E r in
      let (vs, r2) := uniform_draws E low high r1 n' in
      ((low + (high - low) * u)%float :: vs, r2)
  end.

Definition regions_with_temperature (E : Env) (regions_gdf : GeoDataFrame)
  : GeoDataFrame :=
  set_Temperature regions_gdf
    (fst (uniform_draws E 26 34 (random_seed E 42) (length (gdf_rows regions_gdf)))).

(** *** The folium map, its choropleth and its tooltips *)

Definition set_map (m : FoliumMap) : M unit :=
  fun s => (Ret tt, mkState (trace s) (rng s) (reads s) (session_debug s) m).

Definition get_map : M FoliumMap := fun s => (Ret (folium_map s), s).

(** [layer.add_to(m)] *)
Definition add_to (l : layer) : M unit :=
  m <- get_map ;; set_map (m ++ [l]).

Definition create_map (E : Env) (debug_mode : bool) : M unit :=
  try_except
    (debug_print debug_mode "Creating folium map..." None ;;
     check (folium_Map E) ;;
     set_map [] ;;
     debug_print debug_mode "Map created successfully" None)
    Exception
    (fatal E debug_mode "❌ Error creating map: ").

Definition add_choropleth (E : Env) (debug_mode : bool)
    (regions_gdf : GeoDataFrame) : M unit :=
  try_except
    (debug_print debug_mode "Adding choropleth layer..." None ;;
     check (folium_Choropleth E regions_gdf) ;;
     add_to (ChoroplethLayer regions_gdf) ;;
     debug_print debug_mode "Choropleth layer added successfully" None)
    Exception
    (fun e =>
       if is_class KeyError e then
         st Page (StError ("❌ Missing required column: " +++ exn_str e)) ;;
         when debug_mode
           (st Page (StWrite "Available columns:") ;;
            st Page (StJson (VList (map VStr (gdf_columns regions_gdf))))) ;;
         st_stop
       else fatal E debug_mode "❌ Error adding choropleth layer: " e).

(** [r[key]] on a row of a frame with the columns [columns]: [KeyError]
    when [key] is not one of them, the cell otherwise, be it missing. *)
Definition row_getitem {A} (columns : list string) (key : string) (cell : A)
  : M A :=
  if existsb (String.eqb key) columns then ret cell
  else raise (Exn KeyError ("'" +++ key +++ "'")).

(** A [region] cell in an f-string: a missing value is NaN and reads
    [nan]. *)
Definition region_text (cell : option string) : string :=
  match cell with
  | Some name => name
  | None => "nan"
  end.

(** A [Temperature] cell as a number: a missing value is NaN. *)
Definition temperature_cell (cell : option float) : float :=
  match cell with
  | Some t => t
  | None => nan
  end.

(** [f"{r['region']}: {r['Temperature']:.1f} °C"] *)
Definition tooltip_text (columns : list string) (r : Feature) : M string :=
  name <- row_getitem columns "region" (region r) ;;
  t <- row_getitem columns "Temperature" (Temperature r) ;;
  ret (region_text name +++ ": " +++ format_1f (temperature_cell t) +++ " °C").

(** [r.get('region', idx)], as text: the cell when the frame has the
    column, be it missing, and the index label otherwise. *)
Definition region_or_index (columns : list string) (idx : nat) (r : Feature)
  : string :=
  if existsb (String.eqb "region") columns then region_text (region r)
  else str_of_N (N.of_nat idx).

(** The body of the tooltip loop for the row [r] of index [idx]; the result
    is the new value of [tooltip_count]. *)
Definition add_tooltip (E : Env) (debug_mode : bool) (columns : list string)
    (tooltip_count : nat) (idx : nat) (r : Feature) : M nat :=
  try_except
    (geo_j <- lift (simplify_to_json E (geometry r)) ;;
     text <- tooltip_text columns r ;;
     check (folium_GeoJson E geo_j text) ;;
     add_to (GeoJsonLayer geo_j text) ;;
     ret (S tooltip_count))
    Exception
    (fun tooltip_error =>
       debug_print debug_mode
         ("Warning: Failed to add tooltip for region "
          +++ region_or_index columns idx r
          +++ ": " +++ exn_str tooltip_error) None ;;
       ret tooltip_count).

(** What the body does with a row, read off the environment: the layer it
    adds to the map, or the exception that interrupts it. *)
Definition tooltip_layer (E : Env) (columns : list string) (r : Feature)
  : exn + layer :=
  match simplify_to_json E (geometry r) with
  | inl e => inl e
  | inr geo_j =>
      if negb (existsb (String.eqb "region") columns)
      then inl (Exn KeyError "'region'")
      else if negb (existsb (String.eqb "Temperature") columns)
      then inl (Exn KeyError "'Temperature'")
      else
        let text := region_text (region r) +++ ": "
                    +++ format_1f (temperature_cell (Temperature r)) +++ " °C" in
        match folium_GeoJson E geo_j text with
        | Some e => inl e
        | None => inr (GeoJsonLayer geo_j text)
        end
  end.

Definition tooltip_warning (columns : list string) (idx : nat) (r : Feature)
    (e : exn) : string :=
  "Warning: Failed to add tooltip for region " +++ region_or_index columns idx r
  +++ ": " +++ exn_str e.

(** [for idx, r in regions_gdf.iterrows(): ...], from row [idx] on. *)
Fixpoint tooltip_loop (E : Env) (debug_mode : bool) (columns : list string)
    (tooltip_count idx : nat) (rows : list Feature) : M nat :=
  match rows with
  | [] => ret tooltip_count
  | r :: rest =>
      n <- add_tooltip E debug_mode columns tooltip_count idx r ;;
      tooltip_loop E debug_mode columns n (S idx) rest
  end.

Definition add_tooltips (E : Env) (debug_mode : bool)
    (regions_gdf : GeoDataFrame) : M unit :=
  try_except
    (debug_print debug_mode "Adding tooltips..." None ;;
     tooltip_count <- tooltip_loop E debug_mode (gdf_columns regions_gdf) 0 0
                        (gdf_rows regions_gdf) ;;
     debug_print debug_mode
       ("Tooltips added successfully for " +++ str_of_N (N.of_nat tooltip_count)
        +++ " regions") None)
    Exception
    (fun e =>
       st Page (StError ("❌ Error adding tooltips: " +++ exn_str e)) ;;
       when debug_mode (st Page (StCode (format_exc E e)))).

(** The layers of the rows whose tooltip can be built, the rows whose
    tooltip cannot, and what the loop emits about the latter. *)
Definition tooltip_layers (E : Env) (columns : list string)
    (rows : list Feature) : list layer :=
  flat_map (fun r => match tooltip_layer E columns r with
                     | inr l => [l]
                     | inl _ => []
                     end) rows.

Definition tooltip_failures (E : Env) (columns : list string)
    (rows : list Feature) : list Feature :=
  filter (fun r => match tooltip_layer E columns r with
                   | inr _ => false
                   | inl _ => true
                   end) rows.

Fixpoint tooltip_warnings (E : Env) (debug_mode : bool) (columns : list string)
    (idx : nat) (rows : list Feature) : list event :=
  match rows with
  | [] => []
  | r :: rest =>
      match tooltip_layer E columns r with
      | inr _ => []
      | inl e => debug_events debug_mode (tooltip_warning columns idx r e) None
      end ++ tooltip_warnings E debug_mode columns (S idx) rest
  end.

(** *** The page: title and three tabs *)

Definition tab1 (E : Env) (debug_mode : bool) : M unit :=
  st (Tab 1) (StMarkdown "### Singapore Weather Map") ;;
  try_except
    (m <- get_map ;;
     check (st_folium E m) ;;
     st (Tab 1) (StFolium m 700 500) ;;
     st (Tab 1) (StSuccess "✅ Map displayed successfully"))
    Exception
    (fun e =>
       st (Tab 1) (StError ("❌ Error displaying map: " +++ exn_str e)) ;;
       when debug_mode (st (Tab 1) (StCode (format_exc E e)))).

(** One of the three metric blocks of the second tab. *)
Definition current_metric (E : Env) (df : DataFrame) (i : nat)
    (label what : string) : M unit :=
  try_except
    (v <- Dashboard.current_value E df label ;;
     st (Col i) (StMetric label v))
    Exception
    (fun e => st (Col i) (StError ("Error loading " +++ what +++ ": " +++ exn_str e))).

Definition tab2 (E : Env) (debug_mode : bool) (dashboard_df : option DataFrame) : M unit :=
  try_except
    (match dashboard_df with
     | None => st (Tab 2) (StError "❌ No time series data available")
     | Some df =>
         st (Tab 2) (StSubheader "Current Values") ;;
         st (Tab 2) (StColumns 3) ;;
         current_metric E df 1 Dashboard.col_temperature "temperature" ;;
         current_metric E df 2 Dashboard.col_humidity "humidity" ;;
         current_metric E df 3 Dashboard.col_wind "wind speed" ;;
         st (Tab 2) (StMarkdown "---") ;;
         st (Tab 2) (StSubheader "Trends Over Time") ;;
         data <- Dashboard.chart_data df ;;
         Dashboard.line_chart E (Tab 2) data ;;
         st (Tab 2) (StSuccess "✅ Time series data displayed successfully")
     end)
    Exception
    (fun e =>
       st (Tab 2) (StError ("❌ Error displaying time series data: " +++ exn_str e)) ;;
       when debug_mode (st (Tab 2) (StCode (format_exc E e)))).

Definition float_of_Z (z : Z) : float := PrimFloat.of_uint63 (Uint63.of_Z z).

Definition tab3 (E : Env) (debug_mode : bool) (regions_gdf : GeoDataFrame)
    (dashboard_df : option DataFrame) : M unit :=
  if debug_mode then
    st (Tab 3) (StSubheader "🔧 Debug Information") ;;
    st (Tab 3) (StWrite "**System Information:**") ;;
    st (Tab 3) (StWrite ("- Python version: " +++ sys_version E)) ;;
    st (Tab 3) (StWrite ("- Streamlit version: " +++ st_version E)) ;;
    st (Tab 3) (StWrite "**Data Information:**") ;;
    st (Tab 3) (StWrite ("- Regions DataFrame shape: " +++ py_str E (gdf_shape regions_gdf))) ;;
    st (Tab 3) (StWrite
      match dashboard_df with
      | Some df => "- Time series DataFrame shape: " +++ py_str E (df_shape df)
      | None => "- Time series DataFrame: Not available"
      end) ;;
    st (Tab 3) (StWrite "**Memory Usage (approximate):**") ;;
    st (Tab 3) (StWrite ("- Regions data: "
      +++ format_2f (float_of_Z (gdf_memory_usage E regions_gdf) / 1024) +++ " KB")) ;;
    st (Tab 3) (StWrite
      match dashboard_df with
      | Some df => "- Time series data: "
                   +++ format_2f (float_of_Z (df_memory_usage E df) / 1024) +++ " KB"
      | None => "- Time series data: Not available"
      end) ;;
    st (Tab 3) (StWrite "**Sample Data:**") ;;
    st (Tab 3) (StWrite "Regions data:") ;;
    st (Tab 3) (StGeoDataframe (gdf_head regions_gdf)) ;;
    st (Tab 3) (StWrite "Time series data:") ;;
    st (Tab 3)
      match dashboard_df with
      | Some df => StDataframe (df_head df)
      | None => StWrite "No time series data available"
      end
  else
    st (Tab 3) (StInfo "Enable Debug Mode in the sidebar to see debug information").

(** Everything from the title on. *)
Definition page (E : Env) (debug_mode : bool) (regions_gdf : GeoDataFrame)
    (dashboard_df : option DataFrame) : M unit :=
  st Page (StTitle "Singapore Weather Tracker") ;;
  st Page (StTabs ["Weather Map"; "Time Series Data"; "Debug Info"]) ;;
  tab1 E debug_mode ;;
  tab2 E debug_mode dashboard_df ;;
  tab3 E debug_mode regions_gdf dashboard_df ;;
  when (negb debug_mode)
    (st Sidebar (StSuccess "✅ Dashboard loaded successfully!")).

(** *** The whole script *)

Definition main (E : Env) : M unit :=
  df <- import_dashboard_module E ;;
  st Sidebar (StCheckbox "🔧 Debug Mode") ;;
  let debug_mode := debug_checkbox E in
  regions_gdf <- load_regions E debug_mode ;;
  regions_gdf <- generate_temperature E debug_mode regions_gdf ;;
  create_map E debug_mode ;;
  add_choropleth E debug_mode regions_gdf ;;
  add_tooltips E debug_mode regions_gdf ;;
  page E debug_mode regions_gdf (Some df).

End WeatherMap.

(** ** Concrete environments *)

Definition square (x y : float) : Geometry :=
  Polygon [(x, y); (x + 0.1, y); (x + 0.1, y + 0.1); (x, y + 0.1); (x, y)]%float.

Definition five_regions : GeoDataFrame :=
  mkGdf ["region"; "geometry"]
    [mkFeature (Some "Central") (square 103.8 1.3) None;
     mkFeature (Some "East") (square 103.9 1.3) None;
     mkFeature (Some "North") (square 103.8 1.4) None;
     mkFeature (Some "North-East") (square 103.9 1.4) None;
     mkFeature (Some "West") (square 103.7 1.3) None].

(** A small world: every normal draw is [noise], every uniform draw is the
    middle of the unit interval, [sin] and [cos] are flat, the clock advances
    by one microsecond at each read; the debug checkbox, what reading the
    geometry file gives, and what the choropleth and the simplification of a
    boundary do, are given. No other library call raises. *)
Definition world (noise : float) (debug : bool) (file : exn + GeoDataFrame)
    (choropleth : option exn) (simplify : Geometry -> exn + string) : Env := {|
  random_seed := fun seed => Z.to_N seed;
  gauss := fun r => (noise, N.succ r);
  random_sample := fun r => (0.5%float, N.succ r);
  np_sin := fun _ => 0%float;
  np_cos := fun _ => 0%float;
  series_min := fun l => hd 0%float l;
  series_max := fun l => hd 0%float l;
  series_mean := fun l => hd 0%float l;
  describe := fun df => df;
  column_min_str := fun _ => "min";
  column_max_str := fun _ => "max";
  df_memory_usage := fun _ => 3332%Z;
  gdf_memory_usage := fun _ => 1024%Z;
  clock := fun k => (1762214400000000 + Z.of_nat k)%Z;
  py_str := fun _ => "<value>";
  format_other := fun _ => inl (Exn TypeError "unsupported format string");
  format_exc := fun e => "Traceback (most recent call last): " +++ exn_str e;
  sys_version := "3.11.4 (main)";
  st_version := "1.28.0";
  pd_version := "2.1.0";
  np_version := "1.26.0";
  debug_checkbox := debug;
  import_dashboard := None;
  read_file := fun _ => file;
  folium_Map := None;
  folium_Choropleth := fun _ => choropleth;
  simplify_to_json := simplify;
  folium_GeoJson := fun _ _ => None;
  st_folium := fun _ => None;
  st_line_chart := fun _ _ => None
|}.

(** Five regions on disk, nothing raises, debug mode off. *)
Definition quiet : Env :=
  world 0 false (inr five_regions) None (fun _ => inr "{}").

(** Every normal draw is a thousand standard deviations out. *)
Definition stormy : Env :=
  world 1000 false (inr five_regions) None (fun _ => inr "{}").

(** Reading the geometry file raises [FileNotFoundError], the class the
    script has a clause of its own for. *)
Definition no_file : Env :=
  world 0 false (inl (Exn FileNotFoundError "singapore_regions.geojson"))
        None (fun _ => inr "{}").

(** The features of the geometry file carry no [region] property, and the
    choropleth raises a [KeyError] on the missing column (the text of the
    exception is the library's; a short one stands for it here). *)
Definition unnamed_regions : GeoDataFrame :=
  mkGdf ["geometry"]
    [mkFeature None (square 103.8 1.3) None;
     mkFeature None (square 103.9 1.3) None].

Definition no_region_column : Env :=
  world 0 false (inr unnamed_regions) (Some (Exn KeyError "'region'"))
        (fun _ => inr "{}").

(** The boundary of the second of the five regions cannot be simplified. *)
Definition east_fails (g : Geometry) : exn + string :=
  match g with
  | Polygon ((x, y) :: _) =>
      if (103.85 <? x)%float && (x <? 103.95)%float && (y <? 1.35)%float
      then inl (Exn ValueError "invalid geometry")
      else inr "{}"
  | Polygon [] => inr "{}"
  end.

Definition broken_east (debug : bool) : Env :=
  world 0 debug (inr five_regions) None east_fails.

(** A fresh session, and one in which the dashboard ran before. *)
Definition fresh : State := mkState [] 0 0 None [].
Definition resumed (debug : bool) : State := mkState [] 7 12 (Some debug) [].

(** A frame with the four required columns and two missing temperatures. *)
Definition gappy_frame : DataFrame :=
  [(Dashboard.col_time, TimeCol [Some 0%Z; Some 60000000%Z; Some 120000000%Z]);
   (Dashboard.col_temperature, FloatCol [nan; 21.5; nan]%float);
   (Dashboard.col_humidity, FloatCol [50; 51; 52]%float);
   (Dashboard.col_wind, FloatCol [10; 9.5; 11]%float)].

(** ** Vocabulary of the statements *)

(** Two environments with the same NumPy: same generator, same [sin] and
    [cos]. Everything else (clock, files, user input, other libraries) may
    differ. *)
Definition same_numpy (E1 E2 : Env) : Prop :=
  (forall seed, random_seed E1 seed = random_seed E2 seed)
  /\ (forall r, gauss E1 r = gauss E2 r)
  /\ (forall x, np_sin E1 x = np_sin E2 x)
  /\ (forall x, np_cos E1 x = np_cos E2 x).

(** The three numeric arrays of what [generate_weather_data] returned. *)
Definition numeric_arrays (o : outcome (option DataFrame))
  : option (option column * option column * option column) :=
  match o with
  | Ret (Some df) =>
      Some (df_get df Dashboard.col_temperature,
            df_get df Dashboard.col_humidity,
            df_get df Dashboard.col_wind)
  | _ => None
  end.

(** A frame has a null entry somewhere. *)
Definition has_null (df : DataFrame) : Prop :=
  exists name c v, In (name, c) df /\ In v (column_cells c) /\ cell_isnull v = true.

(** The conditions under which the map script calls [st.stop()]. *)
Definition series_rejected (E : Env) : bool :=
  match Dashboard.range_error E with
  | Some _ => true
  | None => false
  end.

Definition geometry_unusable (E : Env) : bool :=
  match read_file E WeatherMap.geojson_path with
  | inl _ => true
  | inr regions_gdf => gdf_empty regions_gdf
  end.

Definition map_creation_fails (E : Env) : bool :=
  match folium_Map E with
  | Some _ => true
  | None => false
  end.

Definition choropleth_fails (E : Env) : bool :=
  match read_file E WeatherMap.geojson_path with
  | inl _ => false
  | inr regions_gdf =>
      match folium_Choropleth E (WeatherMap.regions_with_temperature E regions_gdf) with
      | Some _ => true
      | None => false
      end
  end.

(** How the map script ends. *)
Definition map_script_ending (E : Env) : outcome unit :=
  match import_dashboard E with
  | Some e => if is_class ImportError e then Halt else Raise e
  | None =>
      if series_rejected E || geometry_unusable E
         || map_creation_fails E || choropleth_fails E
      then Halt
      else Ret tt
  end.

(** The error shown when the region boundaries cannot be used. *)
Definition geometry_error (E : Env) : string :=
  match read_file E WeatherMap.geojson_path with
  | inl e =>
      if is_class FileNotFoundError e
      then "❌ File 'singapore_regions.geojson' not found. Please ensure the file exists in the current directory."
      else "❌ Error loading GeoJSON file: " +++ exn_str e
  | inr _ => "❌ No data found in the GeoJSON file"
  end.

Definition is_log (ev : event) : bool :=
  match ev with
  | LogInfo _ => true
  | _ => false
  end.

(** Everything [c] emits satisfies [p]. *)
Definition emits {A} (p : event -> bool) (c : M A) : Prop :=
  forall s, exists evs,
    trace (snd (c s)) = trace s ++ evs /\ Forall (fun ev => p ev = true) evs.

(** [c] ends with [o] whatever the state it starts from. *)
Definition ends {A} (c : M A) (o : outcome A) : Prop :=
  forall s, exists s', c s = (o, s').

(** [c] never ends in [st.stop()]. *)
Definition never_halts {A} (c : M A) : Prop := forall s, fst (c s) <> Halt.

(** [c] always runs to its end: no exception escapes it and it does not stop
    the script. *)
Definition returns {A} (c : M A) : Prop := forall s, exists a, fst (c s) = Ret a.

Definition is_metric (ev : event) : bool :=
  match ev with
  | Render _ (StMetric _ _) => true
  | _ => false
  end.

(** The body of a page: title, tabs, map, metrics, charts, tables, headers
    and rules, as opposed to banners, the sidebar checkbox, debug lines,
    tracebacks and log records. *)
Definition page_body (ev : event) : bool :=
  match ev with
  | Render _ (StTitle _ | StTabs _ | StFolium _ _ _ | StMetric _ _
              | StLineChart _ _ | StDataframe _ | StGeoDataframe _
              | StSubheader _ | StMarkdown _ | StColumns _ | StInfo _) => true
  | _ => false
  end.




(** A region frame that has the [region] column, the second feature being
    without that property. *)
Definition half_named_regions : GeoDataFrame :=
  mkGdf ["region"; "geometry"]
    [mkFeature (Some "Central") (square 103.8 1.3) None;
     mkFeature None (square 103.9 1.3) None].

(** The value [m * 2 ^ e] of a binary64 mantissa and exponent, in units of
    [2 ^ -1200]: an integer for every exponent the format has. *)
Definition scaled (m e : Z) : Z := (m * 2 ^ (e + 1200))%Z.

(** ** Further vocabulary and environments *)

(** The lines [debug_print] writes: page text, JSON dumps and log records. *)
Definition is_debug_line (ev : event) : bool :=
  match ev with
  | Render _ (StWrite _ | StJson _) | LogInfo _ => true
  | _ => false
  end.

Definition is_error (ev : event) : bool :=
  match ev with
  | Render _ (StError _) => true
  | _ => false
  end.

Definition is_map_display (ev : event) : bool :=
  match ev with
  | Render _ (StFolium _ _ _) => true
  | _ => false
  end.

(** A value lies within [lo, hi]. *)
Definition within (lo hi x : float) : bool := ((lo <=? x) && (x <=? hi))%float.

(** The map the first tab displays after a run without fatal condition. *)
Definition final_map (E : Env) (regions_gdf : GeoDataFrame) : FoliumMap :=
  let g := WeatherMap.regions_with_temperature E regions_gdf in
  ChoroplethLayer g :: WeatherMap.tooltip_layers E (gdf_columns g) (gdf_rows g).

(** [E] where importing the dashboard module, displaying the map and
    drawing the chart do as given. *)
Definition with_failures (E : Env) (import : option exn)
    (display : FoliumMap -> option exn)
    (chart : column -> list (string * column) -> option exn) : Env := {|
  random_seed := random_seed E;
  gauss := gauss E;
  random_sample := random_sample E;
  np_sin := np_sin E;
  np_cos := np_cos E;
  series_min := series_min E;
  series_max := series_max E;
  series_mean := series_mean E;
  describe := describe E;
  column_min_str := column_min_str E;
  column_max_str := column_max_str E;
  df_memory_usage := df_memory_usage E;
  gdf_memory_usage := gdf_memory_usage E;
  clock := clock E;
  py_str := py_str E;
  format_other := format_other E;
  format_exc := format_exc E;
  sys_version := sys_version E;
  st_version := st_version E;
  pd_version := pd_version E;
  np_version := np_version E;
  debug_checkbox := debug_checkbox E;
  import_dashboard := import;
  read_file := read_file E;
  folium_Map := folium_Map E;
  folium_Choropleth := folium_Choropleth E;
  simplify_to_json := simplify_to_json E;
  folium_GeoJson := folium_GeoJson E;
  st_folium := display;
  st_line_chart := chart
|}.

(** The dashboard module cannot be imported; importing it raises something
    else than [ImportError]; the map cannot be displayed; the chart cannot be
    drawn. *)
Definition no_dashboard : Env :=
  with_failures quiet (Some (Exn ImportError "No module named 'dashboard'"))
    (fun _ => None) (fun _ _ => None).

Definition crashing_dashboard : Env :=
  with_failures quiet (Some (Exn OtherError "invalid syntax"))
    (fun _ => None) (fun _ _ => None).

Definition no_display : Env :=
  with_failures quiet None (fun _ => Some (Exn OtherError "component error"))
    (fun _ _ => None).

Definition no_chart : Env :=
  with_failures quiet None (fun _ => None)
    (fun _ _ => Some (Exn OtherError "chart error")).

(** Every normal draw is NaN. *)
Definition undefined_noise : Env :=
  world nan false (inr five_regions) None (fun _ => inr "{}").

(** The geometry file cannot be parsed. *)
Definition corrupt_file : Env :=
  world 0 true (inl (Exn ValueError "not a GeoJSON document"))
        None (fun _ => inr "{}").


Definition numbered_frame : DataFrame :=
  [(Dashboard.col_time, FloatCol [0; 1]%float);
   (Dashboard.col_temperature, FloatCol [21.5; 22]%float);
   (Dashboard.col_humidity, FloatCol [50; 51]%float);
   (Dashboard.col_wind, FloatCol [10; 9.5]%float)].

Definition hollow_frame : DataFrame :=
  [(Dashboard.col_time, TimeCol []);
   (Dashboard.col_temperature, FloatCol []);
   (Dashboard.col_wind, FloatCol [10; 9.5]%float)].

(** What a 'Current Values' block puts in its column for the column
    [label] of the frame: the metric of the last value, or the error of the
    failing step ([df[label]], [.iloc[-1]] or the [.1f] format). *)
Definition metric_element (E : Env) (df : DataFrame) (label what : string)
  : element :=
  let failed e := StError ("Error loading " +++ what +++ ": " +++ exn_str e) in
  match df_get df label with
  | None => failed (Exn KeyError ("'" +++ label +++ "'"))
  | Some c =>
      match rev (column_cells c) with
      | [] => failed (Exn IndexError "single positional indexer is out-of-bounds")
      | v :: _ =>
          match format_cell_1f E v with
          | inl e => failed e
          | inr value => StMetric label value
          end
      end
  end.

(** The columns the chart is drawn from, when the frame has all four. *)
Definition chart_columns (df : DataFrame)
  : option (column * list (string * column)) :=
  match df_get df Dashboard.col_time, df_get df Dashboard.col_temperature,
        df_get df Dashboard.col_humidity, df_get df Dashboard.col_wind with
  | Some time, Some temperature, Some humidity, Some wind =>
      Some (time, [(Dashboard.col_temperature, temperature);
                   (Dashboard.col_humidity, humidity);
                   (Dashboard.col_wind, wind)])
  | _, _, _, _ => None
  end.

(** What the two scripts show when the chart cannot be drawn. *)
Definition chart_failure (E : Env) (debug : bool) (e : exn) : list event :=
  Render Page (StError ("❌ Error displaying chart: " +++ exn_str e))
  :: (if debug then [Render Page (StCode (format_exc E e))] else []).

Definition tab2_failure (E : Env) (debug_mode : bool) (e : exn) : list event :=
  Render (Tab 2) (StError ("❌ Error displaying time series data: " +++ exn_str e))
  :: (if debug_mode then [Render (Tab 2) (StCode (format_exc E e))] else []).

Definition in_column (ev : event) : bool :=
  match ev with
  | Render (Col _) _ => true
  | _ => false
  end.

(** Outside the metric columns: a chart, a success line, an error or a
    traceback. *)
Definition is_outcome (ev : event) : bool :=
  match ev with
  | Render (Col _) _ => false
  | Render _ (StLineChart _ _ | StSuccess _ | StError _ | StCode _) => true
  | _ => false
  end.

(** What [show_dashboard] shows after the chart: the data summary in debug
    mode, which needs the time column, and the success line. *)
Definition dashboard_closing (E : Env) (df : DataFrame) (debug : bool)
  : list event :=
  let success := Render Page (StSuccess "✅ Dashboard displayed successfully") in
  if debug then
    [Render Page (StMarkdown "---");
     Render Page (StSubheader "🔧 Data Summary");
     Render Page (StWrite ("**Data Points:** " +++ str_of_N (N.of_nat (df_len df))))]
    ++ match df_get df Dashboard.col_time with
       | Some time =>
           [Render Page (StWrite ("**Time Range:** " +++ column_min_str E time
                                  +++ " to " +++ column_max_str E time));
            Render Page (StWrite "**Statistics:**");
            Render Page (StDataframe (describe E df));
            success]
       | None =>
           let e := Exn KeyError ("'" +++ Dashboard.col_time +++ "'") in
           [Render Page (StError ("❌ Error displaying dashboard: " +++ exn_str e));
            Render Page (StCode (format_exc E e))]
       end
  else [success].

(** * Properties *)

(** ** Running the monad *)

Lemma bind_ret {A B} (c : M A) (k : A -> M B) s a s' :
  c s = (Ret a, s') -> bind c k s = k a s'.
Proof. intros H. unfold bind. now rewrite H. Qed.

Lemma bind_raise {A B} (c : M A) (k : A -> M B) s e s' :
  c s = (Raise e, s') -> bind c k s = (Raise e, s').
Proof. intros H. unfold bind. now rewrite H. Qed.

Lemma bind_halt {A B} (c : M A) (k : A -> M B) s s' :
  c s = (Halt, s') -> bind c k s = (Halt, s').
Proof. intros H. unfold bind. now rewrite H. Qed.

Ltac prims :=
  cbv [bind st logger_info emit ret raise st_stop when check lift
       trace rng reads session_debug folium_map].

Lemma st_run p e tr r k d fm :
  st p e (mkState tr r k d fm) = (Ret tt, mkState (tr ++ [Render p e]) r k d fm).
Proof. reflexivity. Qed.

Lemma dashboard_debug_print_run msg data tr r k b fm :
  Dashboard.debug_print msg data (mkState tr r k (Some b) fm)
  = (Ret tt, mkState (tr ++ debug_events b msg data) r k (Some b) fm).
Proof.
  unfold Dashboard.debug_print, Dashboard.session_debug_mode, debug_events.
  destruct b, data; prims; rewrite <- ?app_assoc, ?app_nil_r; reflexivity.
Qed.

Lemma map_debug_print_run b msg data tr r k d fm :
  WeatherMap.debug_print b msg data (mkState tr r k d fm)
  = (Ret tt, mkState (tr ++ debug_events b msg data) r k d fm).
Proof.
  unfold WeatherMap.debug_print, debug_events.
  destruct b, data; prims; rewrite <- ?app_assoc, ?app_nil_r; reflexivity.
Qed.

Lemma when_st_run (c : bool) p e tr r k d fm :
  when c (st p e) (mkState tr r k d fm)
  = (Ret tt, mkState (tr ++ if c then [Render p e] else []) r k d fm).
Proof. destruct c; cbn; [reflexivity|now rewrite app_nil_r]. Qed.

Lemma logger_info_run msg tr r k d fm :
  logger_info msg (mkState tr r k d fm)
  = (Ret tt, mkState (tr ++ [LogInfo msg]) r k d fm).
Proof. reflexivity. Qed.

Lemma ret_run {A} (a : A) s : ret a s = (Ret a, s).
Proof. reflexivity. Qed.

(** One step of a sequence whose first command is an emission. *)
Ltac emit_step :=
  erewrite bind_ret by
    first [ apply dashboard_debug_print_run | apply map_debug_print_run
          | apply st_run | apply when_st_run | apply logger_info_run
          | apply ret_run ].

(** ** What a computation emits, and how it ends *)

Lemma emits_silent {A} p (c : M A) :
  (forall s, trace (snd (c s)) = trace s) -> emits p c.
Proof. intros H s. exists []. now rewrite H, app_nil_r. Qed.

Lemma emits_ret {A} p (a : A) : emits p (ret a).
Proof. now apply emits_silent. Qed.

Lemma emits_raise {A} p e : emits p (@raise A e).
Proof. now apply emits_silent. Qed.

Lemma emits_stop {A} p : emits p (@st_stop A).
Proof. now apply emits_silent. Qed.

Lemma emits_emit p ev : p ev = true -> emits p (emit ev).
Proof. intros H s. exists [ev]. cbn. auto. Qed.

Lemma emits_st p pl e : p (Render pl e) = true -> emits p (st pl e).
Proof. apply emits_emit. Qed.

Lemma emits_logger_info p msg : p (LogInfo msg) = true -> emits p (logger_info msg).
Proof. apply emits_emit. Qed.

Lemma emits_lift {A} p (r : exn + A) : emits p (lift r).
Proof. destruct r; [apply emits_raise|apply emits_ret]. Qed.

Lemma emits_check p (r : option exn) : emits p (check r).
Proof. destruct r; [apply emits_raise|apply emits_ret]. Qed.

Lemma emits_when p (b : bool) c : emits p c -> emits p (when b c).
Proof. destruct b; [auto|intros _; apply emits_ret]. Qed.

Lemma emits_bind {A B} p (c : M A) (k : A -> M B) :
  emits p c -> (forall a, emits p (k a)) -> emits p (bind c k).
Proof.
  intros Hc Hk s. unfold bind.
  destruct (Hc s) as (evs & Ht & Hp).
  destruct (c s) as [[a|e|] s1]; cbn [snd] in *; try (now exists evs).
  destruct (Hk a s1) as (evs' & Ht' & Hp').
  exists (evs ++ evs'). rewrite Ht', Ht, app_assoc. split; [reflexivity|].
  apply Forall_app. auto.
Qed.

Lemma emits_try_except {A} p (body : M A) handles handler :
  emits p body -> (forall e, emits p (handler e)) ->
  emits p (try_except body handles handler).
Proof.
  intros Hb Hh s. unfold try_except.
  destruct (Hb s) as (evs & Ht & Hp).
  destruct (body s) as [[a|e|] s1]; cbn [snd] in *; try (now exists evs).
  destruct (handles e); [|now exists evs].
  destruct (Hh e s1) as (evs' & Ht' & Hp').
  exists (evs ++ evs'). rewrite Ht', Ht, app_assoc. split; [reflexivity|].
  apply Forall_app. auto.
Qed.

Lemma emits_mapM {A B} p (f : A -> M B) l :
  (forall a, emits p (f a)) -> emits p (mapM f l).
Proof.
  intros Hf. induction l as [|a l IH]; cbn; [apply emits_ret|].
  apply emits_bind; [apply Hf|]. intros b.
  apply emits_bind; [apply IH|]. intros bs. apply emits_ret.
Qed.

(** After a first command that returns, what remains is the continuation. *)
Lemma try_except_bind_ret {A B} (c : M A) (k : A -> M B) handles handler s a s1 :
  c s = (Ret a, s1) ->
  try_except (bind c k) handles handler s = try_except (k a) handles handler s1.
Proof. intros H. unfold try_except. now rewrite (bind_ret c k s a s1 H). Qed.

Lemma returns_never_halts {A} (c : M A) : returns c -> never_halts c.
Proof. intros H s. destruct (H s) as [a Ha]. now rewrite Ha. Qed.

Lemma returns_ret {A} (a : A) : returns (ret a).
Proof. intros s. now exists a. Qed.

Lemma returns_emit ev : returns (emit ev).
Proof. intros s. now exists tt. Qed.

Lemma returns_st pl e : returns (st pl e).
Proof. apply returns_emit. Qed.

Lemma returns_when (b : bool) c : returns c -> returns (when b c).
Proof. destruct b; [auto|intros _; apply returns_ret]. Qed.

Lemma returns_bind {A B} (c : M A) (k : A -> M B) :
  returns c -> (forall a, returns (k a)) -> returns (bind c k).
Proof.
  intros Hc Hk s. unfold bind. destruct (Hc s) as [a Ha].
  destruct (c s) as [o s1]. cbn [fst] in Ha. subst o. apply Hk.
Qed.

Lemma never_halts_raise {A} e : never_halts (@raise A e).
Proof. intros s. discriminate. Qed.

Lemma never_halts_lift {A} (r : exn + A) : never_halts (lift r).
Proof. destruct r; intros s; discriminate. Qed.

Lemma never_halts_check (r : option exn) : never_halts (check r).
Proof. destruct r; intros s; discriminate. Qed.

Lemma never_halts_bind {A B} (c : M A) (k : A -> M B) :
  never_halts c -> (forall a, never_halts (k a)) -> never_halts (bind c k).
Proof.
  intros Hc Hk s. unfold bind. specialize (Hc s).
  destruct (c s) as [[a|e|] s1]; simpl in *.
  - apply Hk.
  - discriminate.
  - now destruct Hc.
Qed.

(** A [try] whose body cannot stop the script and whose handlers run to
    their end, under [except Exception], runs to its end. *)
Lemma returns_try_except {A} (body : M A) handler :
  never_halts body -> (forall e, returns (handler e)) ->
  returns (try_except body Exception handler).
Proof.
  intros Hb Hh s. unfold try_except. specialize (Hb s).
  destruct (body s) as [[a|e|] s1]; simpl in *.
  - now exists a.
  - apply Hh.
  - now destruct Hb.
Qed.

(** ** The generator *)

Section Generator.
Variable E : Env.

Lemma time_index_run (l : list nat) tr r k d fm :
  mapM (fun i => now <- Dashboard.datetime_now E ;;
                 ret (now - Dashboard.timedelta_minutes (99 - Z.of_nat i))%Z) l
       (mkState tr r k d fm)
  = (Ret (Dashboard.time_index_from E k l), mkState tr r (k + length l) d fm).
Proof.
  revert k. induction l as [|i l IH]; intros k; cbn.
  - now rewrite Nat.add_0_r.
  - unfold bind at 1. cbn. unfold bind at 1. rewrite IH. cbn.
    now rewrite Nat.add_succ_r.
Qed.

Lemma random_normal_run loc scale n tr r k d fm :
  Dashboard.random_normal E loc scale n (mkState tr r k d fm)
  = (Ret (Dashboard.normal_from E loc scale r n),
     mkState tr (Dashboard.rng_after E r n) k d fm).
Proof.
  unfold Dashboard.normal_from, Dashboard.rng_after.
  revert r. induction n as [|n IH]; intros r; cbn; [reflexivity|].
  unfold bind at 1. unfold Dashboard.draw_gauss at 1. cbn.
  destruct (gauss E r) as [g r1]. unfold bind at 1. rewrite IH.
  destruct (Dashboard.gauss_draws E r1 n) as [gs r2]. reflexivity.
Qed.

End Generator.

Section GeneratorRun.
Variable E : Env.

Lemma seed_run seed tr r k d fm :
  Dashboard.np_random_seed E seed (mkState tr r k d fm)
  = (Ret tt, mkState tr (random_seed E seed) k d fm).
Proof. reflexivity. Qed.

Lemma when_raise_run (c : bool) (e : exn) (s : State) :
  when c (raise e) s = if c then (Raise e, s) else (Ret tt, s).
Proof. now destruct c. Qed.

Ltac step L := erewrite bind_ret by (apply L).

Lemma generate_weather_data_run tr r k b fm :
  Dashboard.generate_weather_data E (mkState tr r k (Some b) fm)
  = (Ret (match Dashboard.range_error E with
          | Some _ => None
          | None => Some (Dashboard.weather_frame E k)
          end),
     mkState (tr ++ Dashboard.generate_events E k b) (Dashboard.rng_end E)
             (k + Dashboard.num_points) (Some b) fm).
Proof.
  unfold Dashboard.generate_weather_data, try_except.
  step dashboard_debug_print_run. step seed_run. step time_index_run.
  step random_normal_run. step random_normal_run. step random_normal_run.
  rewrite length_seq.
  fold (Dashboard.rng_temperature E). fold (Dashboard.rng_humidity E).
  fold (Dashboard.rng_wind E). fold (Dashboard.rng_end E).
  fold (Dashboard.temperature_data E). fold (Dashboard.humidity_data E).
  fold (Dashboard.wind_data E).
  fold (Dashboard.temperature_out_of_range E).
  fold (Dashboard.humidity_out_of_range E).
  fold (Dashboard.wind_out_of_range E).
  fold (Dashboard.time_index E k).
  fold (Dashboard.weather_frame E k). fold (Dashboard.frame_summary E k).
  unfold Dashboard.generate_events, Dashboard.range_error.
  destruct (Dashboard.temperature_out_of_range E);
    [|destruct (Dashboard.humidity_out_of_range E);
      [|destruct (Dashboard.wind_out_of_range E)]].
  1-3: unfold Dashboard.session_debug_mode, Exception; prims;
       destruct b; cbn [app]; rewrite <- ?app_assoc; reflexivity.
  do 3 (erewrite bind_ret by reflexivity).
  step dashboard_debug_print_run. unfold ret. rewrite <- app_assoc. reflexivity.
Qed.

End GeneratorRun.

(** *** Rejection of out-of-range batches *)

Lemma np_any_exists p a :
  Dashboard.np_any p a = true <-> exists x, In x a /\ p x = true.
Proof. apply existsb_exists. Qed.

Lemma out_of_range_iff p q a :
  Dashboard.np_any p a || Dashboard.np_any q a = true <->
  exists x, In x a /\ (p x = true \/ q x = true).
Proof.
  rewrite orb_true_iff, !np_any_exists. split.
  - intros [(x & ? & ?)|(x & ? & ?)]; eauto.
  - intros (x & ? & [?|?]); eauto.
Qed.

Lemma range_error_iff E :
  Dashboard.range_error E <> None <->
  (exists x, In x (Dashboard.temperature_data E)
             /\ ((x <? -50)%float = true \/ (60 <? x)%float = true))
  \/ (exists x, In x (Dashboard.humidity_data E)
                /\ ((x <? 0)%float = true \/ (100 <? x)%float = true))
  \/ (exists x, In x (Dashboard.wind_data E) /\ (x <? 0)%float = true).
Proof.
  pose proof (out_of_range_iff (fun x => x <? -50)%float (fun x => 60 <? x)%float
                (Dashboard.temperature_data E)) as Ht.
  pose proof (out_of_range_iff (fun x => x <? 0)%float (fun x => 100 <? x)%float
                (Dashboard.humidity_data E)) as Hh.
  pose proof (np_any_exists (fun x => x <? 0)%float (Dashboard.wind_data E)) as Hw.
  fold (Dashboard.temperature_out_of_range E) in Ht.
  fold (Dashboard.humidity_out_of_range E) in Hh.
  fold (Dashboard.wind_out_of_range E) in Hw.
  cbv beta in Ht, Hh, Hw. rewrite <- Ht, <- Hh, <- Hw.
  unfold Dashboard.range_error.
  destruct (Dashboard.temperature_out_of_range E),
           (Dashboard.humidity_out_of_range E),
           (Dashboard.wind_out_of_range E);
    intuition congruence.
Qed.

(** C1: if any generated value lies outside the plausibility ranges
    (temperature below -50 or above 60, humidity below 0 or above 100, wind
    speed below 0), [generate_weather_data] returns [None] and reports the
    failure with [st.error] (followed by the traceback in debug mode);
    nothing else is emitted after the opening debug line. *)
Theorem out_of_range_batch_rejected E tr r k b fm :
  (exists x, In x (Dashboard.temperature_data E)
             /\ ((x <? -50)%float = true \/ (60 <? x)%float = true))
  \/ (exists x, In x (Dashboard.humidity_data E)
                /\ ((x <? 0)%float = true \/ (100 <? x)%float = true))
  \/ (exists x, In x (Dashboard.wind_data E) /\ (x <? 0)%float = true) ->
  exists e s',
    Dashboard.generate_weather_data E (mkState tr r k (Some b) fm) = (Ret None, s')
    /\ exn_cls e = ValueError
    /\ trace s' =
       tr ++ debug_events b "Generating synthetic weather data..." None
          ++ Render Page (StError ("❌ Error generating weather data: " +++ exn_str e))
          :: (if b then [Render Page (StCode (format_exc E e))] else []).
Proof.
  intros H. apply range_error_iff in H.
  rewrite generate_weather_data_run. unfold Dashboard.generate_events.
  destruct (Dashboard.range_error E) as [e|] eqn:He; [|congruence].
  exists e. eexists. split; [reflexivity|]. split; [|reflexivity].
  unfold Dashboard.range_error in He.
  repeat match type of He with
         | (if ?c then _ else _) = _ => destruct c
         end; now inversion He.
Qed.

(** Conversely a batch within the ranges is returned whole. *)
Lemma in_range_batch_returned E tr r k b fm :
  Dashboard.range_error E = None ->
  Dashboard.generate_weather_data E (mkState tr r k (Some b) fm)
  = (Ret (Some (Dashboard.weather_frame E k)),
     mkState (tr ++ debug_events b "Generating synthetic weather data..." None
                 ++ debug_events b "Weather data generated successfully"
                                 (Some (Dashboard.frame_summary E k)))
             (Dashboard.rng_end E) (k + Dashboard.num_points) (Some b) fm).
Proof.
  intros H. rewrite generate_weather_data_run.
  unfold Dashboard.generate_events. now rewrite H.
Qed.

Lemma out_of_range_batch_rejected_witness :
  exists e s',
    Dashboard.generate_weather_data stormy (resumed true) = (Ret None, s')
    /\ exn_cls e = ValueError
    /\ trace s' =
       [] ++ debug_events true "Generating synthetic weather data..." None
          ++ [Render Page (StError ("❌ Error generating weather data: " +++ exn_str e));
              Render Page (StCode (format_exc stormy e))].
Proof.
  apply (out_of_range_batch_rejected stormy [] 7 12 true []).
  left. exists 520%float. split.
  - vm_compute. left. reflexivity.
  - right. reflexivity.
Defined.

(** *** Determinism *)

Lemma gauss_draws_ext E1 E2 :
  (forall r, gauss E1 r = gauss E2 r) ->
  forall n r, Dashboard.gauss_draws E1 r n = Dashboard.gauss_draws E2 r n.
Proof.
  intros H. induction n as [|n IH]; intros r; cbn; [reflexivity|].
  rewrite H. destruct (gauss E2 r) as [g r1]. now rewrite IH.
Qed.

Lemma weather_arrays_ext E1 E2 :
  same_numpy E1 E2 ->
  Dashboard.temperature_data E1 = Dashboard.temperature_data E2
  /\ Dashboard.humidity_data E1 = Dashboard.humidity_data E2
  /\ Dashboard.wind_data E1 = Dashboard.wind_data E2.
Proof.
  intros (Hseed & Hgauss & Hsin & Hcos).
  pose proof (gauss_draws_ext E1 E2 Hgauss) as Hd.
  unfold Dashboard.temperature_data, Dashboard.humidity_data, Dashboard.wind_data,
    Dashboard.normal_from, Dashboard.rng_wind, Dashboard.rng_humidity,
    Dashboard.rng_temperature, Dashboard.rng_after.
  rewrite !Hseed, !Hd.
  repeat split; f_equal; apply map_ext; intros x; now rewrite ?Hsin, ?Hcos.
Qed.

(** C3: two runs of [generate_weather_data] under the same NumPy (the seed
    is the constant 42) end alike and, when they return a frame, return the
    same temperature, humidity and wind-speed arrays, whatever the two
    sessions, clocks, generator states before the call and debug settings
    are. *)
Theorem same_seed_same_arrays E1 E2 tr1 r1 k1 b1 fm1 tr2 r2 k2 b2 fm2 :
  same_numpy E1 E2 ->
  numeric_arrays (fst (Dashboard.generate_weather_data E1 (mkState tr1 r1 k1 (Some b1) fm1)))
  = numeric_arrays (fst (Dashboard.generate_weather_data E2 (mkState tr2 r2 k2 (Some b2) fm2))).
Proof.
  intros H. destruct (weather_arrays_ext E1 E2 H) as (Ht & Hh & Hw).
  rewrite !generate_weather_data_run. cbn [fst].
  unfold Dashboard.range_error, Dashboard.temperature_out_of_range,
    Dashboard.humidity_out_of_range, Dashboard.wind_out_of_range.
  rewrite Ht, Hh, Hw.
  repeat match goal with
         | |- context [if ?c then _ else _] => destruct c
         end; try reflexivity.
  unfold numeric_arrays, Dashboard.weather_frame. now rewrite Ht, Hh, Hw.
Qed.

Lemma same_seed_same_arrays_witness :
  same_numpy quiet no_file
  /\ numeric_arrays (fst (Dashboard.generate_weather_data quiet (resumed false)))
     = numeric_arrays (fst (Dashboard.generate_weather_data no_file
                              (mkState [LogInfo "earlier"] 99 1000 (Some true) []))).
Proof.
  assert (H : same_numpy quiet no_file) by (repeat split).
  split; [exact H|].
  apply (same_seed_same_arrays quiet no_file [] 7 12 false []
           [LogInfo "earlier"] 99 1000 true [] H).
Defined.

(** *** Shape of the frame and its time index *)

Lemma time_index_from_length E k l :
  length (Dashboard.time_index_from E k l) = length l.
Proof. revert k. induction l as [|i l IH]; intros k; cbn; [reflexivity|now rewrite IH]. Qed.

Lemma time_index_from_nth E l : forall k i d,
  i < length l ->
  nth i (Dashboard.time_index_from E k l) d
  = (clock E (k + i) - Dashboard.timedelta_minutes (99 - Z.of_nat (nth i l 0%nat)))%Z.
Proof.
  induction l as [|j l IH]; intros k i d Hi; cbn in Hi; [lia|].
  destruct i as [|i]; cbn.
  - now rewrite Nat.add_0_r.
  - rewrite IH by lia. now rewrite Nat.add_succ_r.
Qed.

(** Row [i] carries the [i]-th reading of the clock since the call, moved
    back by [99 - i] minutes. *)
Lemma time_index_nth E k i :
  i < Dashboard.num_points ->
  nth i (Dashboard.time_index E k) 0%Z
  = (clock E (k + i) - (99 - Z.of_nat i) * 60000000)%Z.
Proof.
  intros Hi. unfold Dashboard.time_index.
  rewrite time_index_from_nth by now rewrite length_seq.
  now rewrite seq_nth.
Qed.

(** Consecutive rows are one minute apart plus whatever the clock advanced
    between the two reads. *)
Lemma time_index_step E k i :
  S i < Dashboard.num_points ->
  (nth (S i) (Dashboard.time_index E k) 0 - nth i (Dashboard.time_index E k) 0
   = 60000000 + (clock E (k + S i) - clock E (k + i)))%Z.
Proof. intros Hi. rewrite !time_index_nth by lia. lia. Qed.

(** Were the clock read once, or frozen during the call, the steps would be
    one minute and the last row would carry the time of the call. *)
Lemma time_index_frozen_clock E k now :
  (forall i, i < Dashboard.num_points -> clock E (k + i) = now) ->
  (forall i, S i < Dashboard.num_points ->
     (nth (S i) (Dashboard.time_index E k) 0 - nth i (Dashboard.time_index E k) 0
      = 60000000)%Z)
  /\ nth 99 (Dashboard.time_index E k) 0%Z = now.
Proof.
  intros Hfrozen. split.
  - intros i Hi. rewrite time_index_step by exact Hi.
    rewrite !Hfrozen by lia. lia.
  - rewrite time_index_nth by (unfold Dashboard.num_points; lia).
    rewrite Hfrozen by (unfold Dashboard.num_points; lia). lia.
Qed.

Lemma linspace_length a b n : length (Dashboard.linspace a b n) = n.
Proof.
  unfold Dashboard.linspace. destruct (1 <? n)%nat eqn:Hn.
  - apply Nat.ltb_lt in Hn. rewrite length_app, length_map, length_seq. cbn. lia.
  - now rewrite length_map, length_seq.
Qed.

Lemma gauss_draws_length E n : forall r,
  length (fst (Dashboard.gauss_draws E r n)) = n.
Proof.
  induction n as [|n IH]; intros r; cbn; [reflexivity|].
  destruct (gauss E r) as [g r1]. specialize (IH r1).
  destruct (Dashboard.gauss_draws E r1 n). cbn in *. now rewrite IH.
Qed.

Lemma array_add_length a b :
  length (Dashboard.array_add a b) = Nat.min (length a) (length b).
Proof. unfold Dashboard.array_add. now rewrite length_map, length_combine. Qed.

Lemma weather_arrays_length E :
  length (Dashboard.temperature_data E) = Dashboard.num_points
  /\ length (Dashboard.humidity_data E) = Dashboard.num_points
  /\ length (Dashboard.wind_data E) = Dashboard.num_points.
Proof.
  unfold Dashboard.temperature_data, Dashboard.humidity_data, Dashboard.wind_data,
    Dashboard.normal_from.
  rewrite !array_add_length, !length_map, !linspace_length, !gauss_draws_length.
  rewrite Nat.min_id. auto.
Qed.

(** Every column of the frame has [num_points] rows. *)
Lemma weather_frame_rows E k :
  df_len (Dashboard.weather_frame E k) = Dashboard.num_points
  /\ Forall (fun nc => column_len (snd nc) = Dashboard.num_points)
            (Dashboard.weather_frame E k).
Proof.
  destruct (weather_arrays_length E) as (Ht & Hh & Hw).
  assert (Hi : column_len (TimeCol (map Some (Dashboard.time_index E k)))
               = Dashboard.num_points).
  { unfold column_len, column_cells, Dashboard.time_index.
    now rewrite !length_map, time_index_from_length, length_seq. }
  split; [exact Hi|].
  unfold Dashboard.weather_frame.
  repeat constructor; cbn [snd]; try exact Hi;
    unfold column_len, column_cells; now rewrite length_map.
Qed.

(** C4: with a clock that advances by a microsecond at each read, the
    frame [generate_weather_data] returns has 100 rows, but its first two
    timestamps are 60.000001 s apart, not one minute, and its last timestamp
    is the hundredth reading of the clock, 99 microseconds after the first
    one. *)
Theorem timestamps_drift_with_the_clock :
  exists times,
    fst (Dashboard.generate_weather_data quiet (resumed false))
    = Ret (Some (Dashboard.weather_frame quiet 12))
    /\ df_get (Dashboard.weather_frame quiet 12) Dashboard.col_time
       = Some (TimeCol (map Some times))
    /\ length times = 100
    /\ (nth 1 times 0 - nth 0 times 0 = 60000001)%Z
    /\ (last times 0 = clock quiet 12 + 99)%Z.
Proof.
  exists (Dashboard.time_index quiet 12).
  repeat split; vm_compute; reflexivity.
Qed.

(** *** Validation *)

Lemma has_column_get df name :
  has_column df name = true -> exists c, df_get df name = Some c.
Proof.
  unfold has_column, df_columns.
  induction df as [|[n c] df IH]; cbn; [discriminate|].
  rewrite (String.eqb_sym name n).
  destruct (String.eqb n name); cbn; eauto.
Qed.

Lemma no_missing_columns df :
  Dashboard.missing_columns df = [] ->
  forall name, In name Dashboard.required_columns -> has_column df name = true.
Proof.
  unfold Dashboard.missing_columns. intros H name Hin.
  destruct (has_column df name) eqn:Hc; [reflexivity|].
  assert (Hf : In name (filter (fun col => negb (has_column df col))
                               Dashboard.required_columns)).
  { apply filter_In. split; [exact Hin|]. now rewrite Hc. }
  rewrite H in Hf. destruct Hf.
Qed.

Lemma validate_dataframe_run E df tr r k b fm :
  Dashboard.missing_columns df = [] ->
  Dashboard.validate_dataframe E df (mkState tr r k (Some b) fm)
  = (Ret true, mkState (tr ++ Dashboard.validate_events E b df) r k (Some b) fm).
Proof.
  intros Hm.
  destruct (has_column_get df Dashboard.col_time) as [time Ht].
  { apply no_missing_columns; [exact Hm|]. left. reflexivity. }
  unfold Dashboard.validate_dataframe, Dashboard.validate_events, try_except.
  emit_step. rewrite Hm. erewrite bind_ret by reflexivity.
  emit_step. unfold Dashboard.df_getitem. rewrite Ht.
  erewrite bind_ret by reflexivity. do 2 emit_step.
  rewrite ret_run, <- !app_assoc.
  now destruct (is_datetime64_any_dtype time).
Qed.

Lemma null_is_counted df :
  has_null df ->
  existsb (fun nc => negb (snd nc =? 0)%nat) (isnull_sum df) = true.
Proof.
  intros (name & c & v & Hin & Hv & Hnull).
  apply existsb_exists.
  exists (name, length (filter cell_isnull (column_cells c))). split.
  - unfold isnull_sum. apply in_map_iff. exists (name, c). auto.
  - cbn [snd].
    assert (Hf : In v (filter cell_isnull (column_cells c))) by now apply filter_In.
    destruct (filter cell_isnull (column_cells c)); [destruct Hf|reflexivity].
Qed.

(** C6: a frame with the four required columns and a null entry somewhere
    passes validation: [validate_dataframe] returns [True], and the NaN
    warning with the per-column counts is among what it emitted. *)
Theorem nulls_are_flagged_not_failed E df tr r k b fm :
  Dashboard.missing_columns df = [] ->
  has_null df ->
  exists s',
    Dashboard.validate_dataframe E df (mkState tr r k (Some b) fm) = (Ret true, s')
    /\ In (Render Page (StWarning ("⚠️ Found NaN values: "
                                   +++ py_str E (Dashboard.counts_to_dict (isnull_sum df)))))
          (trace s').
Proof.
  intros Hm Hn. rewrite validate_dataframe_run by exact Hm.
  eexists. split; [reflexivity|]. cbn [trace].
  unfold Dashboard.validate_events. rewrite (null_is_counted df Hn).
  apply in_or_app. right. apply in_or_app. right. left. reflexivity.
Qed.

Lemma nulls_are_flagged_not_failed_witness :
  exists s',
    Dashboard.validate_dataframe quiet gappy_frame (resumed false) = (Ret true, s')
    /\ In (Render Page (StWarning ("⚠️ Found NaN values: "
             +++ py_str quiet (Dashboard.counts_to_dict (isnull_sum gappy_frame)))))
          (trace s').
Proof.
  apply (nulls_are_flagged_not_failed quiet gappy_frame [] 7 12 false []).
  - reflexivity.
  - exists Dashboard.col_temperature, (FloatCol [nan; 21.5; nan]%float), (CFloat nan).
    split; [right; left; reflexivity|].
    split; [left; reflexivity|reflexivity].
Defined.

(** ** Current values *)

Lemma emits_dashboard_debug_print p msg data :
  (forall ev, In ev (debug_events true msg data) -> p ev = true) ->
  emits p (Dashboard.debug_print msg data).
Proof.
  intros H s. destruct s as [tr r k [b|] fm].
  - rewrite dashboard_debug_print_run. exists (debug_events b msg data).
    split; [reflexivity|]. destruct b; [now apply Forall_forall|constructor].
  - exists []. cbn. now rewrite app_nil_r.
Qed.

Lemma emits_map_debug_print p b msg data :
  (forall ev, In ev (debug_events true msg data) -> p ev = true) ->
  emits p (WeatherMap.debug_print b msg data).
Proof.
  intros H s. destruct s as [tr r k d fm].
  rewrite map_debug_print_run. exists (debug_events b msg data).
  split; [reflexivity|]. destruct b; [now apply Forall_forall|constructor].
Qed.

Lemma emits_session_debug_mode p : emits p Dashboard.session_debug_mode.
Proof.
  apply emits_silent. intros s. unfold Dashboard.session_debug_mode.
  now destruct (session_debug s).
Qed.

Lemma emits_df_getitem p df name : emits p (Dashboard.df_getitem df name).
Proof.
  unfold Dashboard.df_getitem. destruct (df_get df name);
    [apply emits_ret|apply emits_raise].
Qed.

Lemma emits_iloc_last p c : emits p (Dashboard.iloc_last c).
Proof.
  unfold Dashboard.iloc_last. destruct (rev (column_cells c));
    [apply emits_raise|apply emits_ret].
Qed.

(** Debug lines are neither metrics nor part of the page body. *)
Lemma debug_events_plain msg data ev :
  In ev (debug_events true msg data) ->
  is_metric ev = false /\ page_body ev = false.
Proof.
  unfold debug_events. destruct data; cbn; intuition (subst; auto).
Qed.

(** ** Silent primitives *)

Lemma emits_np_random_seed p E seed : emits p (Dashboard.np_random_seed E seed).
Proof. now apply emits_silent. Qed.

Lemma emits_datetime_now p E : emits p (Dashboard.datetime_now E).
Proof. now apply emits_silent. Qed.

Lemma emits_init_session p : emits p Dashboard.init_session.
Proof.
  apply emits_silent. intros s. unfold Dashboard.init_session.
  now destruct (session_debug s).
Qed.

Lemma emits_random_normal p E loc scale n : emits p (Dashboard.random_normal E loc scale n).
Proof.
  apply emits_silent. intros [tr r k d fm]. now rewrite random_normal_run.
Qed.

Lemma emits_get_map p : emits p WeatherMap.get_map.
Proof. now apply emits_silent. Qed.

Lemma emits_set_map p m : emits p (WeatherMap.set_map m).
Proof. now apply emits_silent. Qed.

Lemma random_uniform_run E low high n tr r k d fm :
  WeatherMap.random_uniform E low high n (mkState tr r k d fm)
  = (Ret (fst (WeatherMap.uniform_draws E low high r n)),
     mkState tr (snd (WeatherMap.uniform_draws E low high r n)) k d fm).
Proof.
  revert r. induction n as [|n IH]; intros r; cbn; [reflexivity|].
  unfold bind at 1. unfold WeatherMap.draw_random_sample at 1. cbn.
  destruct (random_sample E r) as [u r1]. unfold bind at 1. rewrite IH.
  destruct (WeatherMap.uniform_draws E low high r1 n) as [vs r2]. reflexivity.
Qed.

Lemma emits_random_uniform p E low high n : emits p (WeatherMap.random_uniform E low high n).
Proof.
  apply emits_silent. intros [tr r k d fm]. now rewrite random_uniform_run.
Qed.

(** Routine decomposition of an [emits] goal along the structure of the
    command, leaving the checks on the emitted elements to computation. *)
Ltac emits_unfold :=
  unfold Dashboard.show_dashboard, Dashboard.top_level,
    Dashboard.generate_weather_data,
    Dashboard.validate_dataframe, Dashboard.current_metric, Dashboard.current_value,
    Dashboard.chart_data, Dashboard.line_chart,
    WeatherMap.import_dashboard_module, WeatherMap.load_regions, WeatherMap.fatal,
    WeatherMap.generate_temperature, WeatherMap.create_map, WeatherMap.add_choropleth,
    WeatherMap.add_tooltips, WeatherMap.add_tooltip, WeatherMap.tooltip_text,
    WeatherMap.row_getitem, WeatherMap.add_to, WeatherMap.tab1, WeatherMap.tab2,
    WeatherMap.tab3, WeatherMap.current_metric, WeatherMap.page.

Ltac emits_debug_line :=
  let H := fresh in
  let H1 := fresh in
  let H2 := fresh in
  intros ? H; apply debug_events_plain in H; destruct H as [H1 H2];
  cbn; rewrite ?H1, ?H2; reflexivity.

Ltac emits_tac :=
  repeat first
    [ progress intros
    | progress cbv beta
    | lazymatch goal with
      | |- emits _ (bind _ _) => apply emits_bind
      | |- emits _ (try_except _ _ _) => apply emits_try_except
      | |- emits _ (ret _) => apply emits_ret
      | |- emits _ (raise _) => apply emits_raise
      | |- emits _ st_stop => apply emits_stop
      | |- emits _ (lift _) => apply emits_lift
      | |- emits _ (check _) => apply emits_check
      | |- emits _ (when _ _) => apply emits_when
      | |- emits _ (mapM _ _) => apply emits_mapM
      | |- emits _ (Dashboard.np_random_seed _ _) => apply emits_np_random_seed
      | |- emits _ (Dashboard.datetime_now _) => apply emits_datetime_now
      | |- emits _ Dashboard.init_session => apply emits_init_session
      | |- emits _ (Dashboard.random_normal _ _ _ _) => apply emits_random_normal
      | |- emits _ WeatherMap.get_map => apply emits_get_map
      | |- emits _ (WeatherMap.set_map _) => apply emits_set_map
      | |- emits _ (WeatherMap.random_uniform _ _ _ _) => apply emits_random_uniform
      | |- emits _ Dashboard.session_debug_mode => apply emits_session_debug_mode
      | |- emits _ (Dashboard.df_getitem _ _) => apply emits_df_getitem
      | |- emits _ (Dashboard.iloc_last _) => apply emits_iloc_last
      | |- emits _ (st _ _) => apply emits_st; reflexivity
      | |- emits _ (logger_info _) => apply emits_logger_info; reflexivity
      | |- emits _ (Dashboard.debug_print _ _) =>
          apply emits_dashboard_debug_print; emits_debug_line
      | |- emits _ (WeatherMap.debug_print _ _ _) =>
          apply emits_map_debug_print; emits_debug_line
      | |- emits _ (match ?x with _ => _ end) => destruct x
      end
    | progress emits_unfold ].

Lemma filter_none {A} (p : A -> bool) l :
  Forall (fun x => negb (p x) = true) l -> filter p l = [].
Proof.
  induction 1 as [|x l Hx _ IH]; cbn; [reflexivity|].
  apply negb_true_iff in Hx. now rewrite Hx.
Qed.

Lemma filter_debug_events p b msg data :
  (forall ev, In ev (debug_events true msg data) -> p ev = false) ->
  filter p (debug_events b msg data) = [].
Proof.
  intros H. destruct b; [|reflexivity]. apply filter_none, Forall_forall.
  intros ev Hin. now rewrite (H ev Hin).
Qed.

Lemma metrics_of_debug_events b msg data :
  filter is_metric (debug_events b msg data) = [].
Proof. apply filter_debug_events. intros ev H. now apply debug_events_plain in H. Qed.

Section CurrentValues.
Variable E : Env.
Variable df : DataFrame.

Lemma iloc_last_float l s :
  l <> [] ->
  Dashboard.iloc_last (FloatCol l) s = (Ret (CFloat (last l 0%float)), s).
Proof.
  intros Hl. destruct (exists_last Hl) as (l' & x & ->).
  unfold Dashboard.iloc_last, column_cells.
  now rewrite last_last, map_app, rev_app_distr.
Qed.

Lemma current_value_run name l s :
  df_get df name = Some (FloatCol l) -> l <> [] ->
  Dashboard.current_value E df name s = (Ret (format_1f (last l 0%float)), s).
Proof.
  intros Hget Hl. unfold Dashboard.current_value, Dashboard.df_getitem.
  rewrite Hget. erewrite bind_ret by reflexivity.
  erewrite bind_ret by now apply iloc_last_float.
  reflexivity.
Qed.

Lemma dashboard_current_metric_run i label suffix what What l tr r k b fm :
  df_get df label = Some (FloatCol l) -> l <> [] ->
  Dashboard.current_metric E df i label suffix what What (mkState tr r k (Some b) fm)
  = (Ret tt,
     mkState (tr ++ Render (Col i) (StMetric label (format_1f (last l 0%float)))
                 :: debug_events b ("Current " +++ what +++ ": "
                                    +++ format_1f (last l 0%float) +++ suffix) None)
             r k (Some b) fm).
Proof.
  intros Hget Hl. unfold Dashboard.current_metric, try_except.
  erewrite bind_ret by (eapply current_value_run; eassumption).
  emit_step. rewrite dashboard_debug_print_run, <- app_assoc. reflexivity.
Qed.

Lemma map_current_metric_run i label what l tr r k d fm :
  df_get df label = Some (FloatCol l) -> l <> [] ->
  WeatherMap.current_metric E df i label what (mkState tr r k d fm)
  = (Ret tt,
     mkState (tr ++ [Render (Col i) (StMetric label (format_1f (last l 0%float)))])
             r k d fm).
Proof.
  intros Hget Hl. unfold WeatherMap.current_metric, try_except.
  erewrite bind_ret by (eapply current_value_run; eassumption).
  reflexivity.
Qed.

End CurrentValues.

(** C8: for a frame whose temperature, humidity and wind-speed columns are
    non-empty float columns (every generated series is one), the metrics
    [show_dashboard] displays under 'Current Values' are exactly three, in
    columns 1 to 3, and each shows the last row's value of its column
    formatted with [.1f]; the second tab of the map script displays the same
    three metrics. *)
Theorem current_values_show_the_last_row E df lt lh lw tr r k b fm dbg s2 :
  df_get df Dashboard.col_temperature = Some (FloatCol lt) ->
  df_get df Dashboard.col_humidity = Some (FloatCol lh) ->
  df_get df Dashboard.col_wind = Some (FloatCol lw) ->
  lt <> [] -> lh <> [] -> lw <> [] ->
  let metrics :=
    [Render (Col 1) (StMetric "Temperature (°C)" (format_1f (last lt 0%float)));
     Render (Col 2) (StMetric "Humidity (%)" (format_1f (last lh 0%float)));
     Render (Col 3) (StMetric "Wind Speed (km/h)" (format_1f (last lw 0%float)))] in
  (exists evs,
      trace (snd (Dashboard.show_dashboard E (Some df) (mkState tr r k (Some b) fm)))
      = tr ++ evs
      /\ filter is_metric evs = metrics)
  /\ (exists evs,
         trace (snd (WeatherMap.tab2 E dbg (Some df) s2)) = trace s2 ++ evs
         /\ filter is_metric evs = metrics).
Proof.
  intros Ht Hh Hw Hlt Hlh Hlw metrics. split.
  - unfold Dashboard.show_dashboard.
    erewrite try_except_bind_ret by apply st_run. cbv beta iota.
    do 2 (erewrite try_except_bind_ret by apply st_run).
    do 3 (erewrite try_except_bind_ret
            by (eapply dashboard_current_metric_run; eassumption)).
    match goal with
    | |- exists evs, trace (snd (?c ?s)) = _ /\ _ =>
        assert (Hrest : emits (fun ev => negb (is_metric ev)) c)
          by emits_tac;
        destruct (Hrest s) as (evs' & Hevs & Hp)
    end.
    rewrite Hevs. cbn [trace]. eexists. split.
    { rewrite <- !app_assoc. reflexivity. }
    repeat (rewrite ?filter_app, ?metrics_of_debug_events;
            cbn [app filter is_metric]).
    now rewrite (filter_none _ _ Hp).
  - destruct s2 as [tr2 r2 k2 d2 fm2]. unfold WeatherMap.tab2.
    do 2 (erewrite try_except_bind_ret by apply st_run).
    do 3 (erewrite try_except_bind_ret
            by (eapply map_current_metric_run; eassumption)).
    match goal with
    | |- exists evs, trace (snd (?c ?s)) = _ /\ _ =>
        assert (Hrest : emits (fun ev => negb (is_metric ev)) c)
          by emits_tac;
        destruct (Hrest s) as (evs' & Hevs & Hp)
    end.
    rewrite Hevs. cbn [trace]. eexists. split.
    { rewrite <- !app_assoc. reflexivity. }
    cbn [app filter is_metric].
    now rewrite (filter_none _ _ Hp).
Qed.

Lemma current_values_show_the_last_row_witness :
  (exists evs,
      trace (snd (Dashboard.show_dashboard quiet (Some (Dashboard.weather_frame quiet 12))
                    (resumed false)))
      = [] ++ evs
      /\ filter is_metric evs =
         [Render (Col 1) (StMetric "Temperature (°C)" "20.0");
          Render (Col 2) (StMetric "Humidity (%)" "50.0");
          Render (Col 3) (StMetric "Wind Speed (km/h)" "10.0")])
  /\ (exists evs,
         trace (snd (WeatherMap.tab2 quiet true (Some (Dashboard.weather_frame quiet 12))
                       fresh))
         = trace fresh ++ evs
         /\ filter is_metric evs =
            [Render (Col 1) (StMetric "Temperature (°C)" "20.0");
             Render (Col 2) (StMetric "Humidity (%)" "50.0");
             Render (Col 3) (StMetric "Wind Speed (km/h)" "10.0")]).
Proof.
  apply (current_values_show_the_last_row quiet (Dashboard.weather_frame quiet 12)
           (Dashboard.temperature_data quiet) (Dashboard.humidity_data quiet)
           (Dashboard.wind_data quiet) [] 7 12 false [] true fresh);
    try reflexivity; vm_compute; discriminate.
Defined.

(** Importing the dashboard module draws nothing of a page body. *)
Lemma import_emits_no_page_body E :
  emits (fun ev => negb (page_body ev)) (WeatherMap.import_dashboard_module E).
Proof. emits_tac. Qed.

(** ** The map script, stage by stage *)

Lemma ends_bind_ret {A B} (c : M A) (k : A -> M B) a o :
  ends c (Ret a) -> ends (k a) o -> ends (bind c k) o.
Proof.
  intros Hc Hk s. destruct (Hc s) as [s1 H1]. destruct (Hk s1) as [s2 H2].
  exists s2. now rewrite (bind_ret c k s a s1 H1).
Qed.

Lemma ends_bind_halt {A B} (c : M A) (k : A -> M B) :
  ends c Halt -> ends (bind c k) Halt.
Proof.
  intros Hc s. destruct (Hc s) as [s1 H1]. exists s1. now apply bind_halt.
Qed.

Lemma ends_bind_raise {A B} (c : M A) (k : A -> M B) e :
  ends c (Raise e) -> ends (bind c k) (Raise e).
Proof.
  intros Hc s. destruct (Hc s) as [s1 H1]. exists s1. now apply bind_raise.
Qed.

Lemma ends_returns {A} (c : M A) a : ends c (Ret a) -> returns c.
Proof. intros H s. destruct (H s) as [s1 H1]. exists a. now rewrite H1. Qed.

Lemma returns_unit_ends (c : M unit) : returns c -> ends c (Ret tt).
Proof.
  intros H s. destruct (H s) as [[] Ha]. destruct (c s) as [o s1].
  cbn in Ha. subst. now exists s1.
Qed.

Lemma fatal_ends {A} E dbg msg e : ends (@WeatherMap.fatal A E dbg msg e) Halt.
Proof.
  intros [tr r k d fm]. unfold WeatherMap.fatal. do 2 emit_step.
  eexists. reflexivity.
Qed.

Section MapScript.
Variable E : Env.
Variable debug_mode : bool.

Lemma top_level_run tr r k d fm :
  let b := match d with Some b => b | None => false end in
  Dashboard.top_level E (mkState tr r k d fm)
  = match Dashboard.range_error E with
    | Some _ =>
        (Halt,
         mkState (tr ++ Dashboard.generate_events E k b
                     ++ [Render Page (StError "❌ Failed to generate weather data. Please check the error messages above.")])
                 (Dashboard.rng_end E) (k + Dashboard.num_points) (Some b) fm)
    | None =>
        (Ret (Dashboard.weather_frame E k),
         mkState (tr ++ Dashboard.generate_events E k b
                     ++ Dashboard.validate_events E b (Dashboard.weather_frame E k))
                 (Dashboard.rng_end E) (k + Dashboard.num_points) (Some b) fm)
    end.
Proof.
  intros b. unfold Dashboard.top_level.
  assert (Hinit : Dashboard.init_session (mkState tr r k d fm)
                  = (Ret tt, mkState tr r k (Some b) fm)).
  { subst b. now destruct d. }
  erewrite bind_ret by exact Hinit.
  erewrite bind_ret by apply generate_weather_data_run.
  destruct (Dashboard.range_error E).
  - emit_step. rewrite <- app_assoc. reflexivity.
  - erewrite bind_ret by (apply validate_dataframe_run; reflexivity).
    rewrite <- app_assoc. reflexivity.
Qed.

(** How the import of the dashboard module ends. *)
Lemma import_dashboard_module_end s :
  fst (WeatherMap.import_dashboard_module E s)
  = match import_dashboard E with
    | Some e => if is_class ImportError e then Halt else Raise e
    | None =>
        if series_rejected E then Halt
        else Ret (Dashboard.weather_frame E (reads s))
    end.
Proof.
  destruct s as [tr r k d fm].
  unfold WeatherMap.import_dashboard_module, try_except, series_rejected.
  destruct (import_dashboard E) as [e|].
  - erewrite bind_raise by reflexivity. now destruct (is_class ImportError e).
  - erewrite bind_ret by reflexivity.
    unfold bind at 1. rewrite top_level_run.
    now destruct (Dashboard.range_error E).
Qed.

Lemma load_regions_run tr r k d fm :
  WeatherMap.load_regions E debug_mode (mkState tr r k d fm)
  = match read_file E WeatherMap.geojson_path with
    | inl e =>
        (Halt,
         mkState (tr ++ debug_events debug_mode "Loading Singapore regions GeoJSON file..." None
                     ++ Render Page (StError (geometry_error E))
                     :: (if is_class FileNotFoundError e then []
                         else if debug_mode then [Render Page (StCode (format_exc E e))]
                              else []))
                 r k d fm)
    | inr regions_gdf =>
        let loaded :=
          tr ++ debug_events debug_mode "Loading Singapore regions GeoJSON file..." None
             ++ debug_events debug_mode "GeoJSON loaded successfully"
                  (Some (VDict
                     [("shape", gdf_shape regions_gdf);
                      ("columns", VList (map VStr (gdf_columns regions_gdf)));
                      ("regions",
                       if gdf_has_column regions_gdf "region"
                       then VList (map WeatherMap.region_value
                                       (unique [] (map region (gdf_rows regions_gdf))))
                       else VStr "No 'region' column found")])) in
        if gdf_empty regions_gdf
        then (Halt, mkState (loaded ++ [Render Page (StError (geometry_error E))]) r k d fm)
        else (Ret regions_gdf, mkState loaded r k d fm)
    end.
Proof.
  unfold WeatherMap.load_regions, try_except, geometry_error. emit_step.
  destruct (read_file E WeatherMap.geojson_path) as [e|g].
  - erewrite bind_raise by reflexivity. unfold Exception.
    destruct (is_class FileNotFoundError e).
    + emit_step. unfold st_stop. rewrite <- !app_assoc. reflexivity.
    + unfold WeatherMap.fatal. do 2 emit_step. unfold st_stop.
      destruct debug_mode; rewrite <- !app_assoc; reflexivity.
  - erewrite bind_ret by reflexivity. emit_step. cbv zeta.
    destruct (gdf_empty g).
    + emit_step. unfold st_stop. rewrite <- !app_assoc. reflexivity.
    + unfold ret. rewrite <- !app_assoc. reflexivity.
Qed.

Lemma load_regions_ends :
  ends (WeatherMap.load_regions E debug_mode)
       match read_file E WeatherMap.geojson_path with
       | inl _ => Halt
       | inr regions_gdf => if gdf_empty regions_gdf then Halt else Ret regions_gdf
       end.
Proof.
  intros [tr r k d fm]. rewrite load_regions_run.
  destruct (read_file E WeatherMap.geojson_path) as [e|g]; [eexists; reflexivity|].
  cbv zeta. destruct (gdf_empty g); eexists; reflexivity.
Qed.

Lemma generate_temperature_ends regions_gdf :
  ends (WeatherMap.generate_temperature E debug_mode regions_gdf)
       (Ret (WeatherMap.regions_with_temperature E regions_gdf)).
Proof.
  intros [tr r k d fm]. unfold WeatherMap.generate_temperature, try_except.
  emit_step. erewrite bind_ret by apply seed_run.
  erewrite bind_ret by apply random_uniform_run.
  cbv zeta. emit_step. eexists. reflexivity.
Qed.

Lemma create_map_ends :
  ends (WeatherMap.create_map E debug_mode)
       (if map_creation_fails E then Halt else Ret tt).
Proof.
  intros [tr r k d fm].
  unfold WeatherMap.create_map, try_except, map_creation_fails. emit_step.
  destruct (folium_Map E) as [e|].
  - erewrite bind_raise by reflexivity. unfold Exception. apply fatal_ends.
  - do 2 (erewrite bind_ret by reflexivity).
    rewrite map_debug_print_run. eexists. reflexivity.
Qed.

Lemma add_choropleth_ends regions_gdf :
  ends (WeatherMap.add_choropleth E debug_mode regions_gdf)
       match folium_Choropleth E regions_gdf with
       | Some _ => Halt
       | None => Ret tt
       end.
Proof.
  intros [tr r k d fm]. unfold WeatherMap.add_choropleth, try_except. emit_step.
  destruct (folium_Choropleth E regions_gdf) as [e|].
  - erewrite bind_raise by reflexivity. unfold Exception.
    destruct (is_class KeyError e); [|apply fatal_ends].
    emit_step. destruct debug_mode.
    + erewrite bind_ret by (cbn [when]; do 1 emit_step; apply st_run).
      eexists. reflexivity.
    + erewrite bind_ret by reflexivity. eexists. reflexivity.
  - do 2 (erewrite bind_ret by reflexivity).
    rewrite map_debug_print_run. eexists. reflexivity.
Qed.

End MapScript.

(** ** The tooltip loop *)

Lemma debug_events_kinds msg data ev :
  In ev (debug_events true msg data) ->
  is_debug_line ev = true /\ is_error ev = false /\ is_map_display ev = false.
Proof.
  unfold debug_events. destruct data; cbn; intuition (subst; auto).
Qed.

Lemma debug_events_debug_lines b msg data :
  Forall (fun ev => is_debug_line ev = true) (debug_events b msg data).
Proof.
  destruct b; [|constructor]. apply Forall_forall.
  intros ev H. now apply debug_events_kinds in H.
Qed.

Section Tooltips.
Variable E : Env.
Variable debug_mode : bool.
Variable columns : list string.

Lemma add_tooltip_run n idx r tr rg k d fm :
  WeatherMap.add_tooltip E debug_mode columns n idx r (mkState tr rg k d fm)
  = match WeatherMap.tooltip_layer E columns r with
    | inr l => (Ret (S n), mkState tr rg k d (fm ++ [l]))
    | inl e =>
        (Ret n,
         mkState (tr ++ debug_events debug_mode
                          (WeatherMap.tooltip_warning columns idx r e) None)
                 rg k d fm)
    end.
Proof.
  unfold WeatherMap.add_tooltip, WeatherMap.tooltip_layer, try_except, Exception.
  destruct (simplify_to_json E (geometry r)) as [e|geo_j].
  { erewrite bind_raise by reflexivity. emit_step. reflexivity. }
  erewrite bind_ret by reflexivity.
  unfold WeatherMap.tooltip_text, WeatherMap.row_getitem.
  destruct (existsb (String.eqb "region") columns); cbn [negb].
  2:{ erewrite bind_raise by reflexivity. emit_step. reflexivity. }
  destruct (existsb (String.eqb "Temperature") columns); cbn [negb].
  2:{ erewrite bind_raise by reflexivity. emit_step. reflexivity. }
  erewrite bind_ret by reflexivity. cbv zeta.
  destruct (folium_GeoJson E geo_j _) as [e|].
  { erewrite bind_raise by reflexivity. emit_step. reflexivity. }
  reflexivity.
Qed.

Lemma tooltip_loop_run rows : forall n idx tr rg k d fm,
  WeatherMap.tooltip_loop E debug_mode columns n idx rows (mkState tr rg k d fm)
  = (Ret (n + length (WeatherMap.tooltip_layers E columns rows)),
     mkState (tr ++ WeatherMap.tooltip_warnings E debug_mode columns idx rows) rg k d
             (fm ++ WeatherMap.tooltip_layers E columns rows)).
Proof.
  unfold WeatherMap.tooltip_layers.
  induction rows as [|r rows IH]; intros n idx tr rg k d fm;
    cbn [WeatherMap.tooltip_loop WeatherMap.tooltip_warnings flat_map].
  - unfold ret. now rewrite Nat.add_0_r, !app_nil_r.
  - unfold bind at 1. rewrite add_tooltip_run.
    destruct (WeatherMap.tooltip_layer E columns r) as [e|l]; rewrite IH;
      cbn [app length].
    + now rewrite <- app_assoc.
    + now rewrite <- app_assoc, Nat.add_succ_r.
Qed.

(** Every row either yields a layer or fails. *)
Lemma tooltip_rows_partition rows :
  length (WeatherMap.tooltip_layers E columns rows)
  + length (WeatherMap.tooltip_failures E columns rows) = length rows.
Proof.
  unfold WeatherMap.tooltip_layers, WeatherMap.tooltip_failures.
  induction rows as [|r rows IH]; cbn; [reflexivity|].
  destruct (WeatherMap.tooltip_layer E columns r); cbn; lia.
Qed.

End Tooltips.

Lemma add_tooltips_run E debug_mode regions_gdf tr rg k d fm :
  let columns := gdf_columns regions_gdf in
  WeatherMap.add_tooltips E debug_mode regions_gdf (mkState tr rg k d fm)
  = (Ret tt,
     mkState
       (tr ++ debug_events debug_mode "Adding tooltips..." None
           ++ WeatherMap.tooltip_warnings E debug_mode columns 0 (gdf_rows regions_gdf)
           ++ debug_events debug_mode
                ("Tooltips added successfully for "
                 +++ str_of_N (N.of_nat (length (WeatherMap.tooltip_layers E columns
                                                    (gdf_rows regions_gdf))))
                 +++ " regions") None)
       rg k d (fm ++ WeatherMap.tooltip_layers E columns (gdf_rows regions_gdf))).
Proof.
  cbv zeta. unfold WeatherMap.add_tooltips, try_except. emit_step.
  erewrite bind_ret by apply tooltip_loop_run.
  rewrite map_debug_print_run, <- !app_assoc. reflexivity.
Qed.

Lemma tooltip_warnings_silent E columns idx rows :
  WeatherMap.tooltip_warnings E false columns idx rows = [].
Proof.
  revert idx. induction rows as [|r rows IH]; intros idx; cbn; [reflexivity|].
  rewrite IH. now destruct (WeatherMap.tooltip_layer E columns r).
Qed.

(** In debug mode the warning of a failing row is written to the page and
    logged. *)
Lemma tooltip_warnings_shown E columns rows : forall idx i r e,
  nth_error rows i = Some r ->
  WeatherMap.tooltip_layer E columns r = inl e ->
  let warning := WeatherMap.tooltip_warning columns (idx + i) r e in
  In (Render Page (StWrite ("🔍 DEBUG: " +++ warning)))
     (WeatherMap.tooltip_warnings E true columns idx rows)
  /\ In (LogInfo ("DEBUG: " +++ warning))
        (WeatherMap.tooltip_warnings E true columns idx rows).
Proof.
  induction rows as [|r0 rows IH]; intros idx i r e Hnth Hfail.
  - destruct i; discriminate.
  - cbn. destruct i as [|i]; cbn in Hnth.
    + inversion Hnth; subst r0. rewrite Hfail, Nat.add_0_r.
      split; apply in_or_app; left; [left|right; left]; reflexivity.
    + replace (idx + S i) with (S idx + i) by lia.
      destruct (IH (S idx) i r e Hnth Hfail) as [Hw Hl].
      split; apply in_or_app; right; assumption.
Qed.

(** C5 (amended): for a region frame of N rows the tooltip loop runs to
    its end without raising or stopping; every row is tried, so that the map
    receives, in row order, the layer of each row whose tooltip can be built
    (also of rows that come after a failing one) and the rows split into
    those and the failing ones; a failure is reported through [debug_print]
    only, that is written to the page and logged when debug mode is on, and
    silent when it is off. *)
Theorem tooltip_loop_covers_every_region E debug_mode regions_gdf tr rg k d fm :
  let columns := gdf_columns regions_gdf in
  let rows := gdf_rows regions_gdf in
  exists s' evs,
    WeatherMap.add_tooltips E debug_mode regions_gdf (mkState tr rg k d fm) = (Ret tt, s')
    /\ folium_map s' = fm ++ WeatherMap.tooltip_layers E columns rows
    /\ length (WeatherMap.tooltip_layers E columns rows)
       + length (WeatherMap.tooltip_failures E columns rows) = length rows
    /\ trace s' = tr ++ evs
    /\ Forall (fun ev => is_debug_line ev = true) evs
    /\ (forall i r e,
          nth_error rows i = Some r ->
          WeatherMap.tooltip_layer E columns r = inl e ->
          debug_mode = true ->
          In (Render Page
                (StWrite ("🔍 DEBUG: " +++ WeatherMap.tooltip_warning columns i r e)))
             evs
          /\ In (LogInfo ("DEBUG: " +++ WeatherMap.tooltip_warning columns i r e))
                evs)
    /\ (debug_mode = false -> evs = []).
Proof.
  intros columns rows. rewrite add_tooltips_run. eexists. eexists.
  split; [reflexivity|]. cbn [folium_map trace]. split; [reflexivity|].
  split; [apply tooltip_rows_partition|]. split; [reflexivity|].
  split; [|split].
  - apply Forall_app. split; [apply debug_events_debug_lines|].
    apply Forall_app. split; [|apply debug_events_debug_lines].
    generalize 0 at 1. fold columns rows.
    induction rows as [|r rows' IH]; intros idx; cbn; [constructor|].
    apply Forall_app. split; [|apply IH].
    destruct (WeatherMap.tooltip_layer E columns r);
      [apply debug_events_debug_lines|constructor].
  - intros i r e Hnth Hfail ->.
    destruct (tooltip_warnings_shown E columns rows 0 i r e Hnth Hfail)
      as [Hw Hl].
    split; apply in_or_app; right; apply in_or_app; left; assumption.
  - intros ->. rewrite tooltip_warnings_silent. reflexivity.
Qed.

(** Against C5 as stated: with debug mode off (the default) the tooltip of
    the second of five regions fails and the whole script emits no log record, while it runs to its end and
    the four other tooltips are on the map. *)
Lemma tooltip_failure_goes_unlogged :
  let E := broken_east false in
  let g := WeatherMap.regions_with_temperature E five_regions in
  exists r e,
    nth_error (gdf_rows g) 1 = Some r
    /\ WeatherMap.tooltip_layer E (gdf_columns g) r = inl e
    /\ fst (WeatherMap.main E fresh) = Ret tt
    /\ existsb is_log (trace (snd (WeatherMap.main E fresh))) = false
    /\ length (WeatherMap.tooltip_layers E (gdf_columns g) (gdf_rows g)) = 4.
Proof.
  eexists. eexists. repeat split; vm_compute; reflexivity.
Qed.

(** A feature without the [region] property, in a frame that has the
    column, is no failure: its tooltip reads [nan]. Without the column the
    same row fails with [KeyError], and the warning names it by its index. *)
Example missing_region_value_reads_nan :
  let g := WeatherMap.regions_with_temperature quiet half_named_regions in
  WeatherMap.tooltip_layers quiet (gdf_columns g) (gdf_rows g)
  = [GeoJsonLayer "{}" "Central: 30.0 °C"; GeoJsonLayer "{}" "nan: 30.0 °C"]
  /\ WeatherMap.tooltip_warnings quiet true ["geometry"; "Temperature"] 0 (gdf_rows g)
     = debug_events true
         "Warning: Failed to add tooltip for region 0: 'region'" None
       ++ debug_events true
            "Warning: Failed to add tooltip for region 1: 'region'" None.
Proof. cbv zeta. split; vm_compute; reflexivity. Qed.

(** ** The page *)

Lemma returns_map_debug_print b msg data : returns (WeatherMap.debug_print b msg data).
Proof.
  intros [tr r k d fm]. rewrite map_debug_print_run. now exists tt.
Qed.

Lemma returns_get_map : returns WeatherMap.get_map.
Proof. intros s. now exists (folium_map s). Qed.

Lemma never_halts_df_getitem df name : never_halts (Dashboard.df_getitem df name).
Proof.
  unfold Dashboard.df_getitem. destruct (df_get df name); intros s; discriminate.
Qed.

Lemma never_halts_iloc_last c : never_halts (Dashboard.iloc_last c).
Proof.
  unfold Dashboard.iloc_last. destruct (rev (column_cells c)); intros s; discriminate.
Qed.

Lemma never_halts_mapM {A B} (f : A -> M B) l :
  (forall a, never_halts (f a)) -> never_halts (mapM f l).
Proof.
  intros Hf. induction l as [|a l IH]; cbn; [intros s; discriminate|].
  apply never_halts_bind; [apply Hf|]. intros b.
  apply never_halts_bind; [apply IH|]. intros bs s. discriminate.
Qed.

Ltac returns_tac :=
  repeat first
    [ progress intros
    | progress cbv beta
    | lazymatch goal with
      | |- returns (bind _ _) => apply returns_bind
      | |- returns (try_except _ Exception _) => apply returns_try_except
      | |- returns (ret _) => apply returns_ret
      | |- returns (st _ _) => apply returns_st
      | |- returns (when _ _) => apply returns_when
      | |- returns (WeatherMap.debug_print _ _ _) => apply returns_map_debug_print
      | |- returns WeatherMap.get_map => apply returns_get_map
      | |- returns (match ?x with _ => _ end) => destruct x
      | |- never_halts (bind _ _) => apply never_halts_bind
      | |- never_halts (raise _) => apply never_halts_raise
      | |- never_halts (lift _) => apply never_halts_lift
      | |- never_halts (check _) => apply never_halts_check
      | |- never_halts (mapM _ _) => apply never_halts_mapM
      | |- never_halts (Dashboard.df_getitem _ _) => apply never_halts_df_getitem
      | |- never_halts (Dashboard.iloc_last _) => apply never_halts_iloc_last
      | |- never_halts (match ?x with _ => _ end) => destruct x
      | |- never_halts (try_except _ Exception _) => apply returns_never_halts
      | |- never_halts (ret _) => apply returns_never_halts
      | |- never_halts (st _ _) => apply returns_never_halts
      | |- never_halts (when _ _) => apply returns_never_halts
      | |- never_halts WeatherMap.get_map => apply returns_never_halts
      end
    | progress emits_unfold ].

(** Once the choropleth is on the map nothing stops the script: whatever
    happens while displaying the map, computing a metric or drawing the
    chart, the page runs to its end. *)
Lemma page_returns E debug_mode regions_gdf dashboard_df :
  returns (WeatherMap.page E debug_mode regions_gdf dashboard_df).
Proof. returns_tac. Qed.

(** ** How the scripts end *)

Lemma st_ends p e : ends (st p e) (Ret tt).
Proof. intros [tr r k d fm]. rewrite st_run. eexists. reflexivity. Qed.

Lemma add_tooltips_ends E debug_mode regions_gdf :
  ends (WeatherMap.add_tooltips E debug_mode regions_gdf) (Ret tt).
Proof. intros [tr r k d fm]. rewrite add_tooltips_run. eexists. reflexivity. Qed.

(** The script from the sidebar checkbox on, once the dashboard module is
    imported. *)
Lemma after_import_ends E df :
  ends (st Sidebar (StCheckbox "🔧 Debug Mode") ;;
        let debug_mode := debug_checkbox E in
        regions_gdf <- WeatherMap.load_regions E debug_mode ;;
        regions_gdf <- WeatherMap.generate_temperature E debug_mode regions_gdf ;;
        WeatherMap.create_map E debug_mode ;;
        WeatherMap.add_choropleth E debug_mode regions_gdf ;;
        WeatherMap.add_tooltips E debug_mode regions_gdf ;;
        WeatherMap.page E debug_mode regions_gdf (Some df))
       (if geometry_unusable E || map_creation_fails E || choropleth_fails E
        then Halt else Ret tt).
Proof.
  eapply ends_bind_ret; [apply st_ends|]. cbv zeta.
  pose proof (load_regions_ends E (debug_checkbox E)) as Hload.
  pose proof (create_map_ends E (debug_checkbox E)) as Hmap.
  unfold geometry_unusable, choropleth_fails.
  destruct (read_file E WeatherMap.geojson_path) as [e|g].
  { now apply ends_bind_halt. }
  destruct (gdf_empty g).
  { now apply ends_bind_halt. }
  eapply ends_bind_ret; [exact Hload|].
  eapply ends_bind_ret; [apply generate_temperature_ends|].
  destruct (map_creation_fails E).
  { now apply ends_bind_halt. }
  eapply ends_bind_ret; [exact Hmap|].
  pose proof (add_choropleth_ends E (debug_checkbox E)
                (WeatherMap.regions_with_temperature E g)) as Hch.
  destruct (folium_Choropleth E (WeatherMap.regions_with_temperature E g)).
  { now apply ends_bind_halt. }
  eapply ends_bind_ret; [exact Hch|].
  eapply ends_bind_ret; [apply add_tooltips_ends|].
  apply returns_unit_ends, page_returns.
Qed.

Lemma map_script_end E s : fst (WeatherMap.main E s) = map_script_ending E.
Proof.
  unfold WeatherMap.main, map_script_ending.
  pose proof (import_dashboard_module_end E s) as Hi.
  unfold bind at 1.
  destruct (WeatherMap.import_dashboard_module E s) as [[df|e|] s1];
    cbn [fst] in Hi.
  - destruct (import_dashboard E) as [e|].
    { destruct (is_class ImportError e); discriminate. }
    destruct (series_rejected E); [discriminate|]. cbn [orb].
    destruct (after_import_ends E df s1) as [s2 H2].
    etransitivity; [exact (f_equal fst H2)|].
    cbn [fst]. now rewrite <- !orb_assoc.
  - destruct (import_dashboard E) as [e0|].
    + destruct (is_class ImportError e0); now inversion Hi.
    + destruct (series_rejected E); discriminate.
  - destruct (import_dashboard E) as [e0|].
    + destruct (is_class ImportError e0); now inversion Hi.
    + destruct (series_rejected E); [reflexivity|discriminate].
Qed.

Lemma debug_events_no_page_body b msg data :
  Forall (fun ev => page_body ev = false) (debug_events b msg data).
Proof.
  destruct b; [|constructor]. apply Forall_forall. intros ev H.
  now apply debug_events_plain in H.
Qed.

(** C7: when the boundary file cannot be read (it is absent, or reading it
    raises) or holds no region, the map script, once past the import of the
    dashboard module, shows the corresponding error with [st.error] and stops:
    it ends in [st.stop()], and nothing it emitted since its start belongs to
    a page body (no title, no tabs, no map, no metric, no chart). *)
Theorem unusable_geometry_stops_before_the_page E s df s1 :
  WeatherMap.import_dashboard_module E s = (Ret df, s1) ->
  geometry_unusable E = true ->
  exists s' evs,
    WeatherMap.main E s = (Halt, s')
    /\ trace s' = trace s ++ evs
    /\ In (Render Page (StError (geometry_error E))) evs
    /\ Forall (fun ev => page_body ev = false) evs.
Proof.
  intros Himport Hgeo.
  destruct (import_emits_no_page_body E s) as (evs0 & Ht0 & Hp0).
  rewrite Himport in Ht0. cbn [snd] in Ht0.
  assert (Hq0 : Forall (fun ev => page_body ev = false) evs0).
  { eapply Forall_impl; [|exact Hp0]. intros ev. apply negb_true_iff. }
  destruct s1 as [tr1 r1 k1 d1 fm1]. cbn [trace] in Ht0. subst tr1.
  unfold WeatherMap.main. erewrite bind_ret by exact Himport.
  emit_step. cbv zeta. unfold bind at 1. rewrite load_regions_run.
  unfold geometry_unusable in Hgeo. unfold geometry_error.
  destruct (read_file E WeatherMap.geojson_path) as [e|g].
  - eexists. eexists. split; [reflexivity|]. cbn [trace].
    split; [rewrite <- !app_assoc; reflexivity|]. split.
    + apply in_or_app. right. apply in_or_app. right.
      apply in_or_app. right. left. reflexivity.
    + apply Forall_app. split; [exact Hq0|].
      apply Forall_app. split; [repeat constructor|].
      apply Forall_app. split; [apply debug_events_no_page_body|].
      destruct (is_class FileNotFoundError e), (debug_checkbox E);
        repeat constructor.
  - cbv zeta. rewrite Hgeo.
    eexists. eexists. split; [reflexivity|]. cbn [trace].
    split; [rewrite <- !app_assoc; reflexivity|]. split.
    + apply in_or_app. right. apply in_or_app. right.
      apply in_or_app. right. apply in_or_app. right. left. reflexivity.
    + apply Forall_app. split; [exact Hq0|].
      apply Forall_app. split; [repeat constructor|].
      apply Forall_app. split; [apply debug_events_no_page_body|].
      apply Forall_app. split; [apply debug_events_no_page_body|].
      repeat constructor.
Qed.

Lemma unusable_geometry_stops_before_the_page_witness :
  exists s' evs,
    WeatherMap.main no_file fresh = (Halt, s')
    /\ trace s' = trace fresh ++ evs
    /\ In (Render Page (StError (geometry_error no_file))) evs
    /\ Forall (fun ev => page_body ev = false) evs.
Proof.
  eapply (unusable_geometry_stops_before_the_page no_file fresh).
  - vm_compute. reflexivity.
  - reflexivity.
Defined.

Lemma bind_ret_inv {A B} (c : M A) (k : A -> M B) s b s' :
  bind c k s = (Ret b, s') ->
  exists a s1, c s = (Ret a, s1) /\ k a s1 = (Ret b, s').
Proof.
  unfold bind. destruct (c s) as [[a|e|] s1]; intros H; try discriminate.
  now exists a, s1.
Qed.

(** A run that reaches its end went through the page. *)
Lemma main_reaches_page E s s' :
  WeatherMap.main E s = (Ret tt, s') ->
  exists regions_gdf df s1,
    WeatherMap.page E (debug_checkbox E) regions_gdf (Some df) s1 = (Ret tt, s').
Proof.
  unfold WeatherMap.main. intros H.
  apply bind_ret_inv in H. destruct H as (df & s1 & _ & H).
  apply bind_ret_inv in H. destruct H as (? & s2 & _ & H). cbv zeta in H.
  apply bind_ret_inv in H. destruct H as (g0 & s3 & _ & H).
  apply bind_ret_inv in H. destruct H as (g & s4 & _ & H).
  apply bind_ret_inv in H. destruct H as (? & s5 & _ & H).
  apply bind_ret_inv in H. destruct H as (? & s6 & _ & H).
  apply bind_ret_inv in H. destruct H as (? & s7 & _ & H).
  now exists g, df, s7.
Qed.

Lemma emitted_stays {A} (c : M A) s ev :
  emits (fun _ => true) c -> In ev (trace s) -> In ev (trace (snd (c s))).
Proof.
  intros Hc Hin. destruct (Hc s) as (evs & -> & _). apply in_or_app. now left.
Qed.

Lemma page_shows_title_and_tabs E debug_mode regions_gdf dashboard_df s :
  let shown := trace (snd (WeatherMap.page E debug_mode regions_gdf dashboard_df s)) in
  In (Render Page (StTitle "Singapore Weather Tracker")) shown
  /\ In (Render Page (StTabs ["Weather Map"; "Time Series Data"; "Debug Info"])) shown.
Proof.
  destruct s as [tr r k d fm]. unfold WeatherMap.page. do 2 emit_step.
  split; (apply emitted_stays; [emits_tac|]); cbn [trace];
    rewrite <- app_assoc; apply in_or_app; right; cbn; auto.
Qed.

Lemma weather_arrays_nonempty E :
  Dashboard.temperature_data E <> []
  /\ Dashboard.humidity_data E <> []
  /\ Dashboard.wind_data E <> [].
Proof.
  destruct (weather_arrays_length E) as (Ht & Hh & Hw).
  repeat split; intros H; rewrite H in *; discriminate.
Qed.

Lemma chart_block_run E k0 tr r k b fm :
  exists evs,
    try_except
      (data <- Dashboard.chart_data (Dashboard.weather_frame E k0) ;;
       Dashboard.line_chart E Page data ;;
       Dashboard.debug_print "Chart displayed successfully" None)
      Exception
      (fun e =>
         st Page (StError ("❌ Error displaying chart: " +++ exn_str e)) ;;
         dbg <- Dashboard.session_debug_mode ;;
         when dbg (st Page (StCode (format_exc E e))))
      (mkState tr r k (Some b) fm)
    = (Ret tt, mkState (tr ++ evs) r k (Some b) fm).
Proof.
  unfold try_except. erewrite bind_ret by reflexivity.
  unfold Dashboard.line_chart. cbn [fst snd].
  destruct (st_line_chart E _ _) as [e|].
  - erewrite bind_raise by reflexivity. unfold Exception. emit_step.
    erewrite bind_ret by reflexivity. rewrite when_st_run, <- app_assoc.
    eexists. reflexivity.
  - erewrite bind_ret by (erewrite bind_ret by reflexivity; apply st_run).
    rewrite dashboard_debug_print_run, <- app_assoc. eexists. reflexivity.
Qed.

Lemma show_dashboard_returns E k0 tr r k b fm :
  fst (Dashboard.show_dashboard E (Some (Dashboard.weather_frame E k0))
         (mkState tr r k (Some b) fm)) = Ret tt.
Proof.
  destruct (weather_arrays_nonempty E) as (Ht & Hh & Hw).
  unfold Dashboard.show_dashboard.
  erewrite try_except_bind_ret by apply st_run. cbv beta iota.
  do 2 (erewrite try_except_bind_ret by apply st_run).
  do 3 (erewrite try_except_bind_ret
          by (eapply dashboard_current_metric_run; [reflexivity|assumption])).
  do 2 (erewrite try_except_bind_ret by apply st_run).
  match goal with
  | |- context [mkState ?t r k (Some b) fm] =>
      destruct (chart_block_run E k0 t r k b fm) as [evs Hchart]
  end.
  erewrite try_except_bind_ret by exact Hchart.
  erewrite try_except_bind_ret by reflexivity.
  destruct b; cbn [when].
  - erewrite try_except_bind_ret
      by (do 3 emit_step; erewrite bind_ret by reflexivity; do 2 emit_step;
          apply st_run).
    reflexivity.
  - erewrite try_except_bind_ret by reflexivity. reflexivity.
Qed.

(** The dashboard script on its own stops exactly when the series is
    rejected. *)
Lemma dashboard_script_end E s :
  fst (Dashboard.main E s) = if series_rejected E then Halt else Ret tt.
Proof.
  destruct s as [tr r k d fm]. unfold Dashboard.main, series_rejected.
  unfold bind at 1. rewrite top_level_run.
  destruct (Dashboard.range_error E); [reflexivity|].
  emit_step. erewrite bind_ret by reflexivity.
  destruct (debug_checkbox E); cbn [when].
  - erewrite bind_ret by (do 4 emit_step; apply st_run).
    apply show_dashboard_returns.
  - erewrite bind_ret by reflexivity. apply show_dashboard_returns.
Qed.

(** Against C2 as stated: a geometry file whose features have no [region]
    property; the file is there and not empty, the series passes its range checks, and yet the
    script stops at the choropleth, before the title and the tabs. *)
Lemma choropleth_failure_is_fatal :
  let E := no_region_column in
  fst (WeatherMap.main E fresh) = Halt
  /\ geometry_unusable E = false
  /\ series_rejected E = false
  /\ existsb page_body (trace (snd (WeatherMap.main E fresh))) = false
  /\ In (Render Page (StError "❌ Missing required column: 'region'"))
        (trace (snd (WeatherMap.main E fresh))).
Proof.
  cbv zeta. split; [|split; [|split; [|split]]]; vm_compute;
    try reflexivity.
  repeat first [left; reflexivity | right].
Qed.

(** C2 (amended): the map script ends in [st.stop()] exactly when the
    dashboard module cannot be imported, the synthetic series fails its range
    checks, the boundary file cannot be read or is empty, the folium map
    cannot be created, or the choropleth layer cannot be added; when none of
    these happens it runs to its end and shows the title and the tabs,
    whatever fails while adding a tooltip, displaying the map, computing a
    metric or drawing the chart. The dashboard script on its own stops
    exactly when the series fails its range checks. *)
Theorem fatal_conditions E s :
  (fst (WeatherMap.main E s) = Halt <->
   (exists e, import_dashboard E = Some e /\ is_class ImportError e = true)
   \/ (import_dashboard E = None
       /\ (series_rejected E = true \/ geometry_unusable E = true
           \/ map_creation_fails E = true \/ choropleth_fails E = true)))
  /\ (import_dashboard E = None ->
      series_rejected E = false -> geometry_unusable E = false ->
      map_creation_fails E = false -> choropleth_fails E = false ->
      fst (WeatherMap.main E s) = Ret tt
      /\ In (Render Page (StTitle "Singapore Weather Tracker"))
            (trace (snd (WeatherMap.main E s)))
      /\ In (Render Page (StTabs ["Weather Map"; "Time Series Data"; "Debug Info"]))
            (trace (snd (WeatherMap.main E s))))
  /\ (fst (Dashboard.main E s) = Halt <-> series_rejected E = true)
  /\ (series_rejected E = false -> fst (Dashboard.main E s) = Ret tt).
Proof.
  split; [|split; [|split]].
  - rewrite map_script_end. unfold map_script_ending. split.
    + destruct (import_dashboard E) as [e|].
      * destruct (is_class ImportError e) eqn:He; [|discriminate]. eauto.
      * destruct (series_rejected E), (geometry_unusable E),
          (map_creation_fails E), (choropleth_fails E); cbn; intros H;
          try discriminate; right; auto.
    + intros [(e & -> & ->) | (-> & H)]; [reflexivity|].
      destruct (series_rejected E), (geometry_unusable E),
        (map_creation_fails E), (choropleth_fails E); cbn;
        intuition congruence.
  - intros Hi Hs Hg Hm Hc.
    pose proof (map_script_end E s) as Hend. unfold map_script_ending in Hend.
    rewrite Hi, Hs, Hg, Hm, Hc in Hend. cbn [orb] in Hend.
    destruct (WeatherMap.main E s) as [o s'] eqn:Hrun.
    cbn [fst snd] in *. subst o. split; [reflexivity|].
    destruct (main_reaches_page E s s' Hrun) as (g & df & s1 & Hpage).
    pose proof (page_shows_title_and_tabs E (debug_checkbox E) g (Some df) s1)
      as Hshow.
    rewrite Hpage in Hshow. exact Hshow.
  - rewrite dashboard_script_end.
    destruct (series_rejected E); split; intros; congruence.
  - intros Hs. now rewrite dashboard_script_end, Hs.
Qed.

Lemma fatal_conditions_witness :
  fst (WeatherMap.main quiet fresh) = Ret tt
  /\ In (Render Page (StTitle "Singapore Weather Tracker"))
        (trace (snd (WeatherMap.main quiet fresh)))
  /\ In (Render Page (StTabs ["Weather Map"; "Time Series Data"; "Debug Info"]))
        (trace (snd (WeatherMap.main quiet fresh))).
Proof.
  apply (proj1 (proj2 (fatal_conditions quiet fresh))); reflexivity.
Defined.

Lemma tooltip_loop_covers_every_region_witness :
  let E := broken_east true in
  let regions_gdf := WeatherMap.regions_with_temperature E five_regions in
  let columns := gdf_columns regions_gdf in
  exists s' evs r e,
    WeatherMap.add_tooltips E true regions_gdf fresh = (Ret tt, s')
    /\ length (folium_map s') = 4
    /\ trace s' = [] ++ evs
    /\ Forall (fun ev => is_debug_line ev = true) evs
    /\ nth_error (gdf_rows regions_gdf) 1 = Some r
    /\ WeatherMap.tooltip_layer E columns r = inl e
    /\ In (Render Page
             (StWrite ("🔍 DEBUG: " +++ WeatherMap.tooltip_warning columns 1 r e)))
          evs
    /\ In (LogInfo ("DEBUG: " +++ WeatherMap.tooltip_warning columns 1 r e)) evs.
Proof.
  cbv zeta.
  destruct (tooltip_loop_covers_every_region (broken_east true) true
              (WeatherMap.regions_with_temperature (broken_east true) five_regions)
              [] 0 0 None [])
    as (s' & evs & Hrun & Hmap & _ & Htrace & Hlines & Hlog & _).
  exists s', evs. eexists. eexists.
  split; [exact Hrun|]. split; [rewrite Hmap; vm_compute; reflexivity|].
  split; [exact Htrace|]. split; [exact Hlines|].
  assert (Hrow : nth_error (gdf_rows (WeatherMap.regions_with_temperature
                                        (broken_east true) five_regions)) 1
                 = Some (mkFeature (Some "East") (square 103.9 1.3) (Some 30%float)))
    by (vm_compute; reflexivity).
  assert (Hfail : WeatherMap.tooltip_layer (broken_east true)
                    (gdf_columns (WeatherMap.regions_with_temperature
                                    (broken_east true) five_regions))
                    (mkFeature (Some "East") (square 103.9 1.3) (Some 30%float))
                  = inl (Exn ValueError "invalid geometry"))
    by (vm_compute; reflexivity).
  split; [exact Hrow|]. split; [exact Hfail|].
  exact (Hlog 1 _ _ Hrow Hfail eq_refl).
Defined.

(** ** The range of the synthetic temperatures *)

(** *** Rounding to binary64 *)

Section Binary64.
Local Open Scope Z_scope.




























End Binary64.

(** *** The temperatures *)

Lemma uniform_draws_length E low high n : forall r,
  length (fst (WeatherMap.uniform_draws E low high r n)) = n.
Proof.
  induction n as [|n IH]; intros r; cbn; [reflexivity|].
  destruct (random_sample E r) as [u r1]. specialize (IH r1).
  destruct (WeatherMap.uniform_draws E low high r1 n). cbn in *. now rewrite IH.
Qed.


Lemma set_Temperature_rows g : forall values,
  length values = length (gdf_rows g) ->
  map region (gdf_rows (set_Temperature g values)) = map region (gdf_rows g)
  /\ map geometry (gdf_rows (set_Temperature g values)) = map geometry (gdf_rows g)
  /\ map Temperature (gdf_rows (set_Temperature g values)) = map Some values.
Proof.
  unfold set_Temperature. cbn [gdf_rows].
  induction (gdf_rows g) as [|row rows IH]; intros [|v values] Hlen;
    try discriminate; cbn; [auto|].
  destruct (IH values) as (H1 & H2 & H3); [now inversion Hlen|].
  now rewrite H1, H2, H3.
Qed.





(** ** Formatting and sampling, on examples *)

Example format_1f_samples :
  map format_1f
      [21.96; 0.25; 0.35; -0.04; 99.95; 1e22; 0; nan; infinity]%float
  = ["22.0"; "0.2"; "0.3"; "-0.0"; "100.0"; "10000000000000000000000.0";
     "0.0"; "nan"; "inf"].
Proof. vm_compute. reflexivity. Qed.

Example format_2f_samples :
  map format_2f [21.965; 0.125; -3.14159; 1024; 0.005]%float
  = ["21.96"; "0.12"; "-3.14"; "1024.00"; "0.01"].
Proof. vm_compute. reflexivity. Qed.

Example linspace_samples :
  Dashboard.linspace 0 1 5 = [0; 0.25; 0.5; 0.75; 1]%float
  /\ Dashboard.linspace 2 3 1 = [2]%float
  /\ Dashboard.linspace 2 3 0 = [].
Proof. vm_compute. auto. Qed.

(** [np.random.uniform(26, 34)] computes [26 + 8 * u] in binary64: for the
    draws [u] just below one the sum rounds up to 34 itself. *)
Example uniform_rounds_to_the_upper_limit :
  map (fun u => 26 + (34 - 26) * u)%float
      [0; 0.5; 0x1.ffffffffffffbp-1; 0x1.ffffffffffffcp-1; 0x1.fffffffffffffp-1]%float
  = [26; 30; 0x1.0ffffffffffffp+5; 34; 34]%float.
Proof. vm_compute. reflexivity. Qed.

(** * Further properties of the two scripts *)

Lemma errors_of_debug_events b msg data :
  filter is_error (debug_events b msg data) = [].
Proof. apply filter_debug_events. intros ev H. now apply debug_events_kinds in H. Qed.

(** ** Validation *)

Lemma validate_dataframe_missing_run E df tr r k b fm :
  Dashboard.missing_columns df <> [] ->
  let e := Exn ValueError
             ("Missing required columns: "
              +++ py_str E (VList (map VStr (Dashboard.missing_columns df)))) in
  Dashboard.validate_dataframe E df (mkState tr r k (Some b) fm)
  = (Ret false,
     mkState (tr ++ debug_events b "Validating DataFrame..." None
                 ++ Render Page (StError ("❌ DataFrame validation failed: " +++ exn_str e))
                 :: (if b then [Render Page (StCode (format_exc E e))] else []))
             r k (Some b) fm).
Proof.
  intros Hm e. unfold Dashboard.validate_dataframe, try_except. emit_step.
  destruct (Dashboard.missing_columns df) as [|c l] eqn:Hc; [congruence|].
  erewrite bind_raise by reflexivity. unfold Exception. emit_step.
  erewrite bind_ret by reflexivity. emit_step.
  unfold ret. subst e. destruct b; rewrite <- !app_assoc; reflexivity.
Qed.

(** X1: what [validate_dataframe] returns depends on the presence of the
    four required columns alone: [True] when none is missing, [False]
    otherwise, whatever the dtypes and the null entries; it changes nothing
    of the state but the trace. *)
Theorem validation_checks_columns_only E df tr r k b fm :
  exists evs,
    Dashboard.validate_dataframe E df (mkState tr r k (Some b) fm)
    = (Ret (match Dashboard.missing_columns df with [] => true | _ => false end),
       mkState (tr ++ evs) r k (Some b) fm).
Proof.
  destruct (Dashboard.missing_columns df) as [|c l] eqn:Hm.
  - rewrite validate_dataframe_run by exact Hm. eexists. reflexivity.
  - rewrite validate_dataframe_missing_run by congruence. rewrite Hm.
    eexists. reflexivity.
Qed.



(** X3: a [Time] column that is not of a datetime dtype is only warned
    about: with the four columns present [validate_dataframe] shows the
    warning and still returns [True]. *)
Theorem non_datetime_time_only_warns E df time tr r k b fm :
  Dashboard.missing_columns df = [] ->
  df_get df Dashboard.col_time = Some time ->
  is_datetime64_any_dtype time = false ->
  exists evs,
    Dashboard.validate_dataframe E df (mkState tr r k (Some b) fm)
    = (Ret true, mkState (tr ++ evs) r k (Some b) fm)
    /\ In (Render Page (StWarning "⚠️ Time column is not datetime type")) evs
    /\ filter is_error evs = [].
Proof.
  intros Hm Ht Hd. rewrite validate_dataframe_run by exact Hm.
  eexists. split; [reflexivity|]. unfold Dashboard.validate_events.
  rewrite Ht, Hd. split.
  - apply in_or_app. right. apply in_or_app. right.
    apply in_or_app. left. left. reflexivity.
  - rewrite !filter_app, !errors_of_debug_events.
    now destruct (existsb _ (isnull_sum df)).
Qed.

Lemma non_datetime_time_only_warns_witness :
  exists evs,
    Dashboard.validate_dataframe quiet numbered_frame (resumed false)
    = (Ret true, mkState ([] ++ evs) 7 12 (Some false) [])
    /\ In (Render Page (StWarning "⚠️ Time column is not datetime type")) evs
    /\ filter is_error evs = [].
Proof.
  apply (non_datetime_time_only_warns quiet numbered_frame (FloatCol [0; 1]%float)
           [] 7 12 false []); reflexivity.
Defined.

(** ** The module top level *)

Lemma no_error_in_debug_events b msg data p m :
  ~ In (Render p (StError m)) (debug_events b msg data).
Proof.
  destruct b; [|intros []]. intros H. apply debug_events_kinds in H.
  destruct H as (_ & H & _). discriminate.
Qed.

Lemma no_warning_in_debug_events b msg data p m :
  ~ In (Render p (StWarning m)) (debug_events b msg data).
Proof.
  destruct b; [|intros []]. intros H. apply debug_events_kinds in H.
  destruct H as (H & _). discriminate.
Qed.

(** X4: the top level of [dashboard.py] stops exactly when the series fails
    its range checks. The frame it generated always passes validation: the
    'Data validation failed' error and the warning about the [Time] dtype are
    never shown, and on return the frame has the four required columns with
    100 rows each. *)
Theorem top_level_stops_only_on_range_error E tr r k d fm :
  exists evs s',
    Dashboard.top_level E (mkState tr r k d fm)
    = (if series_rejected E then Halt else Ret (Dashboard.weather_frame E k), s')
    /\ trace s' = tr ++ evs
    /\ ~ In (Render Page (StError "❌ Data validation failed. Please check the error messages above.")) evs
    /\ ~ In (Render Page (StWarning "⚠️ Time column is not datetime type")) evs
    /\ Dashboard.missing_columns (Dashboard.weather_frame E k) = []
    /\ Forall (fun nc => column_len (snd nc) = 100) (Dashboard.weather_frame E k).
Proof.
  rewrite top_level_run. unfold series_rejected, Dashboard.generate_events.
  set (b := match d with Some b => b | None => false end).
  destruct (Dashboard.range_error E) as [e|] eqn:He.
  - eexists. eexists. split; [reflexivity|]. split; [reflexivity|].
    split; [|split; [|split; [reflexivity|apply weather_frame_rows]]].
    + intros H. repeat (apply in_app_or in H; destruct H as [H|H]).
      * now apply no_error_in_debug_events in H.
      * destruct H as [H|H]; [discriminate|]. destruct b; [|destruct H].
        destruct H as [H|[]]; discriminate.
      * destruct H as [H|[]]. discriminate.
    + intros H. repeat (apply in_app_or in H; destruct H as [H|H]).
      * now apply no_warning_in_debug_events in H.
      * destruct H as [H|H]; [discriminate|]. destruct b; [|destruct H].
        destruct H as [H|[]]; discriminate.
      * destruct H as [H|[]]. discriminate.
  - eexists. eexists. split; [reflexivity|]. split; [reflexivity|].
    split; [|split; [|split; [reflexivity|apply weather_frame_rows]]].
    + unfold Dashboard.validate_events. intros H.
      repeat (apply in_app_or in H; destruct H as [H|H]);
        try (now apply no_error_in_debug_events in H).
      * destruct (existsb _ _); [destruct H as [H|[]]; discriminate|destruct H].
      * destruct H.
    + unfold Dashboard.validate_events. intros H.
      repeat (apply in_app_or in H; destruct H as [H|H]);
        try (now apply no_warning_in_debug_events in H).
      * destruct (existsb _ _); [destruct H as [H|[]]; discriminate|destruct H].
      * destruct H.
Qed.

(** X5: on a session where the debug flag was never set, the top level of
    [dashboard.py] sets it to [False] and emits no debug line (no
    [st.write], no [st.json], no log record), whatever the state of the debug
    checkbox: the standalone script reads the checkbox only afterwards, and
    the map script never sets the flag. *)
Theorem fresh_session_runs_without_debug_output E tr r k fm :
  exists evs o s',
    Dashboard.top_level E (mkState tr r k None fm) = (o, s')
    /\ trace s' = tr ++ evs
    /\ session_debug s' = Some false
    /\ filter is_debug_line evs = [].
Proof.
  rewrite top_level_run. cbv zeta. unfold Dashboard.generate_events.
  destruct (Dashboard.range_error E) as [e|].
  - eexists. eexists. eexists. split; [reflexivity|]. split; [reflexivity|].
    split; reflexivity.
  - eexists. eexists. eexists. split; [reflexivity|]. split; [reflexivity|].
    split; [reflexivity|]. unfold Dashboard.validate_events.
    cbn [debug_events app].
    destruct (existsb _ (isnull_sum _)); reflexivity.
Qed.

(** ** The generator: side effects, order of the checks, time index *)

Lemma gauss_draws_app E n m : forall r,
  snd (Dashboard.gauss_draws E r (n + m))
  = snd (Dashboard.gauss_draws E (snd (Dashboard.gauss_draws E r n)) m).
Proof.
  induction n as [|n IH]; intros r; cbn; [reflexivity|].
  destruct (gauss E r) as [g r1]. specialize (IH r1).
  destruct (Dashboard.gauss_draws E r1 (n + m)) as [gs r2].
  destruct (Dashboard.gauss_draws E r1 n) as [gs' r3]. exact IH.
Qed.

(** X6: whatever the state of NumPy's global generator before the call and
    whether or not the batch is rejected, [generate_weather_data] leaves the
    generator 300 normal draws after [np.random.seed(42)], has read the clock
    exactly 100 times, and touches neither the session flag nor the map. *)
Theorem generate_weather_data_side_effects E tr r k b fm :
  let s' := snd (Dashboard.generate_weather_data E (mkState tr r k (Some b) fm)) in
  rng s' = snd (Dashboard.gauss_draws E (random_seed E 42) 300)
  /\ reads s' = k + 100
  /\ session_debug s' = Some b
  /\ folium_map s' = fm.
Proof.
  rewrite generate_weather_data_run. cbn [snd rng reads session_debug folium_map].
  split; [|split; [reflexivity|split; reflexivity]].
  unfold Dashboard.rng_end, Dashboard.rng_wind, Dashboard.rng_humidity,
    Dashboard.rng_temperature, Dashboard.rng_after.
  rewrite <- !gauss_draws_app. reflexivity.
Qed.

(** X7: a rejected batch is reported once, with the message of the first
    check that fails, in the order temperature, humidity, wind speed. *)
Theorem rejected_batch_reports_first_failing_check E tr r k b fm :
  Dashboard.range_error E <> None ->
  exists evs,
    Dashboard.generate_weather_data E (mkState tr r k (Some b) fm)
    = (Ret None,
       mkState (tr ++ evs) (Dashboard.rng_end E) (k + Dashboard.num_points) (Some b) fm)
    /\ filter is_error evs
       = [Render Page
            (StError ("❌ Error generating weather data: "
                      +++ if Dashboard.temperature_out_of_range E
                          then "Temperature data contains unrealistic values"
                          else if Dashboard.humidity_out_of_range E
                               then "Humidity data contains unrealistic values"
                               else "Wind speed data contains negative values"))].
Proof.
  intros H. rewrite generate_weather_data_run. unfold Dashboard.generate_events.
  unfold Dashboard.range_error in *.
  destruct (Dashboard.temperature_out_of_range E);
    [|destruct (Dashboard.humidity_out_of_range E);
      [|destruct (Dashboard.wind_out_of_range E); [|congruence]]];
    (eexists; split; [reflexivity|];
     rewrite filter_app, errors_of_debug_events; destruct b; reflexivity).
Qed.

Lemma rejected_batch_reports_first_failing_check_witness :
  exists evs,
    Dashboard.generate_weather_data stormy (resumed false)
    = (Ret None,
       mkState ([] ++ evs) (Dashboard.rng_end stormy) (12 + Dashboard.num_points)
               (Some false) [])
    /\ filter is_error evs
       = [Render Page
            (StError "❌ Error generating weather data: Temperature data contains unrealistic values")].
Proof.
  apply (rejected_batch_reports_first_failing_check stormy [] 7 12 false []).
  vm_compute. discriminate.
Defined.

Lemma clock_monotone E k :
  (forall i, S i < Dashboard.num_points -> (clock E (k + i) <= clock E (k + S i))%Z) ->
  forall j i, i <= j -> j < Dashboard.num_points ->
  (clock E (k + i) <= clock E (k + j))%Z.
Proof.
  intros Hstep. induction j as [|j IH]; intros i Hij Hj.
  - replace i with 0 by lia. lia.
  - destruct (Nat.eq_dec i (S j)) as [->|Hne]; [lia|].
    specialize (IH i ltac:(lia) ltac:(lia)).
    specialize (Hstep j Hj). lia.
Qed.

(** X8: when the clock does not go backwards during the call, the
    timestamps are strictly increasing, two rows [i < j] being at least
    [j - i] minutes apart, and the last timestamp is the latest reading of
    the clock. *)
Theorem timestamps_increase_with_a_monotone_clock E k :
  (forall i, S i < Dashboard.num_points -> (clock E (k + i) <= clock E (k + S i))%Z) ->
  (forall i j, i < j -> j < Dashboard.num_points ->
     (nth i (Dashboard.time_index E k) 0 + Z.of_nat (j - i) * 60000000
      <= nth j (Dashboard.time_index E k) 0)%Z
     /\ (nth i (Dashboard.time_index E k) 0 < nth j (Dashboard.time_index E k) 0)%Z)
  /\ (forall i, i < Dashboard.num_points ->
        (clock E (k + i) <= last (Dashboard.time_index E k) 0)%Z)
  /\ last (Dashboard.time_index E k) 0%Z = clock E (k + 99).
Proof.
  intros Hstep.
  assert (Hlast : last (Dashboard.time_index E k) 0%Z = clock E (k + 99)).
  { assert (Hlen : length (Dashboard.time_index E k) = 100).
    { unfold Dashboard.time_index. now rewrite time_index_from_length, length_seq. }
    destruct (exists_last (l := Dashboard.time_index E k)) as (l' & x & Hl).
    { intros H. rewrite H in Hlen. discriminate. }
    pose proof (time_index_nth E k 99 ltac:(unfold Dashboard.num_points; lia)) as Hn.
    rewrite Hl in Hlen, Hn |- *. rewrite last_last.
    rewrite length_app in Hlen. cbn in Hlen.
    rewrite app_nth2 in Hn by lia.
    replace (99 - length l') with 0 in Hn by lia. cbn in Hn. lia. }
  split; [|split; [|exact Hlast]].
  - intros i j Hij Hj.
    pose proof (clock_monotone E k Hstep j i ltac:(lia) Hj) as Hc.
    rewrite !time_index_nth by lia. split; lia.
  - intros i Hi. rewrite Hlast.
    apply (clock_monotone E k Hstep 99 i); unfold Dashboard.num_points in *; lia.
Qed.

Lemma timestamps_increase_with_a_monotone_clock_witness :
  (forall i j, i < j -> j < Dashboard.num_points ->
     (nth i (Dashboard.time_index quiet 12) 0 + Z.of_nat (j - i) * 60000000
      <= nth j (Dashboard.time_index quiet 12) 0)%Z
     /\ (nth i (Dashboard.time_index quiet 12) 0
         < nth j (Dashboard.time_index quiet 12) 0)%Z)
  /\ (forall i, i < Dashboard.num_points ->
        (clock quiet (12 + i) <= last (Dashboard.time_index quiet 12) 0)%Z)
  /\ last (Dashboard.time_index quiet 12) 0%Z = clock quiet (12 + 99).
Proof.
  apply (timestamps_increase_with_a_monotone_clock quiet 12).
  intros i _. cbn [clock quiet world]. lia.
Defined.

(** ** NaN and the range checks *)

Lemma SFcompare_refl f : f <> S754_nan -> SFcompare f f = Some Eq.
Proof.
  destruct f as [s|s| |s m e]; intros H; cbn; try congruence.
  - now destruct s.
  - rewrite Z.compare_refl, Pos.compare_cont_refl. now destruct s.
Qed.

Lemma is_nan_spec x : is_nan x = true -> Prim2SF x = S754_nan.
Proof.
  unfold is_nan. rewrite FloatAxioms.eqb_spec. unfold SFeqb. intros H.
  destruct (Prim2SF x) as [s|s| |s m e] eqn:Hx; [| |reflexivity|];
    rewrite SFcompare_refl in H by discriminate; discriminate.
Qed.

(** A NaN compares below nothing and above nothing. *)
Lemma nan_compares_false x y :
  is_nan x = true -> (x <? y)%float = false /\ (y <? x)%float = false.
Proof.
  intros H. apply is_nan_spec in H. rewrite !FloatAxioms.ltb_spec, H. unfold SFltb.
  split; [reflexivity|]. now destruct (Prim2SF y).
Qed.

Lemma SFcompare_antisym f g :
  SFcompare g f = option_map CompOpp (SFcompare f g).
Proof.
  destruct f as [s|s| |s m e], g as [s'|s'| |s' m' e']; cbn;
    try reflexivity; try (now destruct s); try (now destruct s');
    try (now destruct s, s').
  pose proof (Pos.compare_cont_antisym m m' Eq) as Hm. cbn [CompOpp] in Hm.
  destruct s, s'; cbn; try reflexivity;
    rewrite (Z.compare_antisym e e'); destruct (e ?= e')%Z; cbn; try reflexivity;
    now rewrite <- Hm.
Qed.

(** A value at or above a bound is not below it, and conversely. *)
Lemma leb_not_ltb x y : (x <=? y)%float = true -> (y <? x)%float = false.
Proof.
  rewrite FloatAxioms.leb_spec, FloatAxioms.ltb_spec. unfold SFleb, SFltb.
  rewrite (SFcompare_antisym (Prim2SF x) (Prim2SF y)).
  destruct (SFcompare (Prim2SF x) (Prim2SF y)) as [[]|]; cbn; congruence.
Qed.

Lemma within_not_outside lo hi x :
  is_nan x = true \/ within lo hi x = true ->
  (x <? lo)%float = false /\ (hi <? x)%float = false.
Proof.
  intros [H|H].
  - split; [apply (nan_compares_false x lo H)|apply (nan_compares_false x hi H)].
  - unfold within in H. apply andb_true_iff in H. destruct H as [H1 H2].
    split; now apply leb_not_ltb.
Qed.

Lemma np_any_none p a :
  (forall x, In x a -> p x = false) -> Dashboard.np_any p a = false.
Proof.
  intros H. unfold Dashboard.np_any.
  destruct (existsb p a) eqn:He; [|reflexivity].
  apply existsb_exists in He. destruct He as (x & Hin & Hp).
  rewrite (H x Hin) in Hp. discriminate.
Qed.

(** X9: the range checks do not see NaN. A batch whose every value is
    either NaN or within its range (temperature in [-50, 60], humidity in
    [0, 100], wind speed at least 0) is returned whole; when it holds a NaN,
    validating the returned frame shows the NaN warning and still returns
    [True]. *)
Theorem nan_passes_the_range_checks E tr r k b fm :
  (forall x, In x (Dashboard.temperature_data E) ->
             is_nan x = true \/ within (-50) 60 x = true) ->
  (forall x, In x (Dashboard.humidity_data E) ->
             is_nan x = true \/ within 0 100 x = true) ->
  (forall x, In x (Dashboard.wind_data E) ->
             is_nan x = true \/ (0 <=? x)%float = true) ->
  (exists x, In x (Dashboard.temperature_data E ++ Dashboard.humidity_data E
                   ++ Dashboard.wind_data E) /\ is_nan x = true) ->
  fst (Dashboard.generate_weather_data E (mkState tr r k (Some b) fm))
  = Ret (Some (Dashboard.weather_frame E k))
  /\ exists evs,
       Dashboard.validate_dataframe E (Dashboard.weather_frame E k)
         (mkState tr r k (Some b) fm)
       = (Ret true, mkState (tr ++ evs) r k (Some b) fm)
       /\ In (Render Page
                (StWarning ("⚠️ Found NaN values: "
                            +++ py_str E (Dashboard.counts_to_dict
                                            (isnull_sum (Dashboard.weather_frame E k))))))
             evs.
Proof.
  intros Ht Hh Hw (x & Hin & Hnan).
  assert (Hok : Dashboard.range_error E = None).
  { unfold Dashboard.range_error, Dashboard.temperature_out_of_range,
      Dashboard.humidity_out_of_range, Dashboard.wind_out_of_range.
    rewrite !np_any_none; [reflexivity| | | | |].
    - intros y Hy. destruct (Hw y Hy) as [H|H].
      + apply (nan_compares_false y 0 H).
      + now apply leb_not_ltb.
    - intros y Hy. apply (within_not_outside 0 100 y (Hh y Hy)).
    - intros y Hy. apply (within_not_outside 0 100 y (Hh y Hy)).
    - intros y Hy. apply (within_not_outside (-50) 60 y (Ht y Hy)).
    - intros y Hy. apply (within_not_outside (-50) 60 y (Ht y Hy)). }
  split.
  - now rewrite (in_range_batch_returned E tr r k b fm Hok).
  - rewrite validate_dataframe_run by reflexivity.
    eexists. split; [reflexivity|]. unfold Dashboard.validate_events.
    rewrite null_is_counted.
    { apply in_or_app. right. apply in_or_app. left. left. reflexivity. }
    apply in_app_or in Hin. destruct Hin as [Hin|Hin];
      [|apply in_app_or in Hin; destruct Hin as [Hin|Hin]].
    + exists Dashboard.col_temperature, (FloatCol (Dashboard.temperature_data E)),
        (CFloat x).
      split; [right; left; reflexivity|]. split; [now apply in_map|exact Hnan].
    + exists Dashboard.col_humidity, (FloatCol (Dashboard.humidity_data E)),
        (CFloat x).
      split; [do 2 right; left; reflexivity|]. split; [now apply in_map|exact Hnan].
    + exists Dashboard.col_wind, (FloatCol (Dashboard.wind_data E)), (CFloat x).
      split; [do 3 right; left; reflexivity|]. split; [now apply in_map|exact Hnan].
Qed.

Lemma nan_passes_the_range_checks_witness :
  fst (Dashboard.generate_weather_data undefined_noise (resumed false))
  = Ret (Some (Dashboard.weather_frame undefined_noise 12))
  /\ exists evs,
       Dashboard.validate_dataframe undefined_noise
         (Dashboard.weather_frame undefined_noise 12) (resumed false)
       = (Ret true, mkState ([] ++ evs) 7 12 (Some false) [])
       /\ In (Render Page
                (StWarning ("⚠️ Found NaN values: "
                            +++ py_str undefined_noise
                                  (Dashboard.counts_to_dict
                                     (isnull_sum (Dashboard.weather_frame
                                                    undefined_noise 12))))))
             evs.
Proof.
  assert (all_nan : forall l, forallb is_nan l = true ->
                    forall x, In x l -> is_nan x = true).
  { intros l H. now apply forallb_forall. }
  apply (nan_passes_the_range_checks undefined_noise [] 7 12 false []).
  - intros x Hx. left. revert x Hx. apply all_nan. vm_compute. reflexivity.
  - intros x Hx. left. revert x Hx. apply all_nan. vm_compute. reflexivity.
  - intros x Hx. left. revert x Hx. apply all_nan. vm_compute. reflexivity.
  - exists nan. split; [vm_compute; left; reflexivity|reflexivity].
Defined.

(** ** The map script: temperatures, import, loading, tooltips *)

Lemma generate_temperature_run E debug_mode regions_gdf tr r k d fm :
  let g := WeatherMap.regions_with_temperature E regions_gdf in
  WeatherMap.generate_temperature E debug_mode regions_gdf (mkState tr r k d fm)
  = (Ret g,
     mkState (tr ++ debug_events debug_mode "Generating synthetic temperature data..." None
                 ++ debug_events debug_mode "Temperature data generated"
                      (Some (VDict
                         [("min_temp", VFloat (series_min E (Temperature_values g)));
                          ("max_temp", VFloat (series_max E (Temperature_values g)));
                          ("mean_temp", VFloat (series_mean E (Temperature_values g)))])))
             (snd (WeatherMap.uniform_draws E 26 34 (random_seed E 42)
                     (length (gdf_rows regions_gdf))))
             k d fm).
Proof.
  intros g. unfold WeatherMap.generate_temperature, try_except.
  emit_step. erewrite bind_ret by apply seed_run.
  erewrite bind_ret by apply random_uniform_run.
  cbv zeta. emit_step. unfold ret. rewrite <- app_assoc. reflexivity.
Qed.

(** X10: attaching the temperatures never fails and never stops the
    script. It keeps the rows, their order, regions and boundaries, gives
    each row exactly one temperature, the draw [26 + 8 * u] of its rank after
    [np.random.seed(42)], keeps every column and has the [Temperature] column
    afterwards; no error is shown. *)
Theorem one_temperature_per_region E debug_mode regions_gdf tr r k d fm :
  exists g evs r',
    WeatherMap.generate_temperature E debug_mode regions_gdf (mkState tr r k d fm)
    = (Ret g, mkState (tr ++ evs) r' k d fm)
    /\ map region (gdf_rows g) = map region (gdf_rows regions_gdf)
    /\ map geometry (gdf_rows g) = map geometry (gdf_rows regions_gdf)
    /\ map Temperature (gdf_rows g)
       = map Some (fst (WeatherMap.uniform_draws E 26 34 (random_seed E 42)
                          (length (gdf_rows regions_gdf))))
    /\ length (gdf_rows g) = length (gdf_rows regions_gdf)
    /\ gdf_has_column g "Temperature" = true
    /\ (forall c, gdf_has_column regions_gdf c = true -> gdf_has_column g c = true)
    /\ filter is_error evs = [].
Proof.
  rewrite generate_temperature_run. cbv zeta.
  eexists. eexists. eexists. split; [reflexivity|].
  destruct (set_Temperature_rows regions_gdf
              (fst (WeatherMap.uniform_draws E 26 34 (random_seed E 42)
                      (length (gdf_rows regions_gdf)))))
    as (H1 & H2 & H3); [apply uniform_draws_length|].
  unfold WeatherMap.regions_with_temperature.
  split; [exact H1|]. split; [exact H2|]. split; [exact H3|].
  split.
  { rewrite <- (length_map region), H1. apply length_map. }
  split; [|split].
  - unfold set_Temperature, gdf_has_column. cbn [gdf_columns].
    destruct (existsb (String.eqb "Temperature") (gdf_columns regions_gdf)) eqn:Hc;
      [exact Hc|].
    rewrite existsb_app. cbn. now rewrite orb_true_r.
  - intros c Hc. unfold set_Temperature, gdf_has_column in *. cbn [gdf_columns].
    destruct (existsb (String.eqb "Temperature") (gdf_columns regions_gdf));
      [exact Hc|].
    rewrite existsb_app, Hc. reflexivity.
  - now rewrite filter_app, !errors_of_debug_events.
Qed.

(** X11: only [ImportError] is handled when the dashboard module is
    imported. On [ImportError] the script shows one error and stops, having
    done nothing else; any other exception raised by the import escapes the
    script as it is, with nothing shown. *)
Theorem import_failure_handling E e tr r k d fm :
  import_dashboard E = Some e ->
  WeatherMap.main E (mkState tr r k d fm)
  = if is_class ImportError e
    then (Halt,
          mkState (tr ++ [Render Page (StError ("❌ Failed to import dashboard module: "
                                                +++ exn_str e))])
                  r k d fm)
    else (Raise e, mkState tr r k d fm).
Proof.
  intros H. unfold WeatherMap.main, WeatherMap.import_dashboard_module.
  unfold bind at 1. unfold try_except. rewrite H.
  erewrite bind_raise by reflexivity.
  destruct (is_class ImportError e); [|reflexivity].
  emit_step. reflexivity.
Qed.

Lemma import_failure_handling_witness :
  WeatherMap.main no_dashboard fresh
  = (Halt,
     mkState ([] ++ [Render Page
                       (StError "❌ Failed to import dashboard module: No module named 'dashboard'")])
             0 0 None [])
  /\ WeatherMap.main crashing_dashboard fresh
     = (Raise (Exn OtherError "invalid syntax"), fresh).
Proof.
  split.
  - apply (import_failure_handling no_dashboard
             (Exn ImportError "No module named 'dashboard'") [] 0 0 None []).
    reflexivity.
  - apply (import_failure_handling crashing_dashboard
             (Exn OtherError "invalid syntax") [] 0 0 None []).
    reflexivity.
Defined.

(** X12: a failure to read the boundary file is reported with one error
    and stops the script; the traceback is shown only in debug mode and only
    when the exception is not [FileNotFoundError], for which the fixed 'not
    found' text is shown instead of the text of the exception. *)
Theorem load_failure_report E debug_mode e tr r k d fm :
  read_file E WeatherMap.geojson_path = inl e ->
  exists evs,
    WeatherMap.load_regions E debug_mode (mkState tr r k d fm)
    = (Halt, mkState (tr ++ evs) r k d fm)
    /\ filter is_error evs
       = [Render Page
            (StError (if is_class FileNotFoundError e
                      then "❌ File 'singapore_regions.geojson' not found. Please ensure the file exists in the current directory."
                      else "❌ Error loading GeoJSON file: " +++ exn_str e))]
    /\ (In (Render Page (StCode (format_exc E e))) evs
        <-> debug_mode = true /\ is_class FileNotFoundError e = false).
Proof.
  intros H. rewrite load_regions_run. unfold geometry_error. rewrite H.
  eexists. split; [reflexivity|]. split.
  - rewrite filter_app, errors_of_debug_events.
    destruct (is_class FileNotFoundError e), debug_mode; reflexivity.
  - split.
    + intros Hin. apply in_app_or in Hin. destruct Hin as [Hin|Hin].
      { destruct debug_mode; [|destruct Hin].
        apply debug_events_kinds in Hin. destruct Hin as (Hin & _). discriminate. }
      destruct Hin as [Hin|Hin]; [discriminate|].
      destruct (is_class FileNotFoundError e); [destruct Hin|].
      destruct debug_mode; [auto|destruct Hin].
    + intros [-> ->]. apply in_or_app. right. right. left. reflexivity.
Qed.

Lemma load_failure_report_witness :
  exists evs,
    WeatherMap.load_regions corrupt_file true fresh
    = (Halt, mkState ([] ++ evs) 0 0 None [])
    /\ filter is_error evs
       = [Render Page (StError "❌ Error loading GeoJSON file: not a GeoJSON document")]
    /\ (In (Render Page (StCode (format_exc corrupt_file
                                   (Exn ValueError "not a GeoJSON document")))) evs
        <-> true = true /\ false = false).
Proof.
  apply (load_failure_report corrupt_file true
           (Exn ValueError "not a GeoJSON document") [] 0 0 None []).
  reflexivity.
Defined.

Lemma errors_of_tooltip_warnings E debug_mode columns rows : forall idx,
  filter is_error (WeatherMap.tooltip_warnings E debug_mode columns idx rows) = [].
Proof.
  induction rows as [|row rows IH]; intros idx; cbn; [reflexivity|].
  rewrite filter_app, IH.
  destruct (WeatherMap.tooltip_layer E columns row);
    [now rewrite errors_of_debug_events|reflexivity].
Qed.

(** X13: adding the tooltips never shows an error, whatever fails for a
    row, and in debug mode the closing line reports exactly the number of
    layers the loop added to the map. *)
Theorem tooltips_report_what_was_added E debug_mode regions_gdf tr rg k d fm :
  exists evs m,
    WeatherMap.add_tooltips E debug_mode regions_gdf (mkState tr rg k d fm)
    = (Ret tt, mkState (tr ++ evs) rg k d (fm ++ m))
    /\ filter is_error evs = []
    /\ length m <= length (gdf_rows regions_gdf)
    /\ (debug_mode = true ->
        In (Render Page
              (StWrite ("🔍 DEBUG: Tooltips added successfully for "
                        +++ str_of_N (N.of_nat (length m)) +++ " regions")))
           evs).
Proof.
  rewrite add_tooltips_run. eexists. eexists. split; [reflexivity|].
  split; [|split].
  - now rewrite !filter_app, !errors_of_debug_events, errors_of_tooltip_warnings.
  - pose proof (tooltip_rows_partition E (gdf_columns regions_gdf)
                  (gdf_rows regions_gdf)). lia.
  - intros ->. apply in_or_app. right. apply in_or_app. right. left. reflexivity.
Qed.

(** ** What the first tab shows *)

Lemma displays_of_debug_events b msg data :
  filter is_map_display (debug_events b msg data) = [].
Proof. apply filter_debug_events. intros ev H. now apply debug_events_kinds in H. Qed.

Lemma displays_of_tooltip_warnings E debug_mode columns rows : forall idx,
  filter is_map_display (WeatherMap.tooltip_warnings E debug_mode columns idx rows)
  = [].
Proof.
  induction rows as [|row rows IH]; intros idx; cbn; [reflexivity|].
  rewrite filter_app, IH.
  destruct (WeatherMap.tooltip_layer E columns row);
    [now rewrite displays_of_debug_events|reflexivity].
Qed.

Lemma set_map_run m tr r k d fm :
  WeatherMap.set_map m (mkState tr r k d fm) = (Ret tt, mkState tr r k d m).
Proof. reflexivity. Qed.

Lemma add_to_run l tr r k d fm :
  WeatherMap.add_to l (mkState tr r k d fm) = (Ret tt, mkState tr r k d (fm ++ [l])).
Proof. reflexivity. Qed.

Lemma create_map_run E debug_mode tr r k d fm :
  folium_Map E = None ->
  WeatherMap.create_map E debug_mode (mkState tr r k d fm)
  = (Ret tt,
     mkState (tr ++ debug_events debug_mode "Creating folium map..." None
                 ++ debug_events debug_mode "Map created successfully" None)
             r k d []).
Proof.
  intros H. unfold WeatherMap.create_map, try_except. emit_step. rewrite H.
  erewrite bind_ret by reflexivity. erewrite bind_ret by apply set_map_run.
  rewrite map_debug_print_run, <- app_assoc. reflexivity.
Qed.

Lemma add_choropleth_run E debug_mode regions_gdf tr r k d fm :
  folium_Choropleth E regions_gdf = None ->
  WeatherMap.add_choropleth E debug_mode regions_gdf (mkState tr r k d fm)
  = (Ret tt,
     mkState (tr ++ debug_events debug_mode "Adding choropleth layer..." None
                 ++ debug_events debug_mode "Choropleth layer added successfully" None)
             r k d (fm ++ [ChoroplethLayer regions_gdf])).
Proof.
  intros H. unfold WeatherMap.add_choropleth, try_except. emit_step. rewrite H.
  erewrite bind_ret by reflexivity. erewrite bind_ret by apply add_to_run.
  rewrite map_debug_print_run, <- app_assoc. reflexivity.
Qed.

(** A run with no fatal condition reaches the page with the choropleth and
    the tooltips on the map, and has displayed no map before. *)
Lemma main_reaches_page_with_map E regions_gdf tr r k d fm :
  import_dashboard E = None ->
  series_rejected E = false ->
  read_file E WeatherMap.geojson_path = inr regions_gdf ->
  gdf_empty regions_gdf = false ->
  folium_Map E = None ->
  folium_Choropleth E (WeatherMap.regions_with_temperature E regions_gdf) = None ->
  exists evs r' k' d',
    WeatherMap.main E (mkState tr r k d fm)
    = WeatherMap.page E (debug_checkbox E)
        (WeatherMap.regions_with_temperature E regions_gdf)
        (Some (Dashboard.weather_frame E k))
        (mkState (tr ++ evs) r' k' d' (final_map E regions_gdf))
    /\ filter is_map_display evs = [].
Proof.
  intros Himp Hseries Hfile Hempty Hmap Hch.
  unfold series_rejected in Hseries.
  destruct (Dashboard.range_error E) eqn:Hrange; [discriminate|].
  unfold WeatherMap.main.
  assert (Himport :
    WeatherMap.import_dashboard_module E (mkState tr r k d fm)
    = (Ret (Dashboard.weather_frame E k),
       mkState (tr ++ Dashboard.generate_events E k
                        (match d with Some b => b | None => false end)
                   ++ Dashboard.validate_events E
                        (match d with Some b => b | None => false end)
                        (Dashboard.weather_frame E k)
                   ++ [Render Page (StSuccess "✅ Successfully imported dashboard module")])
               (Dashboard.rng_end E) (k + Dashboard.num_points)
               (Some (match d with Some b => b | None => false end)) fm)).
  { unfold WeatherMap.import_dashboard_module, try_except. rewrite Himp.
    erewrite bind_ret by reflexivity.
    unfold bind at 1. rewrite top_level_run, Hrange. cbv zeta.
    emit_step. unfold ret. rewrite <- !app_assoc. reflexivity. }
  erewrite bind_ret by exact Himport. emit_step. cbv zeta.
  unfold bind at 1. rewrite load_regions_run, Hfile. cbv zeta. rewrite Hempty.
  unfold bind at 1. rewrite generate_temperature_run. cbv zeta.
  erewrite bind_ret by (apply create_map_run; exact Hmap).
  erewrite bind_ret by (apply add_choropleth_run; exact Hch).
  erewrite bind_ret by apply add_tooltips_run.
  rewrite <- !app_assoc. eexists. eexists. eexists. eexists.
  split; [reflexivity|].
  unfold Dashboard.generate_events, Dashboard.validate_events. rewrite Hrange.
  repeat (rewrite ?filter_app, ?displays_of_debug_events,
            ?displays_of_tooltip_warnings; cbn [app filter is_map_display]).
  destruct (existsb _ (isnull_sum _)); reflexivity.
Qed.

Lemma tab1_run E debug_mode tr r k d fm :
  WeatherMap.tab1 E debug_mode (mkState tr r k d fm)
  = (Ret tt,
     mkState (tr ++ Render (Tab 1) (StMarkdown "### Singapore Weather Map")
                 :: match st_folium E fm with
                    | None =>
                        [Render (Tab 1) (StFolium fm 700 500);
                         Render (Tab 1) (StSuccess "✅ Map displayed successfully")]
                    | Some e =>
                        Render (Tab 1) (StError ("❌ Error displaying map: " +++ exn_str e))
                        :: (if debug_mode
                            then [Render (Tab 1) (StCode (format_exc E e))]
                            else [])
                    end)
             r k d fm).
Proof.
  unfold WeatherMap.tab1, try_except. emit_step.
  erewrite bind_ret by reflexivity. cbn [folium_map].
  destruct (st_folium E fm) as [e|].
  - erewrite bind_raise by reflexivity. unfold Exception. emit_step.
    rewrite when_st_run, <- !app_assoc. now destruct debug_mode.
  - erewrite bind_ret by reflexivity. emit_step.
    rewrite st_run, <- !app_assoc. reflexivity.
Qed.

(** [emits] goals about elements that are not map displays. *)
Ltac emits_no_display :=
  emits_tac;
  first [apply emits_map_debug_print | apply emits_dashboard_debug_print];
  let ev := fresh "ev" in
  let H := fresh "H" in
  intros ev H; apply debug_events_kinds in H;
  destruct H as (_ & _ & H); cbn; now rewrite H.

(** X14: in a run without fatal condition the map handed to [st_folium] is
    the choropleth of the region frame with its temperatures followed by the
    tooltip layers of the rows whose tooltip could be built, in row order.
    The map is displayed once, in the first tab; when displaying it raises,
    the first tab shows the error instead of the map, and in both cases the
    script runs to its end. *)
Theorem first_tab_shows_choropleth_and_tooltips E regions_gdf tr r k d fm :
  import_dashboard E = None ->
  series_rejected E = false ->
  read_file E WeatherMap.geojson_path = inr regions_gdf ->
  gdf_empty regions_gdf = false ->
  folium_Map E = None ->
  folium_Choropleth E (WeatherMap.regions_with_temperature E regions_gdf) = None ->
  exists evs s',
    WeatherMap.main E (mkState tr r k d fm) = (Ret tt, s')
    /\ trace s' = tr ++ evs
    /\ match st_folium E (final_map E regions_gdf) with
       | None =>
           filter is_map_display evs
           = [Render (Tab 1) (StFolium (final_map E regions_gdf) 700 500)]
       | Some e =>
           filter is_map_display evs = []
           /\ In (Render (Tab 1) (StError ("❌ Error displaying map: " +++ exn_str e))) evs
       end.
Proof.
  intros Himp Hseries Hfile Hempty Hmap Hch.
  destruct (main_reaches_page_with_map E regions_gdf tr r k d fm
              Himp Hseries Hfile Hempty Hmap Hch)
    as (evs0 & r' & k' & d' & Hmain & Hnone).
  rewrite Hmain. unfold WeatherMap.page. do 2 emit_step.
  erewrite bind_ret by apply tab1_run.
  match goal with
  | |- exists evs s', ?c ?s = _ /\ _ =>
      assert (Hrest : emits (fun ev => negb (is_map_display ev)) c)
        by emits_no_display;
      assert (Hret : returns c) by returns_tac;
      destruct (Hrest s) as (evs1 & Hevs & Hp);
      destruct (Hret s) as ([] & Hend);
      destruct (c s) as [o s1]
  end.
  cbn [fst snd trace] in *. subst o.
  eexists. exists s1. split; [reflexivity|].
  rewrite Hevs, <- !app_assoc. split; [reflexivity|].
  repeat (rewrite ?filter_app, ?Hnone; cbn [app filter is_map_display]).
  rewrite (filter_none _ _ Hp).
  destruct (st_folium E (final_map E regions_gdf)) as [e|].
  - split.
    + destruct (debug_checkbox E); reflexivity.
    + apply in_or_app. right. do 3 right. left. reflexivity.
  - reflexivity.
Qed.

Lemma first_tab_shows_choropleth_and_tooltips_witness :
  (exists evs s',
      WeatherMap.main quiet fresh = (Ret tt, s')
      /\ trace s' = [] ++ evs
      /\ filter is_map_display evs
         = [Render (Tab 1) (StFolium (final_map quiet five_regions) 700 500)])
  /\ (exists evs s',
         WeatherMap.main no_display fresh = (Ret tt, s')
         /\ trace s' = [] ++ evs
         /\ filter is_map_display evs = []
         /\ In (Render (Tab 1) (StError "❌ Error displaying map: component error")) evs).
Proof.
  split.
  - apply (first_tab_shows_choropleth_and_tooltips quiet five_regions [] 0 0 None []);
      reflexivity.
  - apply (first_tab_shows_choropleth_and_tooltips no_display five_regions [] 0 0 None []);
      reflexivity.
Defined.

(** ** Metrics and chart of an arbitrary frame *)

Lemma current_value_general E df label s :
  Dashboard.current_value E df label s
  = (match df_get df label with
     | None => Raise (Exn KeyError ("'" +++ label +++ "'"))
     | Some c =>
         match rev (column_cells c) with
         | [] => Raise (Exn IndexError "single positional indexer is out-of-bounds")
         | v :: _ =>
             match format_cell_1f E v with
             | inl e => Raise e
             | inr value => Ret value
             end
         end
     end, s).
Proof.
  unfold Dashboard.current_value, Dashboard.df_getitem, Dashboard.iloc_last.
  destruct (df_get df label) as [c|]; [|reflexivity].
  erewrite bind_ret by reflexivity.
  destruct (rev (column_cells c)) as [|v ?]; [reflexivity|].
  erewrite bind_ret by reflexivity.
  destruct (format_cell_1f E v); reflexivity.
Qed.

Lemma map_metric_general E df i label what tr r k d fm :
  WeatherMap.current_metric E df i label what (mkState tr r k d fm)
  = (Ret tt,
     mkState (tr ++ [Render (Col i) (metric_element E df label what)]) r k d fm).
Proof.
  pose proof (current_value_general E df label (mkState tr r k d fm)) as Hcv.
  unfold WeatherMap.current_metric, try_except, metric_element.
  destruct (df_get df label) as [c|];
    [destruct (rev (column_cells c)) as [|v ?];
       [|destruct (format_cell_1f E v)]|];
    first [ erewrite bind_ret by exact Hcv | erewrite bind_raise by exact Hcv ];
    reflexivity.
Qed.

Lemma dashboard_metric_general E df i label suffix what What :
  exists msg, forall tr r k b fm,
    Dashboard.current_metric E df i label suffix what What
      (mkState tr r k (Some b) fm)
    = (Ret tt,
       mkState (tr ++ Render (Col i) (metric_element E df label what)
                   :: debug_events b msg None)
               r k (Some b) fm).
Proof.
  unfold Dashboard.current_metric, try_except, metric_element.
  destruct (df_get df label) as [c|] eqn:Hget;
    [destruct (rev (column_cells c)) as [|v ?] eqn:Hrev;
       [|destruct (format_cell_1f E v) eqn:Hfmt]|];
    eexists; intros tr r k b fm;
    first [ erewrite bind_ret
              by (etransitivity; [apply current_value_general|];
                  rewrite ?Hget, ?Hrev, ?Hfmt; reflexivity)
          | erewrite bind_raise
              by (etransitivity; [apply current_value_general|];
                  rewrite ?Hget, ?Hrev, ?Hfmt; reflexivity) ];
    unfold Exception; emit_step;
    rewrite dashboard_debug_print_run, <- app_assoc;
    reflexivity.
Qed.

Lemma chart_data_run df :
  match chart_columns df with
  | Some data => forall s, Dashboard.chart_data df s = (Ret data, s)
  | None => exists e, forall s, Dashboard.chart_data df s = (Raise e, s)
  end.
Proof.
  unfold chart_columns, Dashboard.chart_data, Dashboard.df_getitem. cbn [mapM].
  destruct (df_get df Dashboard.col_time);
    destruct (df_get df Dashboard.col_temperature);
    destruct (df_get df Dashboard.col_humidity);
    destruct (df_get df Dashboard.col_wind);
    first [ intros s; reflexivity | eexists; intros s; reflexivity ].
Qed.

Lemma tab2_general E debug_mode df tr r k d fm :
  exists tail,
    WeatherMap.tab2 E debug_mode (Some df) (mkState tr r k d fm)
    = (Ret tt,
       mkState
         (tr ++ [Render (Tab 2) (StSubheader "Current Values");
                 Render (Tab 2) (StColumns 3);
                 Render (Col 1) (metric_element E df Dashboard.col_temperature
                                                "temperature");
                 Render (Col 2) (metric_element E df Dashboard.col_humidity
                                                "humidity");
                 Render (Col 3) (metric_element E df Dashboard.col_wind
                                                "wind speed");
                 Render (Tab 2) (StMarkdown "---");
                 Render (Tab 2) (StSubheader "Trends Over Time")]
             ++ tail)
         r k d fm)
    /\ match chart_columns df with
       | Some data =>
           tail = match st_line_chart E (fst data) (snd data) with
                  | None =>
                      [Render (Tab 2) (StLineChart (fst data) (snd data));
                       Render (Tab 2)
                         (StSuccess "✅ Time series data displayed successfully")]
                  | Some e => tab2_failure E debug_mode e
                  end
       | None => exists e, tail = tab2_failure E debug_mode e
       end.
Proof.
  unfold WeatherMap.tab2.
  do 2 (erewrite try_except_bind_ret by apply st_run).
  do 3 (erewrite try_except_bind_ret by apply map_metric_general).
  do 2 (erewrite try_except_bind_ret by apply st_run).
  unfold try_except, tab2_failure.
  pose proof (chart_data_run df) as Hcd.
  destruct (chart_columns df) as [data|].
  - erewrite bind_ret by apply Hcd. unfold Dashboard.line_chart.
    destruct (st_line_chart E (fst data) (snd data)) as [e|].
    + erewrite bind_raise by (erewrite bind_raise by reflexivity; reflexivity).
      unfold Exception. emit_step. rewrite when_st_run, <- !app_assoc.
      eexists. split; reflexivity.
    + erewrite bind_ret
        by (erewrite bind_ret by reflexivity; apply st_run).
      rewrite st_run, <- !app_assoc. eexists. split; reflexivity.
  - destruct Hcd as [e Hcd]. erewrite bind_raise by apply Hcd.
    unfold Exception. emit_step. rewrite when_st_run, <- !app_assoc.
    eexists. split; [reflexivity|]. exists e. reflexivity.
Qed.

Lemma tab2_tail_kinds E debug_mode e :
  filter in_column (tab2_failure E debug_mode e) = []
  /\ filter is_outcome (tab2_failure E debug_mode e) = tab2_failure E debug_mode e.
Proof. destruct debug_mode; split; reflexivity. Qed.

(** X15: in the second tab of the map script each of the three columns gets
    exactly one element, whatever the frame: the metric of the last value of
    its own column, or the error of its own column when the column is
    missing, is empty or does not format. A failing metric leaves the other
    two as they are, and the tab runs to its end without changing anything
    but the page. *)
Theorem metrics_fail_independently E debug_mode df tr r k d fm :
  exists evs,
    WeatherMap.tab2 E debug_mode (Some df) (mkState tr r k d fm)
    = (Ret tt, mkState (tr ++ evs) r k d fm)
    /\ filter in_column evs
       = [Render (Col 1) (metric_element E df Dashboard.col_temperature "temperature");
          Render (Col 2) (metric_element E df Dashboard.col_humidity "humidity");
          Render (Col 3) (metric_element E df Dashboard.col_wind "wind speed")].
Proof.
  destruct (tab2_general E debug_mode df tr r k d fm) as (tail & Hrun & Htail).
  eexists. split; [exact Hrun|].
  rewrite filter_app. cbn [filter in_column app].
  enough (filter in_column tail = []) as -> by reflexivity.
  destruct (chart_columns df) as [data|].
  - subst tail. destruct (st_line_chart E (fst data) (snd data)) as [e|];
      [apply tab2_tail_kinds|reflexivity].
  - destruct Htail as [e ->]. apply tab2_tail_kinds.
Qed.

(** X16: the second tab shows its chart and its success line exactly when
    the frame has the time column and the three series and [st.line_chart]
    accepts them; otherwise it shows neither, but one error for the whole
    tab, followed by the traceback in debug mode. Errors of the metrics do
    not count: they stay in their columns. *)
Theorem tab2_succeeds_when_the_chart_is_drawn E debug_mode df tr r k d fm :
  exists evs,
    WeatherMap.tab2 E debug_mode (Some df) (mkState tr r k d fm)
    = (Ret tt, mkState (tr ++ evs) r k d fm)
    /\ match chart_columns df with
       | Some data =>
           filter is_outcome evs
           = match st_line_chart E (fst data) (snd data) with
             | None =>
                 [Render (Tab 2) (StLineChart (fst data) (snd data));
                  Render (Tab 2)
                    (StSuccess "✅ Time series data displayed successfully")]
             | Some e => tab2_failure E debug_mode e
             end
       | None => exists e, filter is_outcome evs = tab2_failure E debug_mode e
       end.
Proof.
  destruct (tab2_general E debug_mode df tr r k d fm) as (tail & Hrun & Htail).
  eexists. split; [exact Hrun|].
  rewrite filter_app. cbn [filter is_outcome app].
  destruct (chart_columns df) as [data|].
  - subst tail. destruct (st_line_chart E (fst data) (snd data)) as [e|];
      [apply tab2_tail_kinds|reflexivity].
  - destruct Htail as [e ->]. exists e. apply tab2_tail_kinds.
Qed.

Example metrics_of_a_hollow_frame :
  filter in_column
    (trace (snd (WeatherMap.tab2 quiet false (Some hollow_frame) fresh)))
  = [Render (Col 1)
       (StError "Error loading temperature: single positional indexer is out-of-bounds");
     Render (Col 2) (StError "Error loading humidity: 'Humidity (%)'");
     Render (Col 3) (StMetric "Wind Speed (km/h)" "9.5")].
Proof. vm_compute. reflexivity. Qed.

Lemma chart_block_general E df b :
  exists chart,
    (forall tr r k fm,
        try_except
          (data <- Dashboard.chart_data df ;;
           Dashboard.line_chart E Page data ;;
           Dashboard.debug_print "Chart displayed successfully" None)
          Exception
          (fun e =>
             st Page (StError ("❌ Error displaying chart: " +++ exn_str e)) ;;
             dbg <- Dashboard.session_debug_mode ;;
             when dbg (st Page (StCode (format_exc E e))))
          (mkState tr r k (Some b) fm)
        = (Ret tt, mkState (tr ++ chart) r k (Some b) fm))
    /\ match chart_columns df with
       | Some data =>
           chart = match st_line_chart E (fst data) (snd data) with
                   | None =>
                       Render Page (StLineChart (fst data) (snd data))
                       :: debug_events b "Chart displayed successfully" None
                   | Some e => chart_failure E b e
                   end
       | None => exists e, chart = chart_failure E b e
       end.
Proof.
  unfold try_except, chart_failure.
  pose proof (chart_data_run df) as Hcd.
  destruct (chart_columns df) as [data|].
  - destruct (st_line_chart E (fst data) (snd data)) as [e|] eqn:Hchart.
    + eexists. split; [|reflexivity]. intros tr r k fm.
      erewrite bind_ret by apply Hcd. unfold Dashboard.line_chart.
      rewrite Hchart.
      erewrite bind_raise by (erewrite bind_raise by reflexivity; reflexivity).
      unfold Exception. emit_step. erewrite bind_ret by reflexivity.
      rewrite when_st_run, <- !app_assoc. reflexivity.
    + eexists. split; [|reflexivity]. intros tr r k fm.
      erewrite bind_ret by apply Hcd. unfold Dashboard.line_chart.
      rewrite Hchart.
      erewrite bind_ret
        by (erewrite bind_ret by reflexivity; apply st_run).
      rewrite dashboard_debug_print_run, <- !app_assoc. reflexivity.
  - destruct Hcd as [e He].
    eexists. split; [|exists e; reflexivity]. intros tr r k fm.
    erewrite bind_raise by apply He.
    unfold Exception. emit_step. erewrite bind_ret by reflexivity.
    rewrite when_st_run, <- !app_assoc. reflexivity.
Qed.

Lemma show_dashboard_general E df b :
  exists m1 m2 m3 chart,
    (forall tr r k fm,
        Dashboard.show_dashboard E (Some df) (mkState tr r k (Some b) fm)
        = (Ret tt,
           mkState
             (tr ++ [Render Page (StTitle "Weather Dashboard");
                     Render Page (StSubheader "Current Values");
                     Render Page (StColumns 3)]
                 ++ (Render (Col 1)
                       (metric_element E df Dashboard.col_temperature "temperature")
                     :: debug_events b m1 None)
                 ++ (Render (Col 2)
                       (metric_element E df Dashboard.col_humidity "humidity")
                     :: debug_events b m2 None)
                 ++ (Render (Col 3)
                       (metric_element E df Dashboard.col_wind "wind speed")
                     :: debug_events b m3 None)
                 ++ [Render Page (StMarkdown "---");
                     Render Page (StSubheader "Trends Over Time")]
                 ++ chart ++ dashboard_closing E df b)
             r k (Some b) fm))
    /\ match chart_columns df with
       | Some data =>
           chart = match st_line_chart E (fst data) (snd data) with
                   | None =>
                       Render Page (StLineChart (fst data) (snd data))
                       :: debug_events b "Chart displayed successfully" None
                   | Some e => chart_failure E b e
                   end
       | None => exists e, chart = chart_failure E b e
       end.
Proof.
  destruct (dashboard_metric_general E df 1 Dashboard.col_temperature
              "°C" "temperature" "Temperature") as [m1 H1].
  destruct (dashboard_metric_general E df 2 Dashboard.col_humidity
              "%" "humidity" "Humidity") as [m2 H2].
  destruct (dashboard_metric_general E df 3 Dashboard.col_wind
              " km/h" "wind speed" "Wind speed") as [m3 H3].
  destruct (chart_block_general E df b) as (chart & Hchart & Hspec).
  exists m1, m2, m3, chart. split; [|exact Hspec].
  intros tr r k fm. unfold Dashboard.show_dashboard, dashboard_closing.
  erewrite try_except_bind_ret by apply st_run. cbv beta iota.
  do 2 (erewrite try_except_bind_ret by apply st_run).
  erewrite try_except_bind_ret by apply H1.
  erewrite try_except_bind_ret by apply H2.
  erewrite try_except_bind_ret by apply H3.
  do 2 (erewrite try_except_bind_ret by apply st_run).
  erewrite try_except_bind_ret by apply Hchart.
  erewrite try_except_bind_ret by reflexivity.
  destruct b; cbn [when].
  - unfold try_except.
    destruct (df_get df Dashboard.col_time) as [time|] eqn:Htime.
    + erewrite bind_ret
        by (do 3 emit_step;
            erewrite bind_ret
              by (unfold Dashboard.df_getitem; rewrite Htime; reflexivity);
            do 2 emit_step; apply st_run).
      rewrite st_run, <- !app_assoc. reflexivity.
    + erewrite bind_raise
        by (do 3 emit_step;
            erewrite bind_raise
              by (unfold Dashboard.df_getitem; rewrite Htime; reflexivity);
            reflexivity).
      unfold Exception. emit_step. erewrite bind_ret by reflexivity.
      rewrite when_st_run, <- !app_assoc. reflexivity.
  - erewrite try_except_bind_ret by reflexivity.
    unfold try_except. rewrite st_run, <- !app_assoc. reflexivity.
Qed.

Lemma debug_events_places msg data ev :
  In ev (debug_events true msg data) ->
  in_column ev = false /\ is_outcome ev = false.
Proof.
  unfold debug_events. destruct data; cbn; intuition (subst; auto).
Qed.

Lemma columns_of_debug_events b msg data :
  filter in_column (debug_events b msg data) = [].
Proof. apply filter_debug_events. intros ev H. now apply debug_events_places in H. Qed.

Lemma outcomes_of_debug_events b msg data :
  filter is_outcome (debug_events b msg data) = [].
Proof. apply filter_debug_events. intros ev H. now apply debug_events_places in H. Qed.

Lemma chart_failure_kinds E b e :
  filter in_column (chart_failure E b e) = []
  /\ filter is_outcome (chart_failure E b e) = chart_failure E b e.
Proof. destruct b; split; reflexivity. Qed.

(** X17: [show_dashboard] runs to its end for every frame. Each of the three
    columns gets the metric or the error of its own column. When the chart
    cannot be drawn, one error says so (with the traceback in debug mode),
    and the success line is shown all the same: outside debug mode it is
    shown for every frame. Only in debug mode, and only for a frame without
    time column, the data summary fails: then the dashboard error and its
    traceback take the place of the success line. *)
Theorem dashboard_reports_success_despite_failures E df b tr r k fm :
  exists evs chart,
    Dashboard.show_dashboard E (Some df) (mkState tr r k (Some b) fm)
    = (Ret tt, mkState (tr ++ evs) r k (Some b) fm)
    /\ filter in_column evs
       = [Render (Col 1) (metric_element E df Dashboard.col_temperature "temperature");
          Render (Col 2) (metric_element E df Dashboard.col_humidity "humidity");
          Render (Col 3) (metric_element E df Dashboard.col_wind "wind speed")]
    /\ filter is_outcome evs
       = chart
         ++ match df_get df Dashboard.col_time with
            | None =>
                if b
                then [Render Page (StError "❌ Error displaying dashboard: 'Time'");
                      Render Page
                        (StCode (format_exc E (Exn KeyError "'Time'")))]
                else [Render Page (StSuccess "✅ Dashboard displayed successfully")]
            | Some _ =>
                [Render Page (StSuccess "✅ Dashboard displayed successfully")]
            end
    /\ match chart_columns df with
       | Some data =>
           chart = match st_line_chart E (fst data) (snd data) with
                   | None => [Render Page (StLineChart (fst data) (snd data))]
                   | Some e => chart_failure E b e
                   end
       | None => exists e, chart = chart_failure E b e
       end.
Proof.
  destruct (show_dashboard_general E df b)
    as (m1 & m2 & m3 & chart & Hrun & Hchart).
  eexists. exists (filter is_outcome chart).
  split; [apply Hrun|].
  assert (Hcols : filter in_column chart = []).
  { destruct (chart_columns df) as [data|].
    - subst chart. destruct (st_line_chart E (fst data) (snd data)).
      + apply chart_failure_kinds.
      + cbn [filter in_column]. apply columns_of_debug_events.
    - destruct Hchart as [e ->]. apply chart_failure_kinds. }
  split; [|split].
  - rewrite !filter_app, Hcols. cbn [filter in_column app].
    rewrite !columns_of_debug_events. cbn [app].
    enough (filter in_column (dashboard_closing E df b) = []) as ->
        by reflexivity.
    unfold dashboard_closing.
    destruct b; [destruct (df_get df Dashboard.col_time)|]; reflexivity.
  - rewrite !filter_app. cbn [filter is_outcome app].
    rewrite !outcomes_of_debug_events. cbn [app]. f_equal.
    unfold dashboard_closing.
    destruct b, (df_get df Dashboard.col_time); reflexivity.
  - destruct (chart_columns df) as [data|].
    + subst chart. destruct (st_line_chart E (fst data) (snd data)).
      * apply chart_failure_kinds.
      * cbn [filter is_outcome]. now rewrite outcomes_of_debug_events.
    + destruct Hchart as [e ->]. exists e. apply chart_failure_kinds.
Qed.

Example chart_failure_in_both_scripts :
  let df := Dashboard.weather_frame no_chart 0 in
  filter is_outcome
    (trace (snd (Dashboard.show_dashboard no_chart (Some df) (resumed false))))
  = [Render Page (StError "❌ Error displaying chart: chart error");
     Render Page (StSuccess "✅ Dashboard displayed successfully")]
  /\ filter is_outcome
       (trace (snd (WeatherMap.tab2 no_chart false (Some df) fresh)))
     = [Render (Tab 2) (StError "❌ Error displaying time series data: chart error")].
Proof. cbv zeta. split; vm_compute; reflexivity. Qed.
